(** * Mooer GE150 Pro Li: wire codec, preset records and file containers

    A shallow embedding of the Python package [mooer_ge150_mcp]:
    - [protocol/framing.py]   (64-byte HID reports, chunking, parsing),
    - [protocol/commands.py]  (command identifiers and validated builders),
    - [protocol/parser.py]    (typed responses and their dispatch),
    - [models/effects.py], [models/preset.py] (the 512-byte preset record),
    - [models/file_formats.py] (the [.mo], [.gnr] and [.mbf] containers),
    followed by the properties of these functions.  [utils/crc.py] is not
    among the sources: the codec is embedded over an arbitrary checksum
    function, and module [Crc] gives one such function to evaluate it
    with.

    Python values are modelled as follows.  An [int] is a [Z].  A [bytes] or
    [bytearray] object is a [list byte].  A [str] is the list of its code
    points.  A function that can raise returns a [result]; [None] is the
    [None] of [option]. *)

From Stdlib Require Import ZArith Lia.
From Stdlib Require Import Strings.Byte DecimalString.
From stdpp Require Import base decidable list strings gmap.
From Equations Require Import Equations.

Local Open Scope Z_scope.

(** ** Python primitives *)

(** The exceptions that the modelled code can raise. *)
Inductive exn : Type :=
| ValueError
| OverflowError
| IndexError
| KeyError.

Inductive result (A : Type) : Type :=
| Ok (a : A)
| Raise (e : exn).
Arguments Ok {A} a.
Arguments Raise {A} e.

Definition bind {A B : Type} (r : result A) (k : A -> result B) : result B :=
  match r with
  | Ok a => k a
  | Raise e => Raise e
  end.

Notation "x <~ r ; k" := (bind r (fun x => k))
  (at level 100, r at next level, right associativity,
   format "'[v' x  <~  r ; '/' k ']'").

#[global] Instance exn_eq_dec : EqDecision exn.
Proof. solve_decision. Defined.

#[global] Instance byte_eq_dec : EqDecision byte := Byte.byte_eq_dec.

Abbreviation bytes := (list byte).

(** [b[i]] read as an [int]. *)
Definition byte_to_int (b : byte) : Z := Z.of_N (Byte.to_N b).

(** The byte of an [int] in [range(256)], if it is one. *)
Definition int_to_byte (z : Z) : option byte :=
  if decide (0 <= z) then Byte.of_N (Z.to_N z) else None.

(** [bytes([x0, x1, ...])]: [ValueError] unless every element is in
    [range(256)]. *)
Fixpoint bytes_of (xs : list Z) : result bytes :=
  match xs with
  | [] => Ok []
  | x :: xs' =>
      match int_to_byte x with
      | None => Raise ValueError
      | Some b => bs <~ bytes_of xs'; Ok (b :: bs)
      end
  end.

(** [x & 0xFF] stored into a [bytearray]: the mask makes the value a byte
    for every [int], so the [x00] branch is never taken (lemma
    [int_to_byte_mask]). *)
Definition byte_of_masked (x : Z) : byte :=
  default x00 (int_to_byte (Z.land x 255)).

(** [l[a:b]] for indices [0 <= a] and [0 <= b]; Python clips both to the
    length, and the slice is empty when [b <= a]. *)
Definition slice {A : Type} (a b : nat) (l : list A) : list A :=
  take (b - a) (drop a l).

(** [data[i]] on [bytes], for [0 <= i]: the byte as an [int], or
    [IndexError]. *)
Definition getitem (l : bytes) (i : nat) : result Z :=
  match l !! i with
  | Some b => Ok (byte_to_int b)
  | None => Raise IndexError
  end.

(** [buf[i] = v] on a [bytearray], for [0 <= i]. *)
Definition setitem (l : bytes) (i : nat) (v : byte) : result bytes :=
  if decide (i < length l)%nat then Ok (<[i := v]> l) else Raise IndexError.

(** [buf[a:b] = v] on a [bytearray], for [0 <= a <= b]: the slice is
    replaced by [v], whatever the length of [v], so the buffer can shrink or
    grow. *)
Definition slice_assign (buf : bytes) (a b : nat) (v : bytes) : bytes :=
  take a buf ++ v ++ drop b buf.

(** [n.to_bytes(2, "little")]. *)
Definition to_bytes2_little (n : Z) : result bytes :=
  if decide (0 <= n < 65536)
  then bytes_of [n mod 256; n / 256]
  else Raise OverflowError.

(** [int.from_bytes(bs, "little")]; the empty string gives 0. *)
Fixpoint from_bytes_little (bs : bytes) : Z :=
  match bs with
  | [] => 0
  | b :: bs' => byte_to_int b + 256 * from_bytes_little bs'
  end.

(** [b"\x00" * n]: empty when [n <= 0]. *)
Definition zeros (n : Z) : bytes := replicate (Z.to_nat n) x00.

(** [len(x)]. *)
Definition len {A : Type} (l : list A) : Z := Z.of_nat (length l).

(** ** protocol/framing.py *)

Definition PREAMBLE : bytes := [xaa; x55].
Definition HID_REPORT_SIZE : Z := 64.
Definition MAX_PAYLOAD_PER_FRAME : Z := 58.  (* not used by the code *)

Record Frame : Type := mkFrame { command : Z; payload : bytes }.

Section Framing.

(** [utils/crc.py] is not part of the sources at hand: the frame codec is
    embedded over an arbitrary checksum function. *)
Variable crc16 : bytes -> Z.

Definition build_frame (command : Z) (payload : bytes) : result bytes :=
  c <~ bytes_of [command];
  let body := c ++ payload in
  size <~ to_bytes2_little (len body);
  checksum <~ to_bytes2_little (crc16 body);
  let frame := PREAMBLE ++ size ++ body ++ checksum in
  let hid_size := len frame in
  h <~ bytes_of [hid_size];
  Ok (h ++ frame ++ zeros (HID_REPORT_SIZE - 1 - len frame)).

(** The [while offset < len(full_message)] loop of
    [build_chunked_frames]; [frames] is the list built so far. *)
Equations? chunk_loop (full_message : bytes) (offset : nat)
    (frames : list bytes) : result (list bytes)
    by wf (length full_message - offset)%nat lt :=
  chunk_loop full_message offset frames
    with decide (offset < length full_message)%nat := {
    | left _ =>
        let chunk := slice offset (offset + 63) full_message in
        match bytes_of [len chunk] with
        | Raise e => Raise e
        | Ok h =>
            let report := h ++ chunk ++ zeros (63 - len chunk) in
            chunk_loop full_message (offset + 63) (frames ++ [report])
        end
    | right _ => Ok frames }.
Proof. lia. Qed.

Definition build_chunked_frames (command : Z) (payload : bytes)
  : result (list bytes) :=
  c <~ bytes_of [command];
  let body := c ++ payload in
  size_bytes <~ to_bytes2_little (len body);
  checksum <~ to_bytes2_little (crc16 body);
  let full_message := PREAMBLE ++ size_bytes ++ body ++ checksum in
  if decide (len full_message <= HID_REPORT_SIZE - 1)
  then r <~ build_frame command payload; Ok [r]
  else chunk_loop full_message 0 [].

Definition parse_frame (data : bytes) : result (option Frame) :=
  if decide (len data < 8) then Ok None else
  hid_size <~ getitem data 0;
  if decide (hid_size < 7) then Ok None else
  if decide (slice 1 3 data <> PREAMBLE) then Ok None else
  let body_size := from_bytes_little (slice 3 5 data) in
  if decide (body_size < 1) then Ok None else
  command <~ getitem data 5;
  let payload := slice 6 (Z.to_nat (5 + body_size)) data in
  let body := slice 5 (Z.to_nat (5 + body_size)) data in
  let expected_checksum :=
    from_bytes_little
      (slice (Z.to_nat (5 + body_size)) (Z.to_nat (5 + body_size + 2)) data) in
  let actual_checksum := crc16 body in
  if decide (actual_checksum <> expected_checksum) then Ok None else
  Ok (Some (mkFrame command payload)).

(** The [for report in reports] loop of [parse_chunked_frames]. *)
Fixpoint assemble (reports : list bytes) (assembled : bytes)
  : result bytes :=
  match reports with
  | [] => Ok assembled
  | report :: rest =>
      if decide (len report < 1) then assemble rest assembled else
      chunk_size <~ getitem report 0;
      assemble rest (assembled ++ slice 1 (Z.to_nat (1 + chunk_size)) report)
  end.

Definition parse_chunked_frames (reports : list bytes)
  : result (option Frame) :=
  assembled <~ assemble reports [];
  if decide (len assembled < 7) then Ok None else
  if decide (slice 0 2 assembled <> PREAMBLE) then Ok None else
  let body_size := from_bytes_little (slice 2 4 assembled) in
  if decide (body_size < 1) then Ok None else
  command <~ getitem assembled 4;
  let payload := slice 5 (Z.to_nat (4 + body_size)) assembled in
  let body := slice 4 (Z.to_nat (4 + body_size)) assembled in
  let expected_checksum :=
    from_bytes_little
      (slice (Z.to_nat (4 + body_size)) (Z.to_nat (4 + body_size + 2))
         assembled) in
  let actual_checksum := crc16 body in
  if decide (actual_checksum <> expected_checksum) then Ok None else
  Ok (Some (mkFrame command payload)).

End Framing.

(** ** protocol/commands.py *)

(** [class Command(IntEnum)]. *)
Inductive Command : Type :=
| IDENTIFY | MENU | PRESET | PEDAL_ASSIGN_ALT | CAB_MODELS | FOOT_SWITCH
| FX | DS_OD | AMP | CAB | NS_GATE | EQ | MOD | DELAY | REVERB
| SYSTEM | VOLUME | PEDAL_ASSIGNMENT | PATCH_ALTERNATE | PATCH_SETTING
| ACTIVE_PATCH | STORE_PATCH | ACTIVE_PATCH_SETTING
| CABINET_UPLOAD | AMP_UPLOAD | AMP_MODELS.

#[global] Instance Command_eq_dec : EqDecision Command.
Proof. solve_decision. Defined.

(** [member.value]. *)
Definition Command_value (c : Command) : Z :=
  match c with
  | IDENTIFY => 0x10 | MENU => 0x82 | PRESET => 0x83
  | PEDAL_ASSIGN_ALT => 0x84 | CAB_MODELS => 0x85 | FOOT_SWITCH => 0x89
  | FX => 0x90 | DS_OD => 0x91 | AMP => 0x93 | CAB => 0x94
  | NS_GATE => 0x95 | EQ => 0x96 | MOD => 0x97 | DELAY => 0x98
  | REVERB => 0x99 | SYSTEM => 0xA1 | VOLUME => 0xA2
  | PEDAL_ASSIGNMENT => 0xA3 | PATCH_ALTERNATE => 0xA4
  | PATCH_SETTING => 0xA5 | ACTIVE_PATCH => 0xA6 | STORE_PATCH => 0xA8
  | ACTIVE_PATCH_SETTING => 0xA9 | CABINET_UPLOAD => 0xE1
  | AMP_UPLOAD => 0xE2 | AMP_MODELS => 0xE3
  end.

Definition Command_members : list Command :=
  [ IDENTIFY; MENU; PRESET; PEDAL_ASSIGN_ALT; CAB_MODELS; FOOT_SWITCH;
    FX; DS_OD; AMP; CAB; NS_GATE; EQ; MOD; DELAY; REVERB;
    SYSTEM; VOLUME; PEDAL_ASSIGNMENT; PATCH_ALTERNATE; PATCH_SETTING;
    ACTIVE_PATCH; STORE_PATCH; ACTIVE_PATCH_SETTING;
    CABINET_UPLOAD; AMP_UPLOAD; AMP_MODELS ].

(** [Command(v)]: the member whose value is [v]; an [IntEnum] raises
    [ValueError] when no member has that value. *)
Definition Command_of_value (v : Z) : result Command :=
  match list_find (fun c => Command_value c = v) Command_members with
  | Some (_, c) => Ok c
  | None => Raise ValueError
  end.

Definition MODULE_COMMAND_MAP : gmap string Command :=
  list_to_map
    [ ("fx", FX); ("od", DS_OD); ("amp", AMP); ("cab", CAB);
      ("ns", NS_GATE); ("eq", EQ); ("mod", MOD); ("delay", DELAY);
      ("reverb", REVERB) ].

(** [d[k]] on a [dict]. *)
Definition dict_getitem {V : Type} (d : gmap string V) (k : string)
  : result V :=
  match d !! k with
  | Some v => Ok v
  | None => Raise KeyError
  end.

Section Commands.

Variable crc16 : bytes -> Z.

Definition build_command (command : Command) (payload : bytes)
  : result bytes :=
  build_frame crc16 (Command_value command) payload.

Definition build_identify : result bytes := build_command IDENTIFY [].

Definition build_select_preset (slot : Z) : result bytes :=
  if decide (~ (0 <= slot <= 199)) then Raise ValueError else
  p <~ bytes_of [slot];
  build_command ACTIVE_PATCH p.

Definition build_read_preset (slot : Z) : result bytes :=
  if decide (~ (0 <= slot <= 199)) then Raise ValueError else
  p <~ bytes_of [slot];
  build_command PRESET p.

Definition build_store_preset (slot : Z) (preset_data : bytes)
  : result (list bytes) :=
  if decide (~ (0 <= slot <= 199)) then Raise ValueError else
  if decide (len preset_data <> 0x200) then Raise ValueError else
  s <~ bytes_of [slot];
  let payload := s ++ preset_data in
  build_chunked_frames crc16 (Command_value STORE_PATCH) payload.

Definition build_effect_param (module : string) (param_index value : Z)
  : result bytes :=
  if decide (MODULE_COMMAND_MAP !! module = None) then Raise ValueError else
  if decide (~ (0 <= value <= 255)) then Raise ValueError else
  cmd <~ dict_getitem MODULE_COMMAND_MAP module;
  p <~ bytes_of [param_index; value];
  build_command cmd p.

Definition build_toggle_effect (module : string) (enabled : bool)
  : result bytes :=
  build_effect_param module 1 (if enabled then 1 else 0).

Definition build_set_volume (volume : Z) : result bytes :=
  if decide (~ (0 <= volume <= 100)) then Raise ValueError else
  p <~ bytes_of [volume];
  build_command VOLUME p.

Definition build_get_volume : result bytes := build_command VOLUME [].

Definition build_get_system_settings : result bytes :=
  build_command SYSTEM [].

Definition build_set_system_setting (setting_index value : Z)
  : result bytes :=
  p <~ bytes_of [setting_index; value];
  build_command SYSTEM p.

End Commands.

(** ** Strings *)

(** A Python [str], as the list of its code points. *)
Abbreviation str := (list N).

(** A literal: the code points of an ASCII string. *)
Definition str_lit (s : string) : str :=
  map Ascii.N_of_ascii (String.list_ascii_of_string s).

(** [s.encode("ascii", errors="replace")]: a character outside ASCII becomes
    ["?"]. *)
Definition encode_ascii_replace (s : str) : bytes :=
  map (fun c : N =>
         if decide (c < 128)%N then default x3f (Byte.of_N c) else x3f) s.

(** [bs.decode("ascii", errors="replace")]: a byte outside ASCII becomes
    U+FFFD. *)
Definition decode_ascii_replace (bs : bytes) : str :=
  map (fun b : byte =>
         if decide (Byte.to_N b < 128)%N then Byte.to_N b else 0xFFFD%N) bs.

(** [bs.split(b"\x00")[0]]: the bytes before the first null. *)
Fixpoint before_null (bs : bytes) : bytes :=
  match bs with
  | [] => []
  | b :: bs' => if decide (b = x00) then [] else b :: before_null bs'
  end.

(** [str(b)] for an [int]: its decimal digits. *)
Definition str_of_int (n : Z) : str :=
  str_lit (DecimalString.NilZero.string_of_int (Z.to_int n)).

(** [sep.join(parts)]. *)
Fixpoint join (sep : str) (parts : list str) : str :=
  match parts with
  | [] => []
  | [p] => p
  | p :: ps => p ++ sep ++ join sep ps
  end.

(** ** protocol/parser.py *)

(** The response dataclasses. *)
Inductive Response : Type :=
| IdentifyResponse (firmware device_name : str) (raw : bytes)
| PresetResponse (slot : Z) (data : bytes)
| ActivePatchResponse (slot : Z)
| VolumeResponse (volume : Z)
| SystemResponse (data : bytes).

Definition parse_identify (frame : Frame) : result (option Response) :=
  if decide (command frame <> Command_value IDENTIFY) then Ok None else
  let payload := payload frame in
  if decide (len payload < 16)
  then Ok (Some (IdentifyResponse (str_lit "unknown") (str_lit "unknown")
                   payload))
  else
    let fw_bytes := slice 0 5 payload in
    let firmware_parts :=
      map (fun b => str_of_int (byte_to_int b))
          (filter (fun b => byte_to_int b <> 0) fw_bytes) in
    let firmware :=
      match firmware_parts with
      | [] => str_lit "unknown"
      | _ => join (str_lit ".") firmware_parts
      end in
    let name_bytes := slice 5 16 payload in
    let device_name := decode_ascii_replace (before_null name_bytes) in
    Ok (Some (IdentifyResponse firmware device_name payload)).

Definition parse_preset_response (frame : Frame)
  : result (option Response) :=
  if decide (command frame <> Command_value PRESET) then Ok None else
  if decide (len (payload frame) < 1) then Ok None else
  slot <~ getitem (payload frame) 0;
  let data := drop 1 (payload frame) in
  Ok (Some (PresetResponse slot data)).

Definition parse_active_patch (frame : Frame) : result (option Response) :=
  if decide (command frame <> Command_value ACTIVE_PATCH) then Ok None else
  if decide (len (payload frame) < 1) then Ok None else
  slot <~ getitem (payload frame) 0;
  Ok (Some (ActivePatchResponse slot)).

Definition parse_volume (frame : Frame) : result (option Response) :=
  if decide (command frame <> Command_value VOLUME) then Ok None else
  if decide (len (payload frame) < 1) then Ok None else
  volume <~ getitem (payload frame) 0;
  Ok (Some (VolumeResponse volume)).

Definition parse_system (frame : Frame) : result (option Response) :=
  if decide (command frame <> Command_value SYSTEM) then Ok None else
  Ok (Some (SystemResponse (payload frame))).

(** The [parsers] dictionary of [parse_response], with its [.get]. *)
Definition parsers_get (c : Command)
  : option (Frame -> result (option Response)) :=
  match c with
  | IDENTIFY => Some parse_identify
  | PRESET => Some parse_preset_response
  | ACTIVE_PATCH => Some parse_active_patch
  | VOLUME => Some parse_volume
  | SYSTEM => Some parse_system
  | _ => None
  end.

(** What [parse_response] returns: a response dataclass, or the frame it
    was given. *)
Inductive Parsed : Type :=
| Typed (r : Response)
| Untyped (f : Frame).

Definition parse_response (frame : Frame) : result Parsed :=
  key <~ Command_of_value (command frame);
  match parsers_get key with
  | Some parser =>
      res <~ parser frame;
      match res with
      | Some r => Ok (Typed r)
      | None => Ok (Untyped frame)
      end
  | None => Ok (Untyped frame)
  end.

(** ** models/effects.py *)

(** The start of every [from_bytes]: data shorter than the record is
    padded with zeros. *)
Definition pad_to (size : Z) (data : bytes) : bytes :=
  if decide (len data < size) then data ++ zeros (size - len data) else data.

(** FX / Compressor module (13 bytes). *)
Module FXModule.

Definition SIZE : Z := 13.

Record t : Type := mk {
  header : Z;
  enabled : Z;
  type : Z;
  q : Z;
  position : Z;
  peak : Z;
  level : Z;
  reserved : bytes }.

Definition to_bytes (self : t) : result bytes :=
  h <~ bytes_of
         [ header self; enabled self; type self;
           q self; position self; peak self; level self ];
  Ok (h ++ take 6 (reserved self)).

Definition from_bytes (data : bytes) : result t :=
  let data := pad_to SIZE data in
  header <~ getitem data 0;
  enabled <~ getitem data 1;
  type <~ getitem data 2;
  q <~ getitem data 3;
  position <~ getitem data 4;
  peak <~ getitem data 5;
  level <~ getitem data 6;
  Ok (mk header enabled type q position peak level
        (slice 7 13 data)).

(** The dataclass defaults. *)
Definition default : t :=
  mk 0 0 0 0 0 0 0 (zeros 6).

End FXModule.

(** Distortion / Overdrive module (11 bytes). *)
Module DistortionModule.

Definition SIZE : Z := 11.

Record t : Type := mk {
  header : Z;
  enabled : Z;
  type : Z;
  volume : Z;
  tone : Z;
  gain : Z;
  reserved : bytes }.

Definition to_bytes (self : t) : result bytes :=
  h <~ bytes_of
         [ header self; enabled self; type self;
           volume self; tone self; gain self ];
  Ok (h ++ take 5 (reserved self)).

Definition from_bytes (data : bytes) : result t :=
  let data := pad_to SIZE data in
  header <~ getitem data 0;
  enabled <~ getitem data 1;
  type <~ getitem data 2;
  volume <~ getitem data 3;
  tone <~ getitem data 4;
  gain <~ getitem data 5;
  Ok (mk header enabled type volume tone gain
        (slice 6 11 data)).

(** The dataclass defaults. *)
Definition default : t :=
  mk 0 0 0 0 0 0 (zeros 5).

End DistortionModule.

(** Amp model module (17 bytes). *)
Module AmpModule.

Definition SIZE : Z := 17.

Record t : Type := mk {
  header : Z;
  enabled : Z;
  type : Z;
  amp_gain : Z;
  bass : Z;
  mid : Z;
  treble : Z;
  presence : Z;
  master : Z;
  reserved : bytes }.

Definition to_bytes (self : t) : result bytes :=
  h <~ bytes_of
         [ header self; enabled self; type self;
           amp_gain self; bass self; mid self; treble self; presence self; master self ];
  Ok (h ++ take 8 (reserved self)).

Definition from_bytes (data : bytes) : result t :=
  let data := pad_to SIZE data in
  header <~ getitem data 0;
  enabled <~ getitem data 1;
  type <~ getitem data 2;
  amp_gain <~ getitem data 3;
  bass <~ getitem data 4;
  mid <~ getitem data 5;
  treble <~ getitem data 6;
  presence <~ getitem data 7;
  master <~ getitem data 8;
  Ok (mk header enabled type amp_gain bass mid treble presence master
        (slice 9 17 data)).

(** The dataclass defaults. *)
Definition default : t :=
  mk 0 0 0 0 0 0 0 0 0 (zeros 8).

End AmpModule.

(** Cabinet simulation module (13 bytes). *)
Module CabModule.

Definition SIZE : Z := 13.

Record t : Type := mk {
  header : Z;
  enabled : Z;
  type : Z;
  mic : Z;
  center : Z;
  distance : Z;
  tube : Z;
  reserved : bytes }.

Definition to_bytes (self : t) : result bytes :=
  h <~ bytes_of
         [ header self; enabled self; type self;
           mic self; center self; distance self; tube self ];
  Ok (h ++ take 6 (reserved self)).

Definition from_bytes (data : bytes) : result t :=
  let data := pad_to SIZE data in
  header <~ getitem data 0;
  enabled <~ getitem data 1;
  type <~ getitem data 2;
  mic <~ getitem data 3;
  center <~ getitem data 4;
  distance <~ getitem data 5;
  tube <~ getitem data 6;
  Ok (mk header enabled type mic center distance tube
        (slice 7 13 data)).

(** The dataclass defaults. *)
Definition default : t :=
  mk 0 0 0 0 0 0 0 (zeros 6).

End CabModule.

(** Noise gate module (11 bytes). *)
Module NoiseGateModule.

Definition SIZE : Z := 11.

Record t : Type := mk {
  header : Z;
  enabled : Z;
  type : Z;
  attack : Z;
  release : Z;
  threshold : Z;
  reserved : bytes }.

Definition to_bytes (self : t) : result bytes :=
  h <~ bytes_of
         [ header self; enabled self; type self;
           attack self; release self; threshold self ];
  Ok (h ++ take 5 (reserved self)).

Definition from_bytes (data : bytes) : result t :=
  let data := pad_to SIZE data in
  header <~ getitem data 0;
  enabled <~ getitem data 1;
  type <~ getitem data 2;
  attack <~ getitem data 3;
  release <~ getitem data 4;
  threshold <~ getitem data 5;
  Ok (mk header enabled type attack release threshold
        (slice 6 11 data)).

(** The dataclass defaults. *)
Definition default : t :=
  mk 0 0 0 0 0 0 (zeros 5).

End NoiseGateModule.

(** Equalizer module (23 bytes). *)
Module EQModule.

Definition SIZE : Z := 23.

Record t : Type := mk {
  header : Z;
  enabled : Z;
  type : Z;
  bands : list Z;
  bands_extra : list Z;
  reserved : bytes }.

Definition to_bytes (self : t) : result bytes :=
  h <~ bytes_of
         ([ header self; enabled self; type self ]
            ++ take 6 (bands self) ++ take 6 (bands_extra self));
  Ok (h ++ take 8 (reserved self)).

Definition from_bytes (data : bytes) : result t :=
  let data := pad_to SIZE data in
  header <~ getitem data 0;
  enabled <~ getitem data 1;
  type <~ getitem data 2;
  Ok (mk header enabled type
        (map byte_to_int (slice 3 9 data))
        (map byte_to_int (slice 9 15 data))
        (slice 15 23 data)).

(** The dataclass defaults. *)
Definition default : t :=
  mk 0 0 0 (replicate 6 0) (replicate 6 0) (zeros 8).

End EQModule.

(** Modulation module (15 bytes). *)
Module ModulationModule.

Definition SIZE : Z := 15.

Record t : Type := mk {
  header : Z;
  enabled : Z;
  type : Z;
  rate : Z;
  level : Z;
  depth : Z;
  param4 : Z;
  param5 : Z;
  reserved : bytes }.

Definition to_bytes (self : t) : result bytes :=
  h <~ bytes_of
         [ header self; enabled self; type self;
           rate self; level self; depth self; param4 self; param5 self ];
  Ok (h ++ take 7 (reserved self)).

Definition from_bytes (data : bytes) : result t :=
  let data := pad_to SIZE data in
  header <~ getitem data 0;
  enabled <~ getitem data 1;
  type <~ getitem data 2;
  rate <~ getitem data 3;
  level <~ getitem data 4;
  depth <~ getitem data 5;
  param4 <~ getitem data 6;
  param5 <~ getitem data 7;
  Ok (mk header enabled type rate level depth param4 param5
        (slice 8 15 data)).

(** The dataclass defaults. *)
Definition default : t :=
  mk 0 0 0 0 0 0 0 0 (zeros 7).

End ModulationModule.

(** Delay module (17 bytes).  Delay time is a 16-bit value at bytes 5-6. *)
Module DelayModule.

Definition SIZE : Z := 17.

Record t : Type := mk {
  header : Z;
  enabled : Z;
  type : Z;
  level : Z;
  feedback : Z;
  time_ms : Z;
  subdivision : Z;
  param5 : Z;
  param6 : Z;
  reserved : bytes }.

Definition to_bytes (self : t) : result bytes :=
  let time_lo := Z.land (time_ms self) 0xFF in
  let time_hi := Z.land (Z.shiftr (time_ms self) 8) 0xFF in
  h <~ bytes_of
         [ header self; enabled self; type self;
           level self; feedback self; time_lo; time_hi;
           subdivision self; param5 self; param6 self ];
  Ok (h ++ take 7 (reserved self)).

Definition from_bytes (data : bytes) : result t :=
  let data := pad_to SIZE data in
  d5 <~ getitem data 5;
  d6 <~ getitem data 6;
  let time_ms := Z.lor d5 (Z.shiftl d6 8) in
  header <~ getitem data 0;
  enabled <~ getitem data 1;
  type <~ getitem data 2;
  level <~ getitem data 3;
  feedback <~ getitem data 4;
  subdivision <~ getitem data 7;
  param5 <~ getitem data 8;
  param6 <~ getitem data 9;
  Ok (mk header enabled type level feedback time_ms
        subdivision param5 param6
        (slice 10 17 data)).

(** The dataclass defaults. *)
Definition default : t :=
  mk 0 0 0 0 0 0 0 0 0 (zeros 7).

End DelayModule.

(** Reverb module (13 bytes). *)
Module ReverbModule.

Definition SIZE : Z := 13.

Record t : Type := mk {
  header : Z;
  enabled : Z;
  type : Z;
  pre_delay : Z;
  level : Z;
  decay : Z;
  tone : Z;
  reserved : bytes }.

Definition to_bytes (self : t) : result bytes :=
  h <~ bytes_of
         [ header self; enabled self; type self;
           pre_delay self; level self; decay self; tone self ];
  Ok (h ++ take 6 (reserved self)).

Definition from_bytes (data : bytes) : result t :=
  let data := pad_to SIZE data in
  header <~ getitem data 0;
  enabled <~ getitem data 1;
  type <~ getitem data 2;
  pre_delay <~ getitem data 3;
  level <~ getitem data 4;
  decay <~ getitem data 5;
  tone <~ getitem data 6;
  Ok (mk header enabled type pre_delay level decay tone
        (slice 7 13 data)).

(** The dataclass defaults. *)
Definition default : t :=
  mk 0 0 0 0 0 0 0 (zeros 6).

End ReverbModule.

(** ** models/preset.py *)

Definition PRESET_SIZE : Z := 0x200.

Definition OFF_EFFECT_ORDER : nat := 0x00.
Definition OFF_SIZE : nat := 0x0A.
Definition OFF_NAME : nat := 0x0C.
Definition OFF_FX : nat := 0x1A.
Definition OFF_OD : nat := 0x27.
Definition OFF_AMP : nat := 0x32.
Definition OFF_CAB : nat := 0x43.
Definition OFF_NS : nat := 0x50.
Definition OFF_EQ : nat := 0x5B.
Definition OFF_MOD : nat := 0x72.
Definition OFF_DELAY : nat := 0x81.
Definition OFF_REVERB : nat := 0x92.

Definition MODULE_NAMES : list string :=
  ["fx"; "od"; "amp"; "cab"; "ns"; "eq"; "mod"; "delay"; "reverb"].

(** A single device preset (512 bytes). *)
Module Preset.

Record t : Type := mk {
  effect_order : list Z;
  name : str;
  fx : FXModule.t;
  od : DistortionModule.t;
  amp : AmpModule.t;
  cab : CabModule.t;
  ns : NoiseGateModule.t;
  eq : EQModule.t;
  mod_ : ModulationModule.t;   (* the field [mod] *)
  delay : DelayModule.t;
  reverb : ReverbModule.t }.

(** [for i, val in enumerate(vals): buf[OFF_EFFECT_ORDER + i] = val & 0xFF],
    entered at index [i]. *)
Fixpoint write_effect_order (buf : bytes) (i : nat) (vals : list Z)
  : result bytes :=
  match vals with
  | [] => Ok buf
  | val :: vals' =>
      buf' <~ setitem buf (OFF_EFFECT_ORDER + i) (byte_of_masked val);
      write_effect_order buf' (S i) vals'
  end.

Definition to_bytes (self : t) : result bytes :=
  let buf := zeros PRESET_SIZE in
  buf <~ write_effect_order buf 0 (take 10 (effect_order self));
  let data_size := PRESET_SIZE - Z.of_nat OFF_SIZE - 2 in
  buf <~ setitem buf OFF_SIZE (byte_of_masked (Z.shiftr data_size 8));
  buf <~ setitem buf (OFF_SIZE + 1) (byte_of_masked data_size);
  let name_bytes := take 14 (encode_ascii_replace (name self)) in
  let buf := slice_assign buf OFF_NAME (OFF_NAME + length name_bytes)
               name_bytes in
  b <~ FXModule.to_bytes (fx self);
  let buf := slice_assign buf OFF_FX (OFF_FX + Z.to_nat FXModule.SIZE) b in
  b <~ DistortionModule.to_bytes (od self);
  let buf :=
    slice_assign buf OFF_OD (OFF_OD + Z.to_nat DistortionModule.SIZE) b in
  b <~ AmpModule.to_bytes (amp self);
  let buf := slice_assign buf OFF_AMP (OFF_AMP + Z.to_nat AmpModule.SIZE) b in
  b <~ CabModule.to_bytes (cab self);
  let buf := slice_assign buf OFF_CAB (OFF_CAB + Z.to_nat CabModule.SIZE) b in
  b <~ NoiseGateModule.to_bytes (ns self);
  let buf :=
    slice_assign buf OFF_NS (OFF_NS + Z.to_nat NoiseGateModule.SIZE) b in
  b <~ EQModule.to_bytes (eq self);
  let buf := slice_assign buf OFF_EQ (OFF_EQ + Z.to_nat EQModule.SIZE) b in
  b <~ ModulationModule.to_bytes (mod_ self);
  let buf :=
    slice_assign buf OFF_MOD (OFF_MOD + Z.to_nat ModulationModule.SIZE) b in
  b <~ DelayModule.to_bytes (delay self);
  let buf :=
    slice_assign buf OFF_DELAY (OFF_DELAY + Z.to_nat DelayModule.SIZE) b in
  b <~ ReverbModule.to_bytes (reverb self);
  let buf :=
    slice_assign buf OFF_REVERB (OFF_REVERB + Z.to_nat ReverbModule.SIZE) b in
  Ok buf.

Definition from_bytes (data : bytes) : result t :=
  let data := pad_to PRESET_SIZE data in
  let effect_order :=
    map byte_to_int (slice OFF_EFFECT_ORDER (OFF_EFFECT_ORDER + 10) data) in
  let name_bytes := slice OFF_NAME (OFF_NAME + 14) data in
  let name := decode_ascii_replace (before_null name_bytes) in
  fx <~ FXModule.from_bytes
          (slice OFF_FX (OFF_FX + Z.to_nat FXModule.SIZE) data);
  od <~ DistortionModule.from_bytes
          (slice OFF_OD (OFF_OD + Z.to_nat DistortionModule.SIZE) data);
  amp <~ AmpModule.from_bytes
           (slice OFF_AMP (OFF_AMP + Z.to_nat AmpModule.SIZE) data);
  cab <~ CabModule.from_bytes
           (slice OFF_CAB (OFF_CAB + Z.to_nat CabModule.SIZE) data);
  ns <~ NoiseGateModule.from_bytes
          (slice OFF_NS (OFF_NS + Z.to_nat NoiseGateModule.SIZE) data);
  eq <~ EQModule.from_bytes
          (slice OFF_EQ (OFF_EQ + Z.to_nat EQModule.SIZE) data);
  mod_ <~ ModulationModule.from_bytes
            (slice OFF_MOD (OFF_MOD + Z.to_nat ModulationModule.SIZE) data);
  delay <~ DelayModule.from_bytes
             (slice OFF_DELAY (OFF_DELAY + Z.to_nat DelayModule.SIZE) data);
  reverb <~ ReverbModule.from_bytes
              (slice OFF_REVERB (OFF_REVERB + Z.to_nat ReverbModule.SIZE)
                 data);
  Ok (mk effect_order name fx od amp cab ns eq mod_ delay reverb).

(** The dataclass defaults: [effect_order = list(range(10))], an empty
    name and default modules. *)
Definition default : t :=
  mk (seqZ 0 10) []
     FXModule.default DistortionModule.default AmpModule.default
     CabModule.default NoiseGateModule.default EQModule.default
     ModulationModule.default DelayModule.default ReverbModule.default.

End Preset.

(** ** models/file_formats.py *)

Definition MO_FILE_SIZE : Z := 0x800.
Definition MO_HEADER_SIZE : Z := 0x200.
Definition MO_PRESET_OFFSET : nat := 0x200.

(** [export_mo(preset, path)]: the bytes that [path.write_bytes] is given;
    nothing is written when [Preset.to_bytes] raises. *)
Definition export_mo (preset : Preset.t) : result bytes :=
  let buf := zeros MO_FILE_SIZE in
  preset_data <~ Preset.to_bytes preset;
  let buf :=
    slice_assign buf MO_PRESET_OFFSET
      (MO_PRESET_OFFSET + Z.to_nat PRESET_SIZE) preset_data in
  Ok buf.

(** [import_mo(path)], as a function of [data = path.read_bytes()]. *)
Definition import_mo (data : bytes) : result Preset.t :=
  if decide (len data < Z.of_nat MO_PRESET_OFFSET + PRESET_SIZE)
  then Raise ValueError
  else
    let preset_data :=
      slice MO_PRESET_OFFSET (MO_PRESET_OFFSET + Z.to_nat PRESET_SIZE) data in
    Preset.from_bytes preset_data.

(** ** models/file_formats.py: the [.gnr] header and the [.mbf] backup *)

(** [b"mooerge\x00"]. *)
Definition GNR_MAGIC : bytes := [x6d; x6f; x6f; x65; x72; x67; x65; x00].

Definition MBF_MANUFACTURER_SIZE : nat := 8.
Definition MBF_MODEL_NAME_SIZE : nat := 32.
Definition MBF_PRESET_ENTRY_SIZE : nat := 0x222.
Definition MBF_PRESET_COUNT : nat := 199.

(** [bs.ljust(n, b"\x00")]. *)
Definition ljust (n : nat) (bs : bytes) : bytes :=
  bs ++ replicate (n - length bs) x00.

(** [s.encode("ascii")], the strict codec: a character outside ASCII raises
    [UnicodeEncodeError], which is a subclass of [ValueError]. *)
Fixpoint encode_ascii (s : str) : result bytes :=
  match s with
  | [] => Ok []
  | c :: s' =>
      if decide (c < 128)%N
      then bs <~ encode_ascii s'; Ok (default x3f (Byte.of_N c) :: bs)
      else Raise ValueError
  end.

(** [s.rstrip("\x00")]: the string without its trailing nulls. *)
Fixpoint rstrip_nul (s : str) : str :=
  match s with
  | [] => []
  | c :: s' =>
      match rstrip_nul s' with
      | [] => if decide (c = 0%N) then [] else [c]
      | r => c :: r
      end
  end.

(** The dictionary that [parse_gnr_header] returns, with its four keys
    ["magic"], ["info_size"], ["info"] and ["data_offset"]. *)
Record GnrHeader : Type := mkGnrHeader {
  gnr_magic : str;
  gnr_info_size : Z;
  gnr_info : bytes;
  gnr_data_offset : Z }.

(** [struct.unpack_from("<I", data, 8)] reads the four bytes [data[8:12]];
    it is reached only when [len(data) >= 12], so they are there. *)
Definition parse_gnr_header (data : bytes) : result GnrHeader :=
  if decide (len data < 12) then Raise ValueError else
  let magic := slice 0 8 data in
  if decide (magic <> GNR_MAGIC) then Raise ValueError else
  let info_size := from_bytes_little (slice 8 12 data) in
  let info :=
    if decide (len data >= 12 + info_size)
    then slice 12 (Z.to_nat (12 + info_size)) data
    else drop 12 data in
  Ok (mkGnrHeader (rstrip_nul (decode_ascii_replace magic)) info_size info
        (12 + info_size)).

(** The [for i in range(MBF_PRESET_COUNT)] loop of [export_mbf], over the
    indices that are left. *)
Fixpoint export_mbf_entries (presets : list Preset.t) (indices : list nat)
    (buf : bytes) : result bytes :=
  match indices with
  | [] => Ok buf
  | i :: indices' =>
      let entry := replicate MBF_PRESET_ENTRY_SIZE x00 in
      entry <~ match presets !! i with
               | Some preset =>
                   preset_data <~ Preset.to_bytes preset;
                   Ok (slice_assign entry 0 (Z.to_nat PRESET_SIZE) preset_data)
               | None => Ok entry
               end;
      export_mbf_entries presets indices' (buf ++ entry)
  end.

(** [export_mbf(presets, path, manufacturer, model_name)]: the bytes that
    [path.write_bytes] is given. *)
Definition export_mbf (presets : list Preset.t) (manufacturer model_name : str)
  : result bytes :=
  let buf := [] in
  mfg <~ encode_ascii manufacturer;
  let mfg := take MBF_MANUFACTURER_SIZE mfg in
  let buf := buf ++ ljust MBF_MANUFACTURER_SIZE mfg in
  model <~ encode_ascii model_name;
  let model := take MBF_MODEL_NAME_SIZE model in
  let buf := buf ++ ljust MBF_MODEL_NAME_SIZE model in
  let buf := buf ++ [x01; x00; x00; x00] in
  export_mbf_entries presets (seq 0 MBF_PRESET_COUNT) buf.

(** The default arguments of [export_mbf]. *)
Definition MBF_DEFAULT_MANUFACTURER : str := str_lit "MOOER".
Definition MBF_DEFAULT_MODEL_NAME : str := str_lit "GE150 Pro Li".

(** The [for _ in range(MBF_PRESET_COUNT)] loop of [import_mbf], with
    [count] rounds left. *)
Fixpoint import_mbf_entries (data : bytes) (count : nat) (offset : nat)
    (presets : list Preset.t) : result (list Preset.t) :=
  match count with
  | O => Ok presets
  | S count' =>
      if decide (length data < offset + MBF_PRESET_ENTRY_SIZE)%nat
      then Ok presets
      else
        let entry := slice offset (offset + MBF_PRESET_ENTRY_SIZE) data in
        preset <~ Preset.from_bytes (slice 0 (Z.to_nat PRESET_SIZE) entry);
        import_mbf_entries data count' (offset + MBF_PRESET_ENTRY_SIZE)
          (presets ++ [preset])
  end.

(** [import_mbf(path)], as a function of [data = path.read_bytes()]. *)
Definition import_mbf (data : bytes) : result (list Preset.t) :=
  let header_size := (MBF_MANUFACTURER_SIZE + MBF_MODEL_NAME_SIZE + 4)%nat in
  import_mbf_entries data MBF_PRESET_COUNT header_size [].

(** ** models/preset.py: [Preset.get_module] *)

(** A module of any of the nine classes. *)
Inductive EffectModule : Type :=
| IsFX (m : FXModule.t)
| IsDistortion (m : DistortionModule.t)
| IsAmp (m : AmpModule.t)
| IsCab (m : CabModule.t)
| IsNoiseGate (m : NoiseGateModule.t)
| IsEQ (m : EQModule.t)
| IsModulation (m : ModulationModule.t)
| IsDelay (m : DelayModule.t)
| IsReverb (m : ReverbModule.t).

Definition get_module (self : Preset.t) (name : string)
  : result EffectModule :=
  let modules : gmap string EffectModule :=
    list_to_map
      [ ("fx", IsFX (Preset.fx self));
        ("od", IsDistortion (Preset.od self));
        ("amp", IsAmp (Preset.amp self));
        ("cab", IsCab (Preset.cab self));
        ("ns", IsNoiseGate (Preset.ns self));
        ("eq", IsEQ (Preset.eq self));
        ("mod", IsModulation (Preset.mod_ self));
        ("delay", IsDelay (Preset.delay self));
        ("reverb", IsReverb (Preset.reverb self)) ] in
  if decide (modules !! name = None) then Raise ValueError else
  dict_getitem modules name.

(** ** A checksum to evaluate the codec with

    [utils/crc.py], which defines [crc16], is not among the sources; only
    its callers and its tests are.  The codec does not depend on it: it
    takes the checksum as a parameter.  To evaluate the codec on given
    values a checksum is needed all the same, and module [Crc] gives one: a
    table-driven CRC-16 with generator [0x1021], register starting at 0 and
    inverted at the end.  It is an example, chosen to agree with what the
    sources say of [crc16]: the frame layout in [framing.py] calls the
    checksum an inverted CRC-16, and [test_crc.py] expects [0xFFFF] on the
    empty string and [0x6865] on [A6 02].  Nothing is stated of
    [utils/crc.py] from it. *)

Module Crc.

(** One step of the bitwise division by the generator [0x1021], most
    significant bit first, on a 16-bit register. *)
Definition shift_step (r : Z) : Z :=
  if Z.testbit r 15
  then Z.land (Z.lxor (Z.shiftl r 1) 0x1021) 0xFFFF
  else Z.land (Z.shiftl r 1) 0xFFFF.

(** The table entry of a byte: eight steps on the byte in the high half. *)
Definition table_entry (i : Z) : Z :=
  Nat.iter 8 shift_step (Z.shiftl i 8).

(** The 256-entry lookup table. *)
Definition CRC_TABLE : list Z :=
  Eval vm_compute in map table_entry (seqZ 0 256).

(** The register after one more byte. *)
Definition update (crc : Z) (b : byte) : Z :=
  let idx := Z.land (Z.lxor (Z.shiftr crc 8) (byte_to_int b)) 0xFF in
  Z.land (Z.lxor (Z.shiftl crc 8) (nth (Z.to_nat idx) CRC_TABLE 0)) 0xFFFF.

(** The example checksum: the register, from 0, after all the bytes,
    inverted. *)
Definition crc16 (data : bytes) : Z :=
  Z.land (Z.lxor (fold_left update data 0) 0xFFFF) 0xFFFF.

End Crc.

(** ** Well-formed values

    The dataclasses check nothing, so the properties of the serializers are
    stated for the values described here. *)

(** An [int] that fits one byte. *)
Definition is_byte (x : Z) : Prop := 0 <= x <= 255.

(** The one-byte fields of [FXModule], in record order. *)
Definition FX_fields (m : FXModule.t) : list Z :=
  [ FXModule.header m; FXModule.enabled m;
    FXModule.type m; FXModule.q m;
    FXModule.position m; FXModule.peak m;
    FXModule.level m ].

(** [FXModule.to_bytes] needs byte-sized fields and at least 6 reserved
    bytes. *)
Definition FX_serialisable (m : FXModule.t) : Prop :=
  Forall is_byte (FX_fields m) /\ (6 <= length (FXModule.reserved m))%nat.

Definition FX_valid (m : FXModule.t) : Prop :=
  Forall is_byte (FX_fields m) /\ length (FXModule.reserved m) = 6%nat.

(** The one-byte fields of [DistortionModule], in record order. *)
Definition Distortion_fields (m : DistortionModule.t) : list Z :=
  [ DistortionModule.header m; DistortionModule.enabled m;
    DistortionModule.type m; DistortionModule.volume m;
    DistortionModule.tone m; DistortionModule.gain m ].

(** [DistortionModule.to_bytes] needs byte-sized fields and at least 5 reserved
    bytes. *)
Definition Distortion_serialisable (m : DistortionModule.t) : Prop :=
  Forall is_byte (Distortion_fields m) /\ (5 <= length (DistortionModule.reserved m))%nat.

Definition Distortion_valid (m : DistortionModule.t) : Prop :=
  Forall is_byte (Distortion_fields m) /\ length (DistortionModule.reserved m) = 5%nat.

(** The one-byte fields of [AmpModule], in record order. *)
Definition Amp_fields (m : AmpModule.t) : list Z :=
  [ AmpModule.header m; AmpModule.enabled m;
    AmpModule.type m; AmpModule.amp_gain m;
    AmpModule.bass m; AmpModule.mid m;
    AmpModule.treble m; AmpModule.presence m;
    AmpModule.master m ].

(** [AmpModule.to_bytes] needs byte-sized fields and at least 8 reserved
    bytes. *)
Definition Amp_serialisable (m : AmpModule.t) : Prop :=
  Forall is_byte (Amp_fields m) /\ (8 <= length (AmpModule.reserved m))%nat.

Definition Amp_valid (m : AmpModule.t) : Prop :=
  Forall is_byte (Amp_fields m) /\ length (AmpModule.reserved m) = 8%nat.

(** The one-byte fields of [CabModule], in record order. *)
Definition Cab_fields (m : CabModule.t) : list Z :=
  [ CabModule.header m; CabModule.enabled m;
    CabModule.type m; CabModule.mic m;
    CabModule.center m; CabModule.distance m;
    CabModule.tube m ].

(** [CabModule.to_bytes] needs byte-sized fields and at least 6 reserved
    bytes. *)
Definition Cab_serialisable (m : CabModule.t) : Prop :=
  Forall is_byte (Cab_fields m) /\ (6 <= length (CabModule.reserved m))%nat.

Definition Cab_valid (m : CabModule.t) : Prop :=
  Forall is_byte (Cab_fields m) /\ length (CabModule.reserved m) = 6%nat.

(** The one-byte fields of [NoiseGateModule], in record order. *)
Definition NoiseGate_fields (m : NoiseGateModule.t) : list Z :=
  [ NoiseGateModule.header m; NoiseGateModule.enabled m;
    NoiseGateModule.type m; NoiseGateModule.attack m;
    NoiseGateModule.release m; NoiseGateModule.threshold m ].

(** [NoiseGateModule.to_bytes] needs byte-sized fields and at least 5 reserved
    bytes. *)
Definition NoiseGate_serialisable (m : NoiseGateModule.t) : Prop :=
  Forall is_byte (NoiseGate_fields m) /\ (5 <= length (NoiseGateModule.reserved m))%nat.

Definition NoiseGate_valid (m : NoiseGateModule.t) : Prop :=
  Forall is_byte (NoiseGate_fields m) /\ length (NoiseGateModule.reserved m) = 5%nat.

(** The one-byte fields of [ModulationModule], in record order. *)
Definition Modulation_fields (m : ModulationModule.t) : list Z :=
  [ ModulationModule.header m; ModulationModule.enabled m;
    ModulationModule.type m; ModulationModule.rate m;
    ModulationModule.level m; ModulationModule.depth m;
    ModulationModule.param4 m; ModulationModule.param5 m ].

(** [ModulationModule.to_bytes] needs byte-sized fields and at least 7 reserved
    bytes. *)
Definition Modulation_serialisable (m : ModulationModule.t) : Prop :=
  Forall is_byte (Modulation_fields m) /\ (7 <= length (ModulationModule.reserved m))%nat.

Definition Modulation_valid (m : ModulationModule.t) : Prop :=
  Forall is_byte (Modulation_fields m) /\ length (ModulationModule.reserved m) = 7%nat.

(** The one-byte fields of [ReverbModule], in record order. *)
Definition Reverb_fields (m : ReverbModule.t) : list Z :=
  [ ReverbModule.header m; ReverbModule.enabled m;
    ReverbModule.type m; ReverbModule.pre_delay m;
    ReverbModule.level m; ReverbModule.decay m;
    ReverbModule.tone m ].

(** [ReverbModule.to_bytes] needs byte-sized fields and at least 6 reserved
    bytes. *)
Definition Reverb_serialisable (m : ReverbModule.t) : Prop :=
  Forall is_byte (Reverb_fields m) /\ (6 <= length (ReverbModule.reserved m))%nat.

Definition Reverb_valid (m : ReverbModule.t) : Prop :=
  Forall is_byte (Reverb_fields m) /\ length (ReverbModule.reserved m) = 6%nat.

(** [EQModule]: the header bytes, and two groups of six band values. *)
Definition EQ_fields (m : EQModule.t) : list Z :=
  [ EQModule.header m; EQModule.enabled m; EQModule.type m ].

Definition EQ_serialisable (m : EQModule.t) : Prop :=
  Forall is_byte (EQ_fields m)
  /\ (6 <= length (EQModule.bands m))%nat
  /\ Forall is_byte (take 6 (EQModule.bands m))
  /\ (6 <= length (EQModule.bands_extra m))%nat
  /\ Forall is_byte (take 6 (EQModule.bands_extra m))
  /\ (8 <= length (EQModule.reserved m))%nat.

Definition EQ_valid (m : EQModule.t) : Prop :=
  Forall is_byte (EQ_fields m)
  /\ length (EQModule.bands m) = 6%nat
  /\ Forall is_byte (EQModule.bands m)
  /\ length (EQModule.bands_extra m) = 6%nat
  /\ Forall is_byte (EQModule.bands_extra m)
  /\ length (EQModule.reserved m) = 8%nat.

(** [DelayModule]: the one-byte fields; [time_ms] is masked byte by byte, so
    serialising accepts any [int] there, and decoding gives it back when it
    fits 16 bits. *)
Definition Delay_fields (m : DelayModule.t) : list Z :=
  [ DelayModule.header m; DelayModule.enabled m; DelayModule.type m;
    DelayModule.level m; DelayModule.feedback m;
    DelayModule.subdivision m; DelayModule.param5 m; DelayModule.param6 m ].

Definition Delay_serialisable (m : DelayModule.t) : Prop :=
  Forall is_byte (Delay_fields m) /\ (7 <= length (DelayModule.reserved m))%nat.

Definition Delay_valid (m : DelayModule.t) : Prop :=
  Forall is_byte (Delay_fields m)
  /\ 0 <= DelayModule.time_ms m <= 65535
  /\ length (DelayModule.reserved m) = 7%nat.

(** A preset that [Preset.to_bytes] serialises: every module is
    serialisable; the name and the effect order are unconstrained. *)
Definition Preset_serialisable (p : Preset.t) : Prop :=
  FX_serialisable (Preset.fx p)
  /\ Distortion_serialisable (Preset.od p)
  /\ Amp_serialisable (Preset.amp p)
  /\ Cab_serialisable (Preset.cab p)
  /\ NoiseGate_serialisable (Preset.ns p)
  /\ EQ_serialisable (Preset.eq p)
  /\ Modulation_serialisable (Preset.mod_ p)
  /\ Delay_serialisable (Preset.delay p)
  /\ Reverb_serialisable (Preset.reverb p).

(** A valid preset: a name of at most 14 ASCII characters without a null,
    an effect order of 10 bytes, and valid modules. *)
Definition Preset_valid (p : Preset.t) : Prop :=
  (length (Preset.name p) <= 14)%nat
  /\ Forall (fun c => 0 < c < 128)%N (Preset.name p)
  /\ length (Preset.effect_order p) = 10%nat
  /\ Forall is_byte (Preset.effect_order p)
  /\ FX_valid (Preset.fx p)
  /\ Distortion_valid (Preset.od p)
  /\ Amp_valid (Preset.amp p)
  /\ Cab_valid (Preset.cab p)
  /\ NoiseGate_valid (Preset.ns p)
  /\ EQ_valid (Preset.eq p)
  /\ Modulation_valid (Preset.mod_ p)
  /\ Delay_valid (Preset.delay p)
  /\ Reverb_valid (Preset.reverb p).

(** The predicates above are decidable, so that they can be checked on a
    given value by evaluation. *)
#[global] Instance is_byte_dec (x : Z) : Decision (is_byte x).
Proof. unfold is_byte. apply _. Defined.

#[global] Instance FX_valid_dec m : Decision (FX_valid m).
Proof. unfold FX_valid. apply _. Defined.

#[global] Instance Distortion_valid_dec m : Decision (Distortion_valid m).
Proof. unfold Distortion_valid. apply _. Defined.

#[global] Instance Amp_valid_dec m : Decision (Amp_valid m).
Proof. unfold Amp_valid. apply _. Defined.

#[global] Instance Cab_valid_dec m : Decision (Cab_valid m).
Proof. unfold Cab_valid. apply _. Defined.

#[global] Instance NoiseGate_valid_dec m : Decision (NoiseGate_valid m).
Proof. unfold NoiseGate_valid. apply _. Defined.

#[global] Instance EQ_valid_dec m : Decision (EQ_valid m).
Proof. unfold EQ_valid. apply _. Defined.

#[global] Instance Modulation_valid_dec m : Decision (Modulation_valid m).
Proof. unfold Modulation_valid. apply _. Defined.

#[global] Instance Delay_valid_dec m : Decision (Delay_valid m).
Proof. unfold Delay_valid. apply _. Defined.

#[global] Instance Reverb_valid_dec m : Decision (Reverb_valid m).
Proof. unfold Reverb_valid. apply _. Defined.

#[global] Instance Preset_valid_dec p : Decision (Preset_valid p).
Proof. unfold Preset_valid. apply _. Defined.

#[global] Instance FX_serialisable_dec m : Decision (FX_serialisable m).
Proof. unfold FX_serialisable. apply _. Defined.

#[global] Instance Distortion_serialisable_dec m :
  Decision (Distortion_serialisable m).
Proof. unfold Distortion_serialisable. apply _. Defined.

#[global] Instance Amp_serialisable_dec m : Decision (Amp_serialisable m).
Proof. unfold Amp_serialisable. apply _. Defined.

#[global] Instance Cab_serialisable_dec m : Decision (Cab_serialisable m).
Proof. unfold Cab_serialisable. apply _. Defined.

#[global] Instance NoiseGate_serialisable_dec m :
  Decision (NoiseGate_serialisable m).
Proof. unfold NoiseGate_serialisable. apply _. Defined.

#[global] Instance EQ_serialisable_dec m : Decision (EQ_serialisable m).
Proof. unfold EQ_serialisable. apply _. Defined.

#[global] Instance Modulation_serialisable_dec m :
  Decision (Modulation_serialisable m).
Proof. unfold Modulation_serialisable. apply _. Defined.

#[global] Instance Delay_serialisable_dec m :
  Decision (Delay_serialisable m).
Proof. unfold Delay_serialisable. apply _. Defined.

#[global] Instance Reverb_serialisable_dec m :
  Decision (Reverb_serialisable m).
Proof. unfold Reverb_serialisable. apply _. Defined.

#[global] Instance Preset_serialisable_dec p :
  Decision (Preset_serialisable p).
Proof. unfold Preset_serialisable. apply _. Defined.

(** ** Frames, as the specification words them *)

(** The byte at offset [i], as an [int] (0 past the end). *)
Definition byte_at (data : bytes) (i : nat) : Z :=
  byte_to_int (nth i data x00).

Section Rejection.

Variable crc16 : bytes -> Z.

(** The five reasons for which a report is not a frame, as the
    specification words them.  The two checksum bytes are the bytes at
    [5 + body_size] and [5 + body_size + 1]: a report that does not hold
    both has no checksum for the recomputed one to agree with. *)
Definition frame_rejected (data : bytes) : Prop :=
  let body_size := from_bytes_little (slice 3 5 data) in
  let trailer :=
    slice (Z.to_nat (5 + body_size)) (Z.to_nat (5 + body_size + 2)) data in
  len data < 8
  \/ byte_at data 0 < 7
  \/ slice 1 3 data <> PREAMBLE
  \/ body_size < 1
  \/ ~ (len trailer = 2
        /\ crc16 (slice 5 (Z.to_nat (5 + body_size)) data)
           = from_bytes_little trailer).

#[global] Instance frame_rejected_dec (data : bytes) :
  Decision (frame_rejected data).
Proof. unfold frame_rejected. cbn zeta. apply _. Defined.

End Rejection.

(** A report of a chunked message: the chunk length, the chunk, zeros. *)
Definition chunk_report (chunk report : bytes) : Prop :=
  exists h, byte_to_int h = len chunk
            /\ report = h :: chunk ++ zeros (63 - len chunk).

(** ** The layout of the preset record *)

(** Bytes 0 to 9: the first ten effect-order values, masked, then zeros. *)
Definition effect_order_block (effect_order : list Z) : bytes :=
  let vals := take 10 effect_order in
  map byte_of_masked vals ++ replicate (10 - length vals) x00.

(** Bytes 12 to 25: the first fourteen bytes of the encoded name, then
    zeros. *)
Definition name_block (name : str) : bytes :=
  let name_bytes := take 14 (encode_ascii_replace name) in
  name_bytes ++ replicate (14 - length name_bytes) x00.

(** ** Reports, presets and modules, as the properties word them *)

(** The bytes that a report declares: [report[1 : 1 + report[0]]], nothing
    for an empty report. *)
Definition declared_chunk (report : bytes) : bytes :=
  match report with
  | [] => []
  | h :: _ => slice 1 (Z.to_nat (1 + byte_to_int h)) report
  end.

(** The preset that 512 zero bytes decode to: an effect order of ten
    zeros, an empty name and modules of zeros. *)
Definition Preset_blank : Preset.t :=
  Preset.mk (replicate 10 0) []
    FXModule.default DistortionModule.default AmpModule.default
    CabModule.default NoiseGateModule.default EQModule.default
    ModulationModule.default DelayModule.default ReverbModule.default.

(** A string that the strict ASCII codec encodes. *)
Definition is_ascii (s : str) : Prop := Forall (fun c => (c < 128)%N) s.

#[global] Instance is_ascii_dec (s : str) : Decision (is_ascii s).
Proof. unfold is_ascii. apply _. Defined.

(** ** Example values *)

(** The preset of [test_preset_roundtrip], with the delay time of
    [test_delay_time_16bit]. *)
Definition preset_example : Preset.t :=
  Preset.mk (seqZ 0 10) (str_lit "Test Preset")
    FXModule.default
    (DistortionModule.mk 0 1 2 100 64 200 (zeros 5))
    (AmpModule.mk 0 1 5 128 64 100 80 90 200 (zeros 8))
    CabModule.default NoiseGateModule.default EQModule.default
    ModulationModule.default
    (DelayModule.mk 0 1 1 0 0 1500 0 0 0 (zeros 7))
    (ReverbModule.mk 0 1 3 20 80 150 100 (zeros 6)).



(** A preset that serialises without being valid: a name of 17 characters,
    an effect order of 3 values and an FX module with 8 reserved bytes. *)
Definition preset_long_name : Preset.t :=
  Preset.mk [3; 1; 2] (str_lit "Seventeen letters")
    (FXModule.mk 0 1 2 3 4 5 6 (zeros 8))
    DistortionModule.default AmpModule.default
    CabModule.default NoiseGateModule.default EQModule.default
    ModulationModule.default DelayModule.default ReverbModule.default.

(** * Properties *)

(** ** Bytes and integers *)

Lemma byte_to_int_range (b : byte) : 0 <= byte_to_int b < 256.
Proof.
  unfold byte_to_int. pose proof (Byte.to_N_bounded b). lia.
Qed.

Lemma int_to_byte_to_int (b : byte) : int_to_byte (byte_to_int b) = Some b.
Proof.
  unfold int_to_byte, byte_to_int.
  rewrite decide_True by lia.
  rewrite N2Z.id. apply Byte.of_to_N.
Qed.

Lemma int_to_byte_inv (z : Z) (b : byte) :
  int_to_byte z = Some b -> byte_to_int b = z.
Proof.
  unfold int_to_byte, byte_to_int. case_decide; [|discriminate].
  intros Hb. apply Byte.to_of_N in Hb. lia.
Qed.

Lemma int_to_byte_is_Some (z : Z) :
  0 <= z < 256 -> exists b, int_to_byte z = Some b /\ byte_to_int b = z.
Proof.
  intros Hz. destruct (int_to_byte z) as [b|] eqn:E.
  - exists b. split; [reflexivity|]. by apply int_to_byte_inv.
  - exfalso. unfold int_to_byte in E. rewrite decide_True in E by lia.
    apply Byte.of_N_None_iff in E. lia.
Qed.

Lemma int_to_byte_None (z : Z) : ~ 0 <= z < 256 -> int_to_byte z = None.
Proof.
  intros Hz. destruct (int_to_byte z) as [b|] eqn:E; [|reflexivity].
  apply int_to_byte_inv in E. pose proof (byte_to_int_range b). lia.
Qed.

Lemma bytes_of_to_int (bs : bytes) : bytes_of (map byte_to_int bs) = Ok bs.
Proof.
  induction bs as [|b bs IH]; [reflexivity|].
  cbn. rewrite int_to_byte_to_int, IH. reflexivity.
Qed.

(** [bytes(xs)] succeeds exactly on lists of bytes, and then holds them. *)
Lemma bytes_of_Ok (xs : list Z) (bs : bytes) :
  bytes_of xs = Ok bs <-> xs = map byte_to_int bs.
Proof.
  split.
  - revert bs. induction xs as [|x xs IH]; intros bs H; cbn in H.
    + by inversion H.
    + destruct (int_to_byte x) as [b|] eqn:E; [|discriminate].
      destruct (bytes_of xs) as [bs'|] eqn:E'; [|discriminate].
      cbn in H. inversion H; subst. cbn.
      rewrite (int_to_byte_inv _ _ E), <- (IH bs'); done.
  - intros ->. apply bytes_of_to_int.
Qed.

Lemma bytes_of_range (xs : list Z) :
  Forall (fun x => 0 <= x < 256) xs ->
  exists bs, bytes_of xs = Ok bs /\ map byte_to_int bs = xs.
Proof.
  induction 1 as [|x xs Hx _ (bs & Hbs & Hm)].
  - by exists [].
  - destruct (int_to_byte_is_Some x Hx) as (b & Hb & Hbx).
    exists (b :: bs). cbn. rewrite Hb, Hbs. cbn. by rewrite Hbx, Hm.
Qed.

Lemma bytes_of_Raise (xs : list Z) (e : exn) :
  bytes_of xs = Raise e -> e = ValueError.
Proof.
  induction xs as [|x xs IH]; cbn; [discriminate|].
  destruct (int_to_byte x); [|by inversion 1].
  destruct (bytes_of xs); cbn; [discriminate|].
  intros H; inversion H; subst. by apply IH.
Qed.

Lemma bytes_of_length (xs : list Z) (bs : bytes) :
  bytes_of xs = Ok bs -> length bs = length xs.
Proof. intros ->%bytes_of_Ok. by rewrite length_map. Qed.

Lemma int_to_byte_mask (x : Z) :
  int_to_byte (Z.land x 255) = Some (byte_of_masked x).
Proof.
  unfold byte_of_masked.
  assert (0 <= Z.land x 255 < 256) as H.
  { change 255 with (Z.ones 8). rewrite Z.land_ones by lia.
    apply Z.mod_pos_bound. lia. }
  destruct (int_to_byte_is_Some _ H) as (b & -> & _). reflexivity.
Qed.

Lemma byte_of_masked_to_int (x : Z) :
  0 <= x < 256 -> byte_to_int (byte_of_masked x) = x.
Proof.
  intros H. apply int_to_byte_inv. rewrite <- int_to_byte_mask.
  f_equal. change 255 with (Z.ones 8). rewrite Z.land_ones by lia.
  symmetry. apply Z.mod_small. lia.
Qed.

Lemma to_bytes2_little_Ok (n : Z) :
  0 <= n < 65536 ->
  exists lo hi, to_bytes2_little n = Ok [lo; hi]
                /\ from_bytes_little [lo; hi] = n.
Proof.
  intros Hn. unfold to_bytes2_little. rewrite decide_True by done.
  destruct (int_to_byte_is_Some (n mod 256)) as (lo & Hlo & Elo).
  { apply Z.mod_pos_bound. lia. }
  destruct (int_to_byte_is_Some (n / 256)) as (hi & Hhi & Ehi).
  { split; [apply Z.div_pos; lia | apply Z.div_lt_upper_bound; lia]. }
  exists lo, hi. cbn. rewrite Hlo, Hhi. cbn. split; [done|].
  rewrite Elo, Ehi. pose proof (Z.div_mod n 256). lia.
Qed.

Lemma to_bytes2_little_Raise (n : Z) :
  ~ 0 <= n < 65536 -> to_bytes2_little n = Raise OverflowError.
Proof. intros Hn. unfold to_bytes2_little. by rewrite decide_False. Qed.

Lemma to_bytes2_little_length (n : Z) (bs : bytes) :
  to_bytes2_little n = Ok bs -> length bs = 2%nat.
Proof.
  unfold to_bytes2_little. case_decide; [|discriminate].
  apply bytes_of_length.
Qed.

(** ** Slices *)

Lemma slice_length {A} (a b : nat) (l : list A) :
  length (slice a b l) = ((b - a) `min` (length l - a))%nat.
Proof. unfold slice. by rewrite length_take, length_drop. Qed.

Lemma slice_app_exact {A} (l1 l2 l3 : list A) (a b : nat) :
  a = length l1 -> (b - a)%nat = length l2 ->
  slice a b (l1 ++ l2 ++ l3) = l2.
Proof.
  intros -> Hb. unfold slice. rewrite drop_app_length, Hb.
  by rewrite take_app_length.
Qed.

Lemma slice_0_app {A} (l1 l2 : list A) (b : nat) :
  b = length l1 -> slice 0 b (l1 ++ l2) = l1.
Proof.
  intros ->. unfold slice. rewrite Nat.sub_0_r, drop_0.
  by rewrite take_app_length.
Qed.

Lemma len_app {A} (l1 l2 : list A) : len (l1 ++ l2) = len l1 + len l2.
Proof. unfold len. rewrite length_app. lia. Qed.

Lemma len_cons {A} (x : A) (l : list A) : len (x :: l) = 1 + len l.
Proof. unfold len. cbn [length]. lia. Qed.

Lemma len_nonneg {A} (l : list A) : 0 <= len l.
Proof. unfold len. lia. Qed.

Lemma len_zeros (n : Z) : len (zeros n) = Z.max 0 n.
Proof. unfold len, zeros. rewrite length_replicate. lia. Qed.

(** ** The result monad *)

Lemma bind_Ok {A B} (r : result A) (k : A -> result B) (b : B) :
  bind r k = Ok b <-> exists a, r = Ok a /\ k a = Ok b.
Proof.
  destruct r as [a|e]; cbn.
  - split; [intros H; by exists a | by intros (? & [= ->] & ?)].
  - split; [discriminate | by intros (? & [=] & _)].
Qed.

(** Splits a hypothesis [bind r k = Ok b] into its two steps. *)
Ltac bind_inv H :=
  let a := fresh "a" in
  let Ha := fresh "Ha" in
  apply bind_Ok in H; destruct H as (a & Ha & H).

(** ** Indexing, padding and byte-sized values *)

Lemma getitem_lt (l : bytes) (i : nat) :
  (i < length l)%nat -> getitem l i = Ok (byte_at l i).
Proof.
  intros H. unfold getitem, byte_at.
  destruct (lookup_lt_is_Some_2 l i H) as [b Hb]. rewrite Hb.
  by rewrite (nth_lookup_Some _ _ x00 _ Hb).
Qed.

Lemma getitem_0 (b : byte) (l : bytes) : getitem (b :: l) 0 = Ok (byte_to_int b).
Proof. reflexivity. Qed.

Lemma getitem_S (b : byte) (l : bytes) (i : nat) :
  getitem (b :: l) (S i) = getitem l i.
Proof. reflexivity. Qed.

Lemma pad_to_id (size : Z) (data : bytes) :
  size <= len data -> pad_to size data = data.
Proof. intros H. unfold pad_to. by rewrite decide_False by lia. Qed.

Lemma len_take_ge {A} (n : nat) (l : list A) :
  (n <= length l)%nat -> len (take n l) = Z.of_nat n.
Proof. intros H. unfold len. rewrite length_take. lia. Qed.

Lemma is_byte_range (x : Z) : is_byte x <-> 0 <= x < 256.
Proof. unfold is_byte. lia. Qed.

Lemma header_bytes_Ok (fields : list Z) :
  Forall is_byte fields ->
  exists h, bytes_of fields = Ok h /\ map byte_to_int h = fields.
Proof.
  intros H. apply bytes_of_range.
  eapply Forall_impl; [exact H|]. intros x. apply is_byte_range.
Qed.

Lemma land_255_is_byte (x : Z) : is_byte (Z.land x 255).
Proof.
  unfold is_byte. replace (Z.land x 255) with (x mod 256).
  - pose proof (Z.mod_pos_bound x 256). lia.
  - change 255 with (Z.ones 8). by rewrite Z.land_ones by lia.
Qed.

(** A literal list of values that the context bounds by bytes. *)
Ltac all_bytes :=
  repeat (constructor; [unfold is_byte; lia|]); constructor.

(** ** The chunking loop *)

Lemma chunk_report_length (chunk report : bytes) :
  chunk_report chunk report -> len chunk <= 63 -> len report = 64.
Proof.
  intros (h & _ & ->) Hc.
  rewrite len_cons, len_app, len_zeros. lia.
Qed.

Lemma chunk_loop_step (full : bytes) (offset : nat) (frames : list bytes) :
  (offset < length full)%nat ->
  chunk_loop full offset frames
  = let chunk := slice offset (offset + 63) full in
    match bytes_of [len chunk] with
    | Ok h => chunk_loop full (offset + 63)
                (frames ++ [h ++ chunk ++ zeros (63 - len chunk)])
    | Raise e => Raise e
    end.
Proof.
  intros H. rewrite chunk_loop_equation_1.
  destruct (decide (offset < length full)%nat); [reflexivity | contradiction].
Qed.

Lemma chunk_loop_done (full : bytes) (offset : nat) (frames : list bytes) :
  ~ (offset < length full)%nat -> chunk_loop full offset frames = Ok frames.
Proof.
  intros H. rewrite chunk_loop_equation_1.
  destruct (decide (offset < length full)%nat); [contradiction | reflexivity].
Qed.

(** The loop never raises: it appends one report per 63-byte piece of what
    is left of the message. *)
Lemma chunk_loop_Ok (full : bytes) (n : nat) :
  forall (offset : nat) (frames : list bytes),
    (length full - offset)%nat = n ->
    exists chunks reports,
      chunk_loop full offset frames = Ok (frames ++ reports)
      /\ Forall2 chunk_report chunks reports
      /\ Forall (fun c => 0 < len c <= 63) chunks
      /\ concat chunks = drop offset full
      /\ ((offset < length full)%nat -> (1 <= length reports)%nat)
      /\ ((offset + 63 < length full)%nat -> (2 <= length reports)%nat).
Proof.
  induction n as [n IH] using lt_wf_ind. intros offset frames Hn.
  destruct (decide (offset < length full)%nat) as [Hlt|Hge].
  - rewrite chunk_loop_step by done. cbn zeta.
    set (chunk := slice offset (offset + 63) full).
    assert (length chunk = 63 `min` (length full - offset))%nat as Hlen.
    { unfold chunk. rewrite slice_length. lia. }
    destruct (int_to_byte_is_Some (len chunk)) as (h & Hh & Eh);
      [unfold len; lia|].
    cbn [bytes_of]. rewrite Hh. cbn [bind].
    destruct (IH (length full - (offset + 63))%nat ltac:(lia) (offset + 63)%nat
                (frames ++ [[h] ++ chunk ++ zeros (63 - len chunk)]) eq_refl)
      as (cs & rs & Hloop & Hrep & Hcs & Hcat & H1 & _).
    exists (chunk :: cs), (([h] ++ chunk ++ zeros (63 - len chunk)) :: rs).
    rewrite Hloop, <- app_assoc. split; [reflexivity|].
    split; [constructor; [by exists h | done]|].
    split; [constructor; [unfold len; lia | done]|].
    split.
    { cbn [concat]. rewrite Hcat. unfold chunk, slice.
      replace (offset + 63 - offset)%nat with 63%nat by lia.
      rewrite <- drop_drop. apply take_drop. }
    cbn [length]. split; [lia|]. intros H. specialize (H1 H). lia.
  - rewrite chunk_loop_done by done. exists [], [].
    rewrite app_nil_r. repeat split; try done; try lia.
    cbn. rewrite drop_ge by lia. reflexivity.
Qed.

(** ** Commands *)

Lemma Command_value_byte (c : Command) : 0 <= Command_value c <= 255.
Proof. destruct c; cbn; lia. Qed.

Lemma module_unknown (module : string) :
  MODULE_COMMAND_MAP !! module = None <-> module ∉ MODULE_NAMES.
Proof. unfold MODULE_COMMAND_MAP. by rewrite <- not_elem_of_list_to_map. Qed.

Lemma module_known (module : string) :
  module ∈ MODULE_NAMES ->
  exists cmd, MODULE_COMMAND_MAP !! module = Some cmd.
Proof.
  intros Hin. destruct (MODULE_COMMAND_MAP !! module) as [cmd|] eqn:E.
  - by exists cmd.
  - by apply module_unknown in E.
Qed.

(** ** The frame codec *)

Section Codec.

(** The checksum: any function into 16-bit values. *)
Variable crc16 : bytes -> Z.
Hypothesis crc16_u16 : forall body, 0 <= crc16 body < 65536.

(** The three encoded parts that [build_frame] and [build_chunked_frames]
    start with. *)
Lemma message_parts (cmd : Z) (payload : bytes) :
  0 <= cmd <= 255 -> 1 + len payload < 65536 ->
  exists c s0 s1 k0 k1,
    bytes_of [cmd] = Ok [c]
    /\ to_bytes2_little (len ([c] ++ payload)) = Ok [s0; s1]
    /\ to_bytes2_little (crc16 ([c] ++ payload)) = Ok [k0; k1]
    /\ byte_to_int c = cmd
    /\ from_bytes_little [s0; s1] = 1 + len payload
    /\ from_bytes_little [k0; k1] = crc16 (c :: payload).
Proof.
  intros Hcmd Hlen.
  destruct (int_to_byte_is_Some cmd) as (c & Hc & Ec); [lia|].
  destruct (to_bytes2_little_Ok (len ([c] ++ payload))) as (s0 & s1 & Hs & Es).
  { rewrite len_app. change (len [c]) with 1. pose proof (len_nonneg payload). lia. }
  destruct (to_bytes2_little_Ok (crc16 ([c] ++ payload)))
    as (k0 & k1 & Hk & Ek); [apply crc16_u16|].
  exists c, s0, s1, k0, k1. cbn [bytes_of]. rewrite Hc. cbn [bind].
  repeat split; try done.
  rewrite Es, len_app. reflexivity.
Qed.

(** A report that carries a well-formed message parses to its frame,
    whatever follows the checksum. *)
Lemma parse_frame_message (h c s0 s1 k0 k1 : byte) (payload rest : bytes) :
  7 <= byte_to_int h ->
  from_bytes_little [s0; s1] = 1 + len payload ->
  from_bytes_little [k0; k1] = crc16 (c :: payload) ->
  parse_frame crc16
    (h :: xaa :: x55 :: s0 :: s1 :: c :: payload ++ k0 :: k1 :: rest)
  = Ok (Some (mkFrame (byte_to_int c) payload)).
Proof.
  intros Hh Hs Hk. unfold parse_frame.
  rewrite decide_False.
  2:{ rewrite !len_cons, len_app, !len_cons.
      pose proof (len_nonneg payload). pose proof (len_nonneg rest). lia. }
  change (getitem (h :: _) 0) with (Ok (A:=Z) (byte_to_int h)). cbn [bind].
  rewrite decide_False by lia.
  change (slice 1 3 (h :: xaa :: x55 :: ?l)) with PREAMBLE.
  rewrite decide_False by (intros H; by apply H).
  change (slice 3 5 (h :: xaa :: x55 :: s0 :: s1 :: ?l)) with [s0; s1].
  rewrite Hs.
  rewrite decide_False by (pose proof (len_nonneg payload); lia).
  change (getitem (h :: xaa :: x55 :: s0 :: s1 :: c :: ?l) 5)
    with (Ok (A:=Z) (byte_to_int c)). cbn [bind].
  assert (Z.to_nat (5 + (1 + len payload)) = (6 + length payload)%nat) as ->
    by (unfold len; lia).
  assert (Z.to_nat (5 + (1 + len payload) + 2) = (6 + length payload + 2)%nat)
    as -> by (unfold len; lia).
  assert (slice 6 (6 + length payload)
            (h :: xaa :: x55 :: s0 :: s1 :: c :: payload ++ k0 :: k1 :: rest)
          = payload) as ->.
  { apply (slice_app_exact [h; xaa; x55; s0; s1; c] payload (k0 :: k1 :: rest));
      cbn [length]; lia. }
  assert (slice 5 (6 + length payload)
            (h :: xaa :: x55 :: s0 :: s1 :: c :: payload ++ k0 :: k1 :: rest)
          = c :: payload) as ->.
  { apply (slice_app_exact [h; xaa; x55; s0; s1] (c :: payload)
             (k0 :: k1 :: rest)); cbn [length]; lia. }
  assert (slice (6 + length payload) (6 + length payload + 2)
            (h :: xaa :: x55 :: s0 :: s1 :: c :: payload ++ k0 :: k1 :: rest)
          = [k0; k1]) as ->.
  { replace (h :: xaa :: x55 :: s0 :: s1 :: c :: payload ++ k0 :: k1 :: rest)
      with (([h; xaa; x55; s0; s1; c] ++ payload) ++ [k0; k1] ++ rest)
      by (by rewrite <- app_assoc).
    apply slice_app_exact; [rewrite length_app|]; cbn [length]; lia. }
  rewrite Hk. rewrite decide_False by (intros H; by apply H).
  reflexivity.
Qed.

(** What [build_frame] returns for a payload whose frame length fits a
    byte. *)
Lemma build_frame_Ok (cmd : Z) (payload : bytes) :
  0 <= cmd <= 255 -> len payload <= 248 ->
  exists h c s0 s1 k0 k1,
    build_frame crc16 cmd payload
    = Ok (h :: xaa :: x55 :: s0 :: s1 :: c :: payload
            ++ k0 :: k1 :: zeros (56 - len payload))
    /\ byte_to_int h = 7 + len payload
    /\ byte_to_int c = cmd
    /\ from_bytes_little [s0; s1] = 1 + len payload
    /\ from_bytes_little [k0; k1] = crc16 (c :: payload).
Proof.
  intros Hcmd Hlen.
  destruct (message_parts cmd payload) as (c & s0 & s1 & k0 & k1 & Hc & Hs
    & Hk & Ec & Es & Ek); [lia | lia |].
  destruct (int_to_byte_is_Some (7 + len payload)) as (h & Hh & Eh).
  { pose proof (len_nonneg payload). lia. }
  exists h, c, s0, s1, k0, k1. unfold build_frame.
  rewrite Hc. cbn [bind]. rewrite Hs. cbn [bind]. rewrite Hk. cbn [bind].
  assert (len (PREAMBLE ++ [s0; s1] ++ ([c] ++ payload) ++ [k0; k1])
          = 7 + len payload) as ->.
  { rewrite !len_app. unfold len, PREAMBLE. cbn [length]. lia. }
  cbn [bytes_of]. rewrite Hh. cbn [bind].
  repeat split; try done.
  f_equal. unfold HID_REPORT_SIZE, PREAMBLE. cbn [app].
  rewrite <- app_assoc. cbn [app].
  replace (64 - 1 - (7 + len payload)) with (56 - len payload) by lia.
  reflexivity.
Qed.

(** Reassembly concatenates the chunks of the reports, in order. *)
Lemma assemble_chunk_reports (chunks reports : list bytes) :
  Forall2 chunk_report chunks reports ->
  forall assembled,
    assemble reports assembled = Ok (assembled ++ concat chunks).
Proof.
  induction 1 as [|c r cs rs (h & Eh & ->) _ IH]; intros assembled.
  - cbn. by rewrite app_nil_r.
  - cbn [assemble].
    rewrite decide_False
      by (rewrite len_cons; pose proof (len_nonneg (c ++ zeros (63 - len c))); lia).
    change (getitem (h :: _) 0) with (Ok (A:=Z) (byte_to_int h)). cbn [bind].
    rewrite Eh.
    assert (slice 1 (Z.to_nat (1 + len c)) (h :: c ++ zeros (63 - len c)) = c)
      as ->.
    { apply (slice_app_exact [h] c (zeros (63 - len c)));
        [reflexivity | unfold len; lia]. }
    rewrite IH. cbn [concat]. by rewrite <- app_assoc.
Qed.

(** A reassembled well-formed message parses to its frame. *)
Lemma parse_chunked_message (reports : list bytes)
    (c s0 s1 k0 k1 : byte) (payload rest : bytes) :
  assemble reports []
  = Ok (xaa :: x55 :: s0 :: s1 :: c :: payload ++ k0 :: k1 :: rest) ->
  from_bytes_little [s0; s1] = 1 + len payload ->
  from_bytes_little [k0; k1] = crc16 (c :: payload) ->
  parse_chunked_frames crc16 reports
  = Ok (Some (mkFrame (byte_to_int c) payload)).
Proof.
  intros Ha Hs Hk. unfold parse_chunked_frames. rewrite Ha. cbn [bind].
  rewrite decide_False.
  2:{ rewrite !len_cons, len_app, !len_cons.
      pose proof (len_nonneg payload). pose proof (len_nonneg rest). lia. }
  change (slice 0 2 (xaa :: x55 :: ?l)) with PREAMBLE.
  rewrite decide_False by (intros H; by apply H).
  change (slice 2 4 (xaa :: x55 :: s0 :: s1 :: ?l)) with [s0; s1].
  rewrite Hs.
  rewrite decide_False by (pose proof (len_nonneg payload); lia).
  change (getitem (xaa :: x55 :: s0 :: s1 :: c :: ?l) 4)
    with (Ok (A:=Z) (byte_to_int c)). cbn [bind].
  assert (Z.to_nat (4 + (1 + len payload)) = (5 + length payload)%nat) as ->
    by (unfold len; lia).
  assert (Z.to_nat (4 + (1 + len payload) + 2) = (5 + length payload + 2)%nat)
    as -> by (unfold len; lia).
  assert (slice 5 (5 + length payload)
            (xaa :: x55 :: s0 :: s1 :: c :: payload ++ k0 :: k1 :: rest)
          = payload) as ->.
  { apply (slice_app_exact [xaa; x55; s0; s1; c] payload (k0 :: k1 :: rest));
      cbn [length]; lia. }
  assert (slice 4 (5 + length payload)
            (xaa :: x55 :: s0 :: s1 :: c :: payload ++ k0 :: k1 :: rest)
          = c :: payload) as ->.
  { apply (slice_app_exact [xaa; x55; s0; s1] (c :: payload)
             (k0 :: k1 :: rest)); cbn [length]; lia. }
  assert (slice (5 + length payload) (5 + length payload + 2)
            (xaa :: x55 :: s0 :: s1 :: c :: payload ++ k0 :: k1 :: rest)
          = [k0; k1]) as ->.
  { replace (xaa :: x55 :: s0 :: s1 :: c :: payload ++ k0 :: k1 :: rest)
      with (([xaa; x55; s0; s1; c] ++ payload) ++ [k0; k1] ++ rest)
      by (by rewrite <- app_assoc).
    apply slice_app_exact; [rewrite length_app|]; cbn [length]; lia. }
  rewrite Hk. rewrite decide_False by (intros H; by apply H).
  reflexivity.
Qed.

(** The length of whatever [build_frame] returns. *)
Lemma build_frame_len (cmd : Z) (payload r : bytes) :
  build_frame crc16 cmd payload = Ok r ->
  len r = Z.max 64 (8 + len payload)
  /\ drop (Z.to_nat (8 + len payload)) r = zeros (56 - len payload).
Proof.
  unfold build_frame. intros H.
  bind_inv H. apply bytes_of_length in Ha.
  bind_inv H. apply to_bytes2_little_length in Ha0.
  bind_inv H. apply to_bytes2_little_length in Ha1.
  bind_inv H. apply bytes_of_length in Ha2.
  cbn zeta in H.
  assert (r = a2 ++ (PREAMBLE ++ a0 ++ (a ++ payload) ++ a1)
                ++ zeros (HID_REPORT_SIZE - 1
                          - len (PREAMBLE ++ a0 ++ (a ++ payload) ++ a1)))
    as -> by congruence.
  clear H.
  assert (len (PREAMBLE ++ a0 ++ (a ++ payload) ++ a1) = 7 + len payload)
    as Hf.
  { rewrite !len_app. unfold len, PREAMBLE. cbn [length] in *. lia. }
  rewrite Hf. split.
  - rewrite !len_app, len_zeros. unfold len, HID_REPORT_SIZE, PREAMBLE.
    cbn [length] in *. lia.
  - rewrite app_assoc. rewrite drop_app_length'.
    + f_equal. unfold HID_REPORT_SIZE. lia.
    + rewrite length_app. unfold len in *. cbn [length] in *. lia.
Qed.

(** A frame that fits one report goes through [build_frame] and
    [parse_frame] unchanged. *)
Lemma build_frame_parses (cmd : Z) (payload : bytes) :
  0 <= cmd <= 255 -> len payload <= 56 ->
  exists report,
    build_frame crc16 cmd payload = Ok report
    /\ len report = 64
    /\ parse_frame crc16 report = Ok (Some (mkFrame cmd payload)).
Proof.
  intros Hcmd Hlen.
  destruct (build_frame_Ok cmd payload)
    as (h & c & s0 & s1 & k0 & k1 & Hb & Eh & Ec & Es & Ek); [lia | lia |].
  eexists. split; [exact Hb|]. split.
  - apply build_frame_len in Hb as [-> _]. lia.
  - rewrite parse_frame_message; try done.
    + by rewrite Ec.
    + pose proof (len_nonneg payload). lia.
Qed.

(** Every report of a chunked message has 64 bytes, whatever the command
    and the payload. *)
Lemma build_chunked_frames_len (cmd : Z) (payload : bytes) (rs : list bytes) :
  build_chunked_frames crc16 cmd payload = Ok rs ->
  Forall (fun r => len r = 64) rs.
Proof.
  intros H. unfold build_chunked_frames in H.
  bind_inv H. bind_inv H. bind_inv H. cbn zeta in H.
  case_decide as Hfit.
  - bind_inv H. injection H as <-.
    apply build_frame_len in Ha2 as [Hl _].
    apply bytes_of_length in Ha. apply to_bytes2_little_length in Ha0, Ha1.
    rewrite !len_app in Hfit. unfold len, PREAMBLE, HID_REPORT_SIZE in Hfit.
    cbn [length] in *. constructor; [|constructor].
    unfold len in *. lia.
  - destruct (chunk_loop_Ok (PREAMBLE ++ a0 ++ (a ++ payload) ++ a1) _ 0%nat []
                eq_refl) as (cs & rs' & Hloop & Hrep & Hcs & _).
    rewrite Hloop in H. injection H as <-. cbn [app].
    clear Hloop. induction Hrep as [|c r cs rs' Hcr _ IH]; [constructor|].
    inversion Hcs; subst. constructor; [|by apply IH].
    apply (chunk_report_length c); [done | lia].
Qed.

(** A message that fits one report is built by [build_frame]. *)
Lemma build_chunked_frames_small (cmd : Z) (payload : bytes) :
  0 <= cmd <= 255 -> len payload <= 56 ->
  exists r, build_frame crc16 cmd payload = Ok r
            /\ build_chunked_frames crc16 cmd payload = Ok [r].
Proof.
  intros Hcmd Hlen.
  destruct (message_parts cmd payload)
    as (c & s0 & s1 & k0 & k1 & Hc & Hs & Hk & _); [lia | lia |].
  destruct (build_frame_Ok cmd payload)
    as (h & ? & ? & ? & ? & ? & Hb & _); [lia | lia |].
  eexists. split; [exact Hb|].
  unfold build_chunked_frames. rewrite Hc. cbn [bind]. rewrite Hs. cbn [bind].
  rewrite Hk. cbn [bind]. rewrite decide_True.
  - rewrite Hb. reflexivity.
  - rewrite !len_app. unfold len, PREAMBLE, HID_REPORT_SIZE in *.
    cbn [length]. lia.
Qed.

(** A longer message, up to the 65535 bytes that the size field can
    count, is split into at least two reports that reassemble to it. *)
Lemma build_chunked_frames_large (cmd : Z) (payload : bytes) :
  0 <= cmd <= 255 -> 56 < len payload -> 1 + len payload < 65536 ->
  exists rs, build_chunked_frames crc16 cmd payload = Ok rs
             /\ (1 < length rs)%nat
             /\ parse_chunked_frames crc16 rs
                = Ok (Some (mkFrame cmd payload)).
Proof.
  intros Hcmd Hbig Hlen.
  destruct (message_parts cmd payload)
    as (c & s0 & s1 & k0 & k1 & Hc & Hs & Hk & Ec & Es & Ek); [lia | lia |].
  assert (len (PREAMBLE ++ [s0; s1] ++ ([c] ++ payload) ++ [k0; k1])
          = 7 + len payload) as Hfull.
  { rewrite !len_app. unfold len, PREAMBLE. cbn [length]. lia. }
  unfold build_chunked_frames. rewrite Hc. cbn [bind]. rewrite Hs. cbn [bind].
  rewrite Hk. cbn [bind]. rewrite decide_False
    by (rewrite Hfull; unfold HID_REPORT_SIZE; lia).
  destruct (chunk_loop_Ok (PREAMBLE ++ [s0; s1] ++ ([c] ++ payload) ++ [k0; k1])
              _ 0%nat [] eq_refl)
    as (cs & rs & Hloop & Hrep & Hcs & Hcat & _ & H2).
  rewrite Hloop. cbn [app]. exists rs. split; [done|].
  split; [apply H2; unfold len in *; lia|].
  rewrite <- Ec.
  apply (parse_chunked_message rs c s0 s1 k0 k1 payload []); try done.
  rewrite (assemble_chunk_reports cs rs Hrep). cbn [app].
  rewrite Hcat, drop_0. reflexivity.
Qed.

(** A command with a payload of byte-sized values is one 64-byte report. *)
Lemma build_command_Ok (c : Command) (xs : list Z) :
  Forall is_byte xs -> len xs <= 56 ->
  exists p r, bytes_of xs = Ok p
              /\ build_command crc16 c p = Ok r /\ len r = 64.
Proof.
  intros Hxs Hlen. destruct (header_bytes_Ok xs Hxs) as (p & Hp & Hm).
  destruct (build_frame_parses (Command_value c) p)
    as (r & Hr & Hl & _).
  - apply Command_value_byte.
  - unfold len in *. by rewrite <- (length_map byte_to_int p), Hm.
  - by exists p, r.
Qed.

(** C1.  For every command byte [cmd] and every payload with
    [1 + len(payload) <= 57], [build_frame] returns a report, and
    [parse_frame] on that report returns the frame [Frame(cmd, payload)].
    The checksum function is any function into 16-bit values. *)
Theorem parse_frame_build_frame (cmd : Z) (payload : bytes) :
  0 <= cmd <= 255 -> 1 + len payload <= 57 ->
  exists report,
    build_frame crc16 cmd payload = Ok report
    /\ parse_frame crc16 report = Ok (Some (mkFrame cmd payload)).
Proof.
  intros Hcmd Hlen.
  destruct (build_frame_parses cmd payload)
    as (r & Hr & _ & Hp); [lia | lia |].
  by exists r.
Qed.

(** C3, amended.  For every command byte and every payload of at most 65534
    bytes: when the encoded message (preamble, size, body, checksum) has at
    most 63 bytes, [build_chunked_frames] returns the one-element list of
    what [build_frame] returns; when it has more, [build_chunked_frames]
    returns more than one report, each of exactly 64 bytes, and
    [parse_chunked_frames] on that list returns [Frame(cmd, payload)]. *)
Theorem chunked_frames_roundtrip (cmd : Z) (payload : bytes) :
  0 <= cmd <= 255 -> len payload <= 65534 ->
  (2 + 2 + (1 + len payload) + 2 <= 63 ->
   exists r, build_frame crc16 cmd payload = Ok r
             /\ build_chunked_frames crc16 cmd payload = Ok [r])
  /\ (63 < 2 + 2 + (1 + len payload) + 2 ->
      exists rs, build_chunked_frames crc16 cmd payload = Ok rs
                 /\ (1 < length rs)%nat
                 /\ Forall (fun r => len r = 64) rs
                 /\ parse_chunked_frames crc16 rs
                    = Ok (Some (mkFrame cmd payload))).
Proof.
  intros Hcmd Hlen. split; intros Hfit.
  - apply (build_chunked_frames_small); lia.
  - destruct (build_chunked_frames_large cmd payload)
      as (rs & Hrs & Hn & Hp); [lia | lia | lia |].
    exists rs. repeat split; try done.
    by apply (build_chunked_frames_len cmd payload).
Qed.

End Codec.

(** ** Responses *)

(** For a command byte of the enumeration, [parse_response] returns the
    typed response or the frame it was given. *)
Lemma parse_response_known (frame : Frame) (c : Command) :
  Command_of_value (command frame) = Ok c ->
  exists r, parse_response frame = Ok r
            /\ (r = Untyped frame \/ exists t, r = Typed t).
Proof.
  intros Hc. unfold parse_response. rewrite Hc. cbn [bind].
  destruct c; cbn [parsers_get]; try (eexists; split; [reflexivity|by left]).
  - unfold parse_identify. repeat case_decide; cbn [bind];
      eexists; (split; [reflexivity|]); eauto.
  - unfold parse_preset_response. repeat case_decide; cbn [bind];
      try (eexists; (split; [reflexivity|]); eauto; fail).
    rewrite getitem_lt by (unfold len in *; lia). cbn [bind].
    eexists; (split; [reflexivity|]); eauto.
  - unfold parse_system. repeat case_decide; cbn [bind];
      eexists; (split; [reflexivity|]); eauto.
  - unfold parse_volume. repeat case_decide; cbn [bind];
      try (eexists; (split; [reflexivity|]); eauto; fail).
    rewrite getitem_lt by (unfold len in *; lia). cbn [bind].
    eexists; (split; [reflexivity|]); eauto.
  - unfold parse_active_patch. repeat case_decide; cbn [bind];
      try (eexists; (split; [reflexivity|]); eauto; fail).
    rewrite getitem_lt by (unfold len in *; lia). cbn [bind].
    eexists; (split; [reflexivity|]); eauto.
Qed.

(** For any other command byte, the enumeration lookup raises. *)
Lemma parse_response_unknown (frame : Frame) :
  (forall c, Command_value c <> command frame) ->
  parse_response frame = Raise ValueError.
Proof.
  intros Hno. unfold parse_response, Command_of_value.
  destruct (list_find _ _) as [[i c]|] eqn:E; [|reflexivity].
  apply list_find_Some in E as (_ & Hc & _). by apply Hno in Hc.
Qed.

(** C5, as the code has it.  [parse_response] on the frame of command
    byte 0 and empty payload raises [ValueError]: the byte is no member of
    [Command], and [Command(frame.command)] is evaluated before the parser
    table is consulted. *)
Theorem parse_response_raises_on_unknown_byte :
  parse_response (mkFrame 0 []) = Raise ValueError.
Proof. apply parse_response_unknown. intros c. by destruct c. Qed.

(** ** Effect modules *)

(** Serialising a module whose fields are bytes: the header bytes, then the
    reserved bytes, [size] bytes in all. *)
Ltac module_to_bytes to_bytes fields :=
  match goal with
  | |- forall m, _ -> _ =>
      let Hf := fresh "Hf" in
      let Hr := fresh "Hr" in
      let h := fresh "h" in
      let Hh := fresh "Hh" in
      let Hm := fresh "Hm" in
      intros m [Hf Hr];
      destruct (header_bytes_Ok _ Hf) as (h & Hh & Hm);
      exists h; split; [exact Hh|]; split; [exact Hm|];
      split;
      [ unfold to_bytes; unfold fields in Hh; rewrite Hh; reflexivity
      | rewrite len_app, len_take_ge by exact Hr;
        unfold len; rewrite <- (length_map byte_to_int h), Hm; reflexivity ]
  end.

Lemma FX_to_bytes_Ok : forall m, FX_serialisable m ->
  exists h, bytes_of (FX_fields m) = Ok h
    /\ map byte_to_int h = FX_fields m
    /\ FXModule.to_bytes m = Ok (h ++ take 6 (FXModule.reserved m))
    /\ len (h ++ take 6 (FXModule.reserved m)) = FXModule.SIZE.
Proof. module_to_bytes FXModule.to_bytes FX_fields. Qed.

Lemma Distortion_to_bytes_Ok : forall m, Distortion_serialisable m ->
  exists h, bytes_of (Distortion_fields m) = Ok h
    /\ map byte_to_int h = Distortion_fields m
    /\ DistortionModule.to_bytes m
       = Ok (h ++ take 5 (DistortionModule.reserved m))
    /\ len (h ++ take 5 (DistortionModule.reserved m)) = DistortionModule.SIZE.
Proof. module_to_bytes DistortionModule.to_bytes Distortion_fields. Qed.

Lemma Amp_to_bytes_Ok : forall m, Amp_serialisable m ->
  exists h, bytes_of (Amp_fields m) = Ok h
    /\ map byte_to_int h = Amp_fields m
    /\ AmpModule.to_bytes m = Ok (h ++ take 8 (AmpModule.reserved m))
    /\ len (h ++ take 8 (AmpModule.reserved m)) = AmpModule.SIZE.
Proof. module_to_bytes AmpModule.to_bytes Amp_fields. Qed.

Lemma Cab_to_bytes_Ok : forall m, Cab_serialisable m ->
  exists h, bytes_of (Cab_fields m) = Ok h
    /\ map byte_to_int h = Cab_fields m
    /\ CabModule.to_bytes m = Ok (h ++ take 6 (CabModule.reserved m))
    /\ len (h ++ take 6 (CabModule.reserved m)) = CabModule.SIZE.
Proof. module_to_bytes CabModule.to_bytes Cab_fields. Qed.

Lemma NoiseGate_to_bytes_Ok : forall m, NoiseGate_serialisable m ->
  exists h, bytes_of (NoiseGate_fields m) = Ok h
    /\ map byte_to_int h = NoiseGate_fields m
    /\ NoiseGateModule.to_bytes m
       = Ok (h ++ take 5 (NoiseGateModule.reserved m))
    /\ len (h ++ take 5 (NoiseGateModule.reserved m)) = NoiseGateModule.SIZE.
Proof. module_to_bytes NoiseGateModule.to_bytes NoiseGate_fields. Qed.

Lemma Modulation_to_bytes_Ok : forall m, Modulation_serialisable m ->
  exists h, bytes_of (Modulation_fields m) = Ok h
    /\ map byte_to_int h = Modulation_fields m
    /\ ModulationModule.to_bytes m
       = Ok (h ++ take 7 (ModulationModule.reserved m))
    /\ len (h ++ take 7 (ModulationModule.reserved m))
       = ModulationModule.SIZE.
Proof. module_to_bytes ModulationModule.to_bytes Modulation_fields. Qed.

Lemma Reverb_to_bytes_Ok : forall m, Reverb_serialisable m ->
  exists h, bytes_of (Reverb_fields m) = Ok h
    /\ map byte_to_int h = Reverb_fields m
    /\ ReverbModule.to_bytes m = Ok (h ++ take 6 (ReverbModule.reserved m))
    /\ len (h ++ take 6 (ReverbModule.reserved m)) = ReverbModule.SIZE.
Proof. module_to_bytes ReverbModule.to_bytes Reverb_fields. Qed.

Lemma EQ_to_bytes_Ok : forall m, EQ_serialisable m ->
  exists h,
    bytes_of (EQ_fields m ++ take 6 (EQModule.bands m)
                ++ take 6 (EQModule.bands_extra m)) = Ok h
    /\ map byte_to_int h
       = EQ_fields m ++ take 6 (EQModule.bands m)
           ++ take 6 (EQModule.bands_extra m)
    /\ EQModule.to_bytes m = Ok (h ++ take 8 (EQModule.reserved m))
    /\ len (h ++ take 8 (EQModule.reserved m)) = EQModule.SIZE.
Proof.
  intros m (Hf & Hb & Hbb & Hx & Hxb & Hr).
  destruct (header_bytes_Ok
              (EQ_fields m ++ take 6 (EQModule.bands m)
                 ++ take 6 (EQModule.bands_extra m))) as (h & Hh & Hm).
  { rewrite !Forall_app. done. }
  exists h. split; [exact Hh|]. split; [exact Hm|]. split.
  - unfold EQModule.to_bytes. unfold EQ_fields in Hh. rewrite Hh. reflexivity.
  - rewrite len_app, len_take_ge by exact Hr.
    unfold len. rewrite <- (length_map byte_to_int h), Hm.
    rewrite !length_app, !length_take. unfold EQ_fields, EQModule.SIZE.
    cbn [length]. lia.
Qed.

Lemma Delay_to_bytes_Ok : forall m, Delay_serialisable m ->
  let header :=
    [ DelayModule.header m; DelayModule.enabled m; DelayModule.type m;
      DelayModule.level m; DelayModule.feedback m;
      Z.land (DelayModule.time_ms m) 0xFF;
      Z.land (Z.shiftr (DelayModule.time_ms m) 8) 0xFF;
      DelayModule.subdivision m; DelayModule.param5 m;
      DelayModule.param6 m ] in
  exists h,
    bytes_of header = Ok h
    /\ map byte_to_int h = header
    /\ DelayModule.to_bytes m = Ok (h ++ take 7 (DelayModule.reserved m))
    /\ len (h ++ take 7 (DelayModule.reserved m)) = DelayModule.SIZE.
Proof.
  intros m (Hf & Hr) header.
  destruct (header_bytes_Ok header) as (h & Hh & Hm).
  { unfold header, Delay_fields in *.
    repeat match goal with H : Forall _ (_ :: _) |- _ =>
      apply Forall_cons in H; destruct H end.
    repeat (constructor; [first [assumption | apply land_255_is_byte]|]).
    constructor. }
  exists h. split; [exact Hh|]. split; [exact Hm|]. split.
  - unfold DelayModule.to_bytes. cbn zeta. unfold header in Hh. rewrite Hh.
    reflexivity.
  - rewrite len_app, len_take_ge by exact Hr.
    unfold len. rewrite <- (length_map byte_to_int h), Hm. reflexivity.
Qed.

(** Decoding the serialised module gives the module back. *)

Ltac list_of_length h Hm :=
  repeat (destruct h as [|? h]; [discriminate Hm|]);
  destruct h; [|discriminate Hm];
  injection Hm as Hm; repeat match goal with H : byte_to_int _ = _ |- _ =>
    revert H end; intros.

Ltac module_from_bytes lemma from_bytes fields :=
  let m := fresh "m" in
  let Hf := fresh "Hf" in
  let Hr := fresh "Hr" in
  let h := fresh "h" in
  let Hm := fresh "Hm" in
  let Hto := fresh "Hto" in
  let Hlen := fresh "Hlen" in
  intros m [Hf Hr];
  destruct (lemma m) as (h & _ & Hm & Hto & Hlen);
    [split; [exact Hf | rewrite Hr; apply Nat.le_refl]|];
  rewrite take_ge in Hto, Hlen by (rewrite Hr; apply Nat.le_refl);
  eexists; split; [exact Hto|]; split; [exact Hlen|];
  unfold from_bytes; rewrite pad_to_id by (rewrite Hlen; apply Z.le_refl);
  destruct m; unfold fields in Hm; cbn in Hm, Hr |- *;
  list_of_length h Hm;
  cbn [app]; rewrite ?getitem_S, ?getitem_0; cbn [bind];
  unfold slice; cbn [skipn Nat.sub]; rewrite ?drop_0, take_ge by (rewrite Hr; apply Nat.le_refl);
  congruence.

Lemma FX_roundtrip : forall m, FX_valid m ->
  exists bs, FXModule.to_bytes m = Ok bs
    /\ len bs = FXModule.SIZE
    /\ FXModule.from_bytes bs = Ok m.
Proof.
  module_from_bytes FX_to_bytes_Ok FXModule.from_bytes FX_fields.
Qed.

Lemma Distortion_roundtrip : forall m, Distortion_valid m ->
  exists bs, DistortionModule.to_bytes m = Ok bs
    /\ len bs = DistortionModule.SIZE
    /\ DistortionModule.from_bytes bs = Ok m.
Proof.
  module_from_bytes Distortion_to_bytes_Ok DistortionModule.from_bytes Distortion_fields.
Qed.

Lemma Amp_roundtrip : forall m, Amp_valid m ->
  exists bs, AmpModule.to_bytes m = Ok bs
    /\ len bs = AmpModule.SIZE
    /\ AmpModule.from_bytes bs = Ok m.
Proof.
  module_from_bytes Amp_to_bytes_Ok AmpModule.from_bytes Amp_fields.
Qed.

Lemma Cab_roundtrip : forall m, Cab_valid m ->
  exists bs, CabModule.to_bytes m = Ok bs
    /\ len bs = CabModule.SIZE
    /\ CabModule.from_bytes bs = Ok m.
Proof.
  module_from_bytes Cab_to_bytes_Ok CabModule.from_bytes Cab_fields.
Qed.

Lemma NoiseGate_roundtrip : forall m, NoiseGate_valid m ->
  exists bs, NoiseGateModule.to_bytes m = Ok bs
    /\ len bs = NoiseGateModule.SIZE
    /\ NoiseGateModule.from_bytes bs = Ok m.
Proof.
  module_from_bytes NoiseGate_to_bytes_Ok NoiseGateModule.from_bytes NoiseGate_fields.
Qed.

Lemma Modulation_roundtrip : forall m, Modulation_valid m ->
  exists bs, ModulationModule.to_bytes m = Ok bs
    /\ len bs = ModulationModule.SIZE
    /\ ModulationModule.from_bytes bs = Ok m.
Proof.
  module_from_bytes Modulation_to_bytes_Ok ModulationModule.from_bytes Modulation_fields.
Qed.

Lemma Reverb_roundtrip : forall m, Reverb_valid m ->
  exists bs, ReverbModule.to_bytes m = Ok bs
    /\ len bs = ReverbModule.SIZE
    /\ ReverbModule.from_bytes bs = Ok m.
Proof.
  module_from_bytes Reverb_to_bytes_Ok ReverbModule.from_bytes Reverb_fields.
Qed.

(** The two bytes of a 16-bit delay time rebuild it. *)
Lemma time_ms_split (t : Z) :
  0 <= t <= 65535 ->
  Z.lor (Z.land t 0xFF) (Z.shiftl (Z.land (Z.shiftr t 8) 0xFF) 8) = t.
Proof.
  intros Ht. apply Z.bits_inj'. intros n Hn.
  rewrite Z.lor_spec, Z.land_spec.
  change 0xFF with (Z.ones 8).
  destruct (decide (n < 8)) as [Hlo|Hhi].
  - rewrite Z.shiftl_spec_low by lia.
    rewrite Z.ones_spec_low by lia.
    by rewrite andb_true_r, orb_false_r.
  - rewrite Z.shiftl_spec by lia.
    rewrite Z.land_spec, Z.shiftr_spec by lia.
    rewrite (Z.ones_spec_high 8 n) by lia.
    rewrite andb_false_r, orb_false_l.
    replace (n - 8 + 8) with n by lia.
    destruct (decide (n < 16)) as [Hmid|Htop].
    + rewrite Z.ones_spec_low by lia. by rewrite andb_true_r.
    + rewrite Z.ones_spec_high by lia. rewrite andb_false_r.
      symmetry. rewrite <- (Z.mod_small t (2 ^ 16)) by lia.
      apply Z.mod_pow2_bits_high. lia.
Qed.

Lemma EQ_roundtrip : forall m, EQ_valid m ->
  exists bs, EQModule.to_bytes m = Ok bs
    /\ len bs = EQModule.SIZE
    /\ EQModule.from_bytes bs = Ok m.
Proof.
  intros m (Hf & Hb & Hbb & Hx & Hxb & Hr).
  destruct (EQ_to_bytes_Ok m) as (h & _ & Hm & Hto & Hlen).
  { unfold EQ_serialisable. rewrite !take_ge by lia.
    repeat split; try done; lia. }
  rewrite !take_ge in Hm by lia.
  rewrite take_ge in Hto, Hlen by lia.
  eexists. split; [exact Hto|]. split; [exact Hlen|].
  unfold EQModule.from_bytes. rewrite pad_to_id by (rewrite Hlen; apply Z.le_refl).
  destruct m as [hd en ty bands extra reserved].
  unfold EQ_fields in Hm. cbn in Hm, Hb, Hx, Hr |- *.
  do 6 (destruct bands as [|? bands]; [discriminate Hb|]).
  destruct bands; [|discriminate Hb].
  do 6 (destruct extra as [|? extra]; [discriminate Hx|]).
  destruct extra; [|discriminate Hx].
  cbn [app] in Hm. list_of_length h Hm.
  cbn [app]. rewrite ?getitem_S, ?getitem_0. cbn [bind].
  unfold slice. cbn [skipn firstn Nat.sub map].
  rewrite take_0, drop_0, take_ge by lia. cbn [map]. congruence.
Qed.

Lemma Delay_roundtrip : forall m, Delay_valid m ->
  exists bs, DelayModule.to_bytes m = Ok bs
    /\ len bs = DelayModule.SIZE
    /\ DelayModule.from_bytes bs = Ok m.
Proof.
  intros m (Hf & Ht & Hr).
  destruct (Delay_to_bytes_Ok m) as (h & _ & Hm & Hto & Hlen).
  { split; [done | lia]. }
  rewrite take_ge in Hto, Hlen by lia.
  eexists. split; [exact Hto|]. split; [exact Hlen|].
  unfold DelayModule.from_bytes.
  rewrite pad_to_id by (rewrite Hlen; apply Z.le_refl).
  destruct m as [hd en ty lv fb tm sd p5 p6 reserved].
  cbn in Hm, Ht, Hr |- *.
  list_of_length h Hm.
  cbn [app]. rewrite ?getitem_S, ?getitem_0. cbn [bind].
  unfold slice. cbn [skipn Nat.sub].
  rewrite ?drop_0, take_ge by lia.
  assert (Z.lor (byte_to_int b4) (Z.shiftl (byte_to_int b5) 8) = tm) as ->.
  { rewrite <- (time_ms_split tm Ht). congruence. }
  congruence.
Qed.

(** Every serialisable module takes exactly its fixed size. *)

Lemma FX_to_bytes_size (m : FXModule.t) :
  FX_serialisable m ->
  exists b, FXModule.to_bytes m = Ok b /\ length b = 13%nat.
Proof.
  intros H. destruct (FX_to_bytes_Ok m H) as (h & _ & _ & Hto & Hlen).
  eexists. split; [exact Hto|].
  apply Nat2Z.inj. exact Hlen.
Qed.

Lemma Distortion_to_bytes_size (m : DistortionModule.t) :
  Distortion_serialisable m ->
  exists b, DistortionModule.to_bytes m = Ok b /\ length b = 11%nat.
Proof.
  intros H. destruct (Distortion_to_bytes_Ok m H) as (h & _ & _ & Hto & Hlen).
  eexists. split; [exact Hto|].
  apply Nat2Z.inj. exact Hlen.
Qed.

Lemma Amp_to_bytes_size (m : AmpModule.t) :
  Amp_serialisable m ->
  exists b, AmpModule.to_bytes m = Ok b /\ length b = 17%nat.
Proof.
  intros H. destruct (Amp_to_bytes_Ok m H) as (h & _ & _ & Hto & Hlen).
  eexists. split; [exact Hto|].
  apply Nat2Z.inj. exact Hlen.
Qed.

Lemma Cab_to_bytes_size (m : CabModule.t) :
  Cab_serialisable m ->
  exists b, CabModule.to_bytes m = Ok b /\ length b = 13%nat.
Proof.
  intros H. destruct (Cab_to_bytes_Ok m H) as (h & _ & _ & Hto & Hlen).
  eexists. split; [exact Hto|].
  apply Nat2Z.inj. exact Hlen.
Qed.

Lemma NoiseGate_to_bytes_size (m : NoiseGateModule.t) :
  NoiseGate_serialisable m ->
  exists b, NoiseGateModule.to_bytes m = Ok b /\ length b = 11%nat.
Proof.
  intros H. destruct (NoiseGate_to_bytes_Ok m H) as (h & _ & _ & Hto & Hlen).
  eexists. split; [exact Hto|].
  apply Nat2Z.inj. exact Hlen.
Qed.

Lemma EQ_to_bytes_size (m : EQModule.t) :
  EQ_serialisable m ->
  exists b, EQModule.to_bytes m = Ok b /\ length b = 23%nat.
Proof.
  intros H. destruct (EQ_to_bytes_Ok m H) as (h & _ & _ & Hto & Hlen).
  eexists. split; [exact Hto|].
  apply Nat2Z.inj. exact Hlen.
Qed.

Lemma Modulation_to_bytes_size (m : ModulationModule.t) :
  Modulation_serialisable m ->
  exists b, ModulationModule.to_bytes m = Ok b /\ length b = 15%nat.
Proof.
  intros H. destruct (Modulation_to_bytes_Ok m H) as (h & _ & _ & Hto & Hlen).
  eexists. split; [exact Hto|].
  apply Nat2Z.inj. exact Hlen.
Qed.

Lemma Delay_to_bytes_size (m : DelayModule.t) :
  Delay_serialisable m ->
  exists b, DelayModule.to_bytes m = Ok b /\ length b = 17%nat.
Proof.
  intros H. destruct (Delay_to_bytes_Ok m H) as (h & _ & _ & Hto & Hlen).
  eexists. split; [exact Hto|].
  apply Nat2Z.inj. exact Hlen.
Qed.

Lemma Reverb_to_bytes_size (m : ReverbModule.t) :
  Reverb_serialisable m ->
  exists b, ReverbModule.to_bytes m = Ok b /\ length b = 13%nat.
Proof.
  intros H. destruct (Reverb_to_bytes_Ok m H) as (h & _ & _ & Hto & Hlen).
  eexists. split; [exact Hto|].
  apply Nat2Z.inj. exact Hlen.
Qed.

(** ** The preset record *)

Lemma write_effect_order_Ok (vals : list Z) :
  forall (buf : bytes) (i : nat),
    (i + length vals <= length buf)%nat ->
    Preset.write_effect_order buf i vals
    = Ok (take i buf ++ map byte_of_masked vals
            ++ drop (i + length vals) buf).
Proof.
  induction vals as [|v vals IH]; intros buf i Hlen.
  - cbn. by rewrite Nat.add_0_r, take_drop.
  - cbn [Preset.write_effect_order length] in *.
    unfold setitem, OFF_EFFECT_ORDER. cbn [Nat.add].
    rewrite decide_True by lia. cbn [bind].
    rewrite IH by (rewrite length_insert; lia).
    f_equal. rewrite drop_insert_lt by lia.
    rewrite (take_S_r _ _ (byte_of_masked v))
      by (apply list_lookup_insert_eq; lia).
    rewrite take_insert_ge by lia.
    rewrite <- app_assoc. cbn [app map].
    replace (S i + length vals)%nat with (i + S (length vals))%nat by lia.
    reflexivity.
Qed.

Lemma effect_order_block_length (eo : list Z) :
  length (effect_order_block eo) = 10%nat.
Proof.
  unfold effect_order_block. cbn zeta.
  rewrite length_app, length_map, length_replicate, length_take. lia.
Qed.

Lemma name_block_length (name : str) : length (name_block name) = 14%nat.
Proof.
  unfold name_block. cbn zeta.
  rewrite length_app, length_replicate, length_take. lia.
Qed.

(** The first three writes of [Preset.to_bytes]: the effect order and the
    two bytes of the size field. *)
Lemma preset_prefix {B} (eo : list Z) (v1 v2 : byte)
    (k : bytes -> result B) :
  (buf <~ Preset.write_effect_order (zeros PRESET_SIZE) 0 (take 10 eo);
   buf <~ setitem buf OFF_SIZE v1;
   buf <~ setitem buf (OFF_SIZE + 1) v2;
   k buf)
  = k ((effect_order_block eo ++ [v1; v2]) ++ replicate 500 x00).
Proof.
  assert (length (take 10 eo) <= 10)%nat as Hn by (rewrite length_take; lia).
  assert (length (zeros PRESET_SIZE) = 512%nat) as Hz
    by (unfold zeros; by rewrite length_replicate).
  rewrite write_effect_order_Ok by (rewrite Hz; lia).
  rewrite take_0. cbn [bind app].
  assert (map byte_of_masked (take 10 eo)
            ++ drop (0 + length (take 10 eo)) (zeros PRESET_SIZE)
          = effect_order_block eo ++ replicate 502 x00) as ->.
  { unfold effect_order_block, zeros. cbn zeta. rewrite drop_replicate.
    rewrite <- app_assoc, <- replicate_add. do 2 f_equal.
    change (Z.to_nat PRESET_SIZE) with 512%nat. lia. }
  pose proof (effect_order_block_length eo) as Hb.
  unfold setitem, OFF_SIZE.
  rewrite decide_True by (rewrite length_app, Hb, length_replicate; lia).
  cbn [bind].
  rewrite decide_True
    by (rewrite length_insert, length_app, Hb, length_replicate; lia).
  cbn [bind]. f_equal.
  rewrite !insert_app_r_alt by (rewrite ?length_insert, ?Hb; lia).
  rewrite Hb. rewrite <- app_assoc. reflexivity.
Qed.

(** A slice assignment at the end of what has been written so far: the
    buffer is the written part followed by zeros. *)
Lemma slice_assign_zeros (pre v : bytes) (off size N : nat) :
  length pre = off -> (size <= N)%nat ->
  slice_assign (pre ++ replicate N x00) off (off + size) v
  = (pre ++ v) ++ replicate (N - size) x00.
Proof.
  intros Hp Hs. unfold slice_assign.
  rewrite take_app_length' by done.
  rewrite drop_app_ge by lia. rewrite drop_replicate.
  rewrite <- app_assoc. do 3 f_equal. lia.
Qed.

Lemma slice_skip {A} (x rest : list A) (a b : nat) :
  (length x <= a)%nat ->
  slice a b (x ++ rest) = slice (a - length x) (b - length x) rest.
Proof.
  intros H. unfold slice. rewrite drop_app_ge by done. f_equal. lia.
Qed.

Lemma slice_here {A} (x rest : list A) (b : nat) :
  b = length x -> slice 0 b (x ++ rest) = x.
Proof. apply slice_0_app. Qed.

Lemma slice_all {A} (x : list A) (b : nat) :
  b = length x -> slice 0 b x = x.
Proof.
  intros ->. unfold slice. rewrite drop_0, Nat.sub_0_r. by apply take_ge.
Qed.

(** Rewrites the lengths that the context gives. *)
Ltac known_lengths :=
  repeat match goal with
         | H : length ?x = _ |- context [length ?x] => rewrite H
         end.

(** The side conditions of the block lemmas. *)
Ltac block_side :=
  first [ lia
        | rewrite ?length_app; known_lengths; reflexivity
        | vm_compute; lia ].

(** The record that [Preset.to_bytes] builds: the twelve blocks at their
    offsets, then zeros up to 512 bytes. *)
Lemma Preset_to_bytes_layout (p : Preset.t) :
  Preset_serialisable p ->
  exists fxb odb ampb cabb nsb eqb modb delayb reverbb,
    (FXModule.to_bytes (Preset.fx p) = Ok fxb /\ length fxb = 13%nat)
    /\ (DistortionModule.to_bytes (Preset.od p) = Ok odb
        /\ length odb = 11%nat)
    /\ (AmpModule.to_bytes (Preset.amp p) = Ok ampb /\ length ampb = 17%nat)
    /\ (CabModule.to_bytes (Preset.cab p) = Ok cabb /\ length cabb = 13%nat)
    /\ (NoiseGateModule.to_bytes (Preset.ns p) = Ok nsb
        /\ length nsb = 11%nat)
    /\ (EQModule.to_bytes (Preset.eq p) = Ok eqb /\ length eqb = 23%nat)
    /\ (ModulationModule.to_bytes (Preset.mod_ p) = Ok modb
        /\ length modb = 15%nat)
    /\ (DelayModule.to_bytes (Preset.delay p) = Ok delayb
        /\ length delayb = 17%nat)
    /\ (ReverbModule.to_bytes (Preset.reverb p) = Ok reverbb
        /\ length reverbb = 13%nat)
    /\ Preset.to_bytes p
       = Ok (effect_order_block (Preset.effect_order p) ++ [x01; xf4]
               ++ name_block (Preset.name p)
               ++ fxb ++ odb ++ ampb ++ cabb ++ nsb ++ eqb ++ modb
               ++ delayb ++ reverbb ++ replicate 353 x00).
Proof.
  intros (Hfx & Hod & Hamp & Hcab & Hns & Heq & Hmod & Hdelay & Hreverb).
  destruct (FX_to_bytes_size _ Hfx) as (fxb & Tfx & Lfx).
  destruct (Distortion_to_bytes_size _ Hod) as (odb & Tod & Lod).
  destruct (Amp_to_bytes_size _ Hamp) as (ampb & Tamp & Lamp).
  destruct (Cab_to_bytes_size _ Hcab) as (cabb & Tcab & Lcab).
  destruct (NoiseGate_to_bytes_size _ Hns) as (nsb & Tns & Lns).
  destruct (EQ_to_bytes_size _ Heq) as (eqb & Teq & Leq).
  destruct (Modulation_to_bytes_size _ Hmod) as (modb & Tmod & Lmod).
  destruct (Delay_to_bytes_size _ Hdelay) as (delayb & Tdelay & Ldelay).
  destruct (Reverb_to_bytes_size _ Hreverb) as (reverbb & Treverb & Lreverb).
  exists fxb, odb, ampb, cabb, nsb, eqb, modb, delayb, reverbb.
  do 9 (split; [split; assumption|]).
  unfold Preset.to_bytes. cbn zeta.
  rewrite preset_prefix.
  pose proof (effect_order_block_length (Preset.effect_order p)) as Leo.
  pose proof (name_block_length (Preset.name p)) as Lname.
  (* the name *)
  assert (length (take 14 (encode_ascii_replace (Preset.name p))) <= 14)%nat
    as Hn by (rewrite length_take; lia).
  rewrite (slice_assign_zeros _ _ OFF_NAME)
    by block_side.
  replace (500 - length (take 14 (encode_ascii_replace (Preset.name p))))%nat
    with ((14 - length (take 14 (encode_ascii_replace (Preset.name p))))
          + 486)%nat by lia.
  rewrite replicate_add, !app_assoc.
  rewrite <- (app_assoc _ (take 14 _) (replicate _ x00)).
  fold (name_block (Preset.name p)).
  (* the nine modules *)
  rewrite Tfx. cbn [bind].
  rewrite (slice_assign_zeros _ _ OFF_FX)
    by block_side.
  rewrite Tod. cbn [bind].
  rewrite (slice_assign_zeros _ _ OFF_OD)
    by block_side.
  rewrite Tamp. cbn [bind].
  rewrite (slice_assign_zeros _ _ OFF_AMP)
    by block_side.
  rewrite Tcab. cbn [bind].
  rewrite (slice_assign_zeros _ _ OFF_CAB)
    by block_side.
  rewrite Tns. cbn [bind].
  rewrite (slice_assign_zeros _ _ OFF_NS)
    by block_side.
  rewrite Teq. cbn [bind].
  rewrite (slice_assign_zeros _ _ OFF_EQ)
    by block_side.
  rewrite Tmod. cbn [bind].
  rewrite (slice_assign_zeros _ _ OFF_MOD)
    by block_side.
  rewrite Tdelay. cbn [bind].
  rewrite (slice_assign_zeros _ _ OFF_DELAY)
    by block_side.
  rewrite Treverb. cbn [bind].
  rewrite (slice_assign_zeros _ _ OFF_REVERB)
    by block_side.
  rewrite <- !app_assoc. reflexivity.
Qed.

(** Reads one block of a buffer given as a concatenation of blocks whose
    lengths the context knows. *)
Ltac read_block :=
  lazymatch goal with
  | |- slice ?a ?b _ = _ =>
      let a' := eval vm_compute in a in
      let b' := eval vm_compute in b in
      change a with a'; change b with b'
  end;
  repeat (rewrite slice_skip by (cbn [length]; known_lengths; lia);
          cbn [length]; known_lengths; cbn [Nat.sub]);
  first [ apply slice_here | apply slice_all ];
  cbn [length]; known_lengths; reflexivity.

Lemma effect_order_block_decode (eo : list Z) :
  length eo = 10%nat -> Forall is_byte eo ->
  map byte_to_int (effect_order_block eo) = eo.
Proof.
  intros Hlen Hb. unfold effect_order_block. cbn zeta.
  rewrite take_ge by lia. rewrite Hlen. cbn [Nat.sub replicate].
  rewrite app_nil_r. clear Hlen.
  induction Hb as [|x eo Hx _ IH]; [reflexivity|].
  cbn [map]. rewrite IH, byte_of_masked_to_int; [done|].
  unfold is_byte in Hx. lia.
Qed.

Lemma before_null_zeros (l : bytes) (k : nat) :
  Forall (fun b => b <> x00) l ->
  before_null (l ++ replicate k x00) = l.
Proof.
  induction 1 as [|b l Hb _ IH]; cbn [app before_null].
  - destruct k; [reflexivity|]. cbn. by rewrite decide_True.
  - by rewrite decide_False, IH.
Qed.

Lemma encode_ascii_char (c : N) :
  (0 < c < 128)%N ->
  exists b, Byte.of_N c = Some b /\ Byte.to_N b = c /\ b <> x00.
Proof.
  intros Hc. destruct (Byte.of_N c) as [b|] eqn:E.
  - exists b. pose proof E as Hb. apply Byte.to_of_N in Hb.
    repeat split; [done|]. intros ->. cbn in Hb. lia.
  - apply Byte.of_N_None_iff in E. lia.
Qed.

Lemma decode_encode_ascii (name : str) :
  Forall (fun c => 0 < c < 128)%N name ->
  decode_ascii_replace (encode_ascii_replace name) = name
  /\ Forall (fun b => b <> x00) (encode_ascii_replace name).
Proof.
  unfold decode_ascii_replace, encode_ascii_replace.
  induction 1 as [|c name Hc _ [IH1 IH2]]; [by split|].
  cbn beta in Hc. cbn [map].
  destruct (encode_ascii_char c Hc) as (b & -> & Hb & Hnz).
  destruct (decide (c < 128)%N) as [Hlt|]; [|lia].
  change (default x3f (Some b)) with b.
  rewrite Hb, IH1. rewrite (decide_True _ _ Hlt).
  split; [reflexivity | by constructor].
Qed.

Lemma name_block_decode (name : str) :
  (length name <= 14)%nat -> Forall (fun c => 0 < c < 128)%N name ->
  decode_ascii_replace (before_null (name_block name)) = name.
Proof.
  intros Hlen Hc. unfold name_block. cbn zeta.
  rewrite take_ge by (unfold encode_ascii_replace; rewrite length_map; lia).
  destruct (decode_encode_ascii name Hc) as [Hd Hnz].
  by rewrite before_null_zeros.
Qed.

Lemma valid_serialisable (p : Preset.t) :
  Preset_valid p -> Preset_serialisable p.
Proof.
  intros (_ & _ & _ & _ & Hfx & Hod & Hamp & Hcab & Hns & Heq & Hmod
          & Hdelay & Hreverb).
  unfold Preset_serialisable.
  destruct Hfx as [? Rfx], Hod as [? Rod], Hamp as [? Ramp],
    Hcab as [? Rcab], Hns as [? Rns], Hmod as [? Rmod],
    Hdelay as (? & _ & Rdelay), Hreverb as [? Rreverb],
    Heq as (? & Lb & ? & Lx & ? & Req).
  repeat split; try assumption; try lia;
    rewrite take_ge by lia; assumption.
Qed.

(** A serialisable preset takes exactly 512 bytes. *)
Lemma Preset_to_bytes_size (p : Preset.t) :
  Preset_serialisable p ->
  exists bs, Preset.to_bytes p = Ok bs /\ length bs = 512%nat.
Proof.
  intros Hp.
  destruct (Preset_to_bytes_layout p Hp)
    as (fxb & odb & ampb & cabb & nsb & eqb & modb & delayb & reverbb
        & [_ Lfx] & [_ Lod] & [_ Lamp] & [_ Lcab] & [_ Lns]
        & [_ Leq] & [_ Lmod] & [_ Ldelay] & [_ Lreverb] & Hto).
  eexists. split; [exact Hto|].
  pose proof (effect_order_block_length (Preset.effect_order p)) as Leo.
  pose proof (name_block_length (Preset.name p)) as Lname.
  rewrite !length_app, length_replicate. cbn [length]. known_lengths.
  reflexivity.
Qed.

(** C2.  For every valid preset (a name of at most 14 ASCII characters
    without a null, an effect order of 10 bytes, module fields in 0..255,
    a delay time in 0..65535, two groups of six byte-sized EQ bands,
    reserved fields of the declared lengths), [Preset.to_bytes] returns a
    record from which [Preset.from_bytes] decodes the same preset: the same
    name, effect order and module fields, the reserved bytes included. *)
Theorem preset_roundtrip (p : Preset.t) :
  Preset_valid p ->
  exists bs, Preset.to_bytes p = Ok bs /\ Preset.from_bytes bs = Ok p.
Proof.
  intros Hv.
  destruct (Preset_to_bytes_layout p (valid_serialisable p Hv))
    as (fxb & odb & ampb & cabb & nsb & eqb & modb & delayb & reverbb
        & [Tfx Lfx] & [Tod Lod] & [Tamp Lamp] & [Tcab Lcab] & [Tns Lns]
        & [Teq Leq] & [Tmod Lmod] & [Tdelay Ldelay] & [Treverb Lreverb]
        & Hto).
  destruct Hv as (Hnl & Hnc & Hel & Heb & Hfx & Hod & Hamp & Hcab & Hns & Heq
                  & Hmod & Hdelay & Hreverb).
  apply FX_roundtrip in Hfx as (? & E & _ & Ffx).
  rewrite Tfx in E; injection E as <-.
  apply Distortion_roundtrip in Hod as (? & E & _ & Fod).
  rewrite Tod in E; injection E as <-.
  apply Amp_roundtrip in Hamp as (? & E & _ & Famp).
  rewrite Tamp in E; injection E as <-.
  apply Cab_roundtrip in Hcab as (? & E & _ & Fcab).
  rewrite Tcab in E; injection E as <-.
  apply NoiseGate_roundtrip in Hns as (? & E & _ & Fns).
  rewrite Tns in E; injection E as <-.
  apply EQ_roundtrip in Heq as (? & E & _ & Feq).
  rewrite Teq in E; injection E as <-.
  apply Modulation_roundtrip in Hmod as (? & E & _ & Fmod).
  rewrite Tmod in E; injection E as <-.
  apply Delay_roundtrip in Hdelay as (? & E & _ & Fdelay).
  rewrite Tdelay in E; injection E as <-.
  apply Reverb_roundtrip in Hreverb as (? & E & _ & Freverb).
  rewrite Treverb in E; injection E as <-.
  eexists. split; [exact Hto|]. clear Hto.
  pose proof (effect_order_block_length (Preset.effect_order p)) as Leo.
  pose proof (name_block_length (Preset.name p)) as Lname.
  match goal with |- Preset.from_bytes ?b = _ => set (buf := b) end.
  assert (len buf = PRESET_SIZE) as Lbuf.
  { unfold len, buf. rewrite !length_app, length_replicate.
    cbn [length]. known_lengths. reflexivity. }
  unfold Preset.from_bytes. rewrite pad_to_id by lia. cbn zeta.
  assert (slice OFF_EFFECT_ORDER (OFF_EFFECT_ORDER + 10) buf
          = effect_order_block (Preset.effect_order p)) as ->
    by (unfold buf; read_block).
  assert (slice OFF_NAME (OFF_NAME + 14) buf = name_block (Preset.name p))
    as -> by (unfold buf; read_block).
  assert (slice OFF_FX (OFF_FX + Z.to_nat FXModule.SIZE) buf = fxb) as ->
    by (unfold buf; read_block).
  assert (slice OFF_OD (OFF_OD + Z.to_nat DistortionModule.SIZE) buf = odb)
    as -> by (unfold buf; read_block).
  assert (slice OFF_AMP (OFF_AMP + Z.to_nat AmpModule.SIZE) buf = ampb) as ->
    by (unfold buf; read_block).
  assert (slice OFF_CAB (OFF_CAB + Z.to_nat CabModule.SIZE) buf = cabb) as ->
    by (unfold buf; read_block).
  assert (slice OFF_NS (OFF_NS + Z.to_nat NoiseGateModule.SIZE) buf = nsb)
    as -> by (unfold buf; read_block).
  assert (slice OFF_EQ (OFF_EQ + Z.to_nat EQModule.SIZE) buf = eqb) as ->
    by (unfold buf; read_block).
  assert (slice OFF_MOD (OFF_MOD + Z.to_nat ModulationModule.SIZE) buf = modb)
    as -> by (unfold buf; read_block).
  assert (slice OFF_DELAY (OFF_DELAY + Z.to_nat DelayModule.SIZE) buf
          = delayb) as -> by (unfold buf; read_block).
  assert (slice OFF_REVERB (OFF_REVERB + Z.to_nat ReverbModule.SIZE) buf
          = reverbb) as -> by (unfold buf; read_block).
  rewrite Ffx, Fod, Famp, Fcab, Fns, Feq, Fmod, Fdelay, Freverb. cbn [bind].
  rewrite effect_order_block_decode, name_block_decode by assumption.
  by destruct p.
Qed.



(** ** The example checksum *)

Lemma Crc_crc16_u16 (body : bytes) : 0 <= Crc.crc16 body < 65536.
Proof.
  unfold Crc.crc16. change 0xFFFF with (Z.ones 16).
  rewrite Z.land_ones by lia. apply Z.mod_pos_bound. lia.
Qed.

(** The example has the two values that [test_crc.py] expects of
    [crc16]. *)
Lemma Crc_crc16_test_values :
  Crc.crc16 [] = 0xFFFF /\ Crc.crc16 [xa6; x02] = 0x6865.
Proof. split; reflexivity. Qed.

(** * The claims on given values *)

(** Decides a closed decidable proposition by evaluation. *)
Ltac decide_by_evaluation :=
  apply (bool_decide_unpack _); vm_compute; exact I.

Lemma parse_frame_build_frame_witness :
  (forall body, 0 <= Crc.crc16 body < 65536)
  /\ 0 <= 0xA6 <= 255
  /\ 1 + len [x05] <= 57
  /\ exists report,
       build_frame Crc.crc16 0xA6 [x05] = Ok report
       /\ parse_frame Crc.crc16 report = Ok (Some (mkFrame 0xA6 [x05])).
Proof.
  split; [exact Crc_crc16_u16|]. split; [lia|]. split; [unfold len; cbn [length]; lia|].
  apply (parse_frame_build_frame Crc.crc16 Crc_crc16_u16 0xA6 [x05]);
    [lia | unfold len; cbn [length]; lia].
Defined.

Lemma preset_roundtrip_witness :
  Preset_valid preset_example
  /\ exists bs, Preset.to_bytes preset_example = Ok bs
                /\ Preset.from_bytes bs = Ok preset_example.
Proof.
  assert (Preset_valid preset_example) as H by decide_by_evaluation.
  split; [exact H|]. apply (preset_roundtrip preset_example H).
Defined.

Lemma chunked_frames_roundtrip_witness :
  (forall body, 0 <= Crc.crc16 body < 65536)
  /\ 0 <= 0x83 <= 255
  /\ len (replicate 200 x07) <= 65534
  /\ 63 < 2 + 2 + (1 + len (replicate 200 x07)) + 2
  /\ exists rs,
       build_chunked_frames Crc.crc16 0x83 (replicate 200 x07) = Ok rs
       /\ (1 < length rs)%nat
       /\ Forall (fun r => len r = 64) rs
       /\ parse_chunked_frames Crc.crc16 rs
          = Ok (Some (mkFrame 0x83 (replicate 200 x07))).
Proof.
  split; [exact Crc_crc16_u16|]. split; [lia|].
  split; [unfold len; rewrite length_replicate; lia|].
  split; [unfold len; rewrite length_replicate; lia|].
  apply (chunked_frames_roundtrip Crc.crc16 Crc_crc16_u16 0x83
           (replicate 200 x07));
    unfold len; rewrite ?length_replicate; lia.
Defined.

(** A payload of 65535 bytes makes a body of 65536 bytes, which the 16-bit
    size field cannot count: [len(body).to_bytes(2, "little")] raises. *)
Lemma chunked_frames_overflow :
  63 < 2 + 2 + (1 + len (zeros 65535)) + 2
  /\ build_chunked_frames Crc.crc16 0x83 (zeros 65535) = Raise OverflowError.
Proof.
  split; [rewrite len_zeros; lia|].
  unfold build_chunked_frames.
  change (bytes_of [0x83]) with (Ok (A:=bytes) [x83]). cbn [bind].
  rewrite to_bytes2_little_Raise; [reflexivity|].
  rewrite len_app, len_zeros. unfold len. cbn [length]. lia.
Qed.





(** * Further properties *)

(** ** Bytes *)

Lemma byte_to_int_inj (a b : byte) : byte_to_int a = byte_to_int b -> a = b.
Proof.
  intros H. apply (f_equal int_to_byte) in H.
  rewrite !int_to_byte_to_int in H. by injection H.
Qed.

Lemma from_bytes_little_range (bs : bytes) :
  0 <= from_bytes_little bs < 256 ^ len bs.
Proof.
  induction bs as [|b bs IH]; [by vm_compute|].
  rewrite len_cons. cbn [from_bytes_little].
  pose proof (byte_to_int_range b). pose proof (len_nonneg bs).
  replace (1 + len bs) with (Z.succ (len bs)) by lia.
  rewrite Z.pow_succ_r by done. lia.
Qed.

(** ** Chunked messages *)

(** The loop appends one report per started 63 bytes of what is left. *)
Lemma chunk_loop_length (full : bytes) (n : nat) :
  forall (offset : nat) (frames : list bytes),
    (length full - offset)%nat = n ->
    exists rs, chunk_loop full offset frames = Ok rs
      /\ len rs = len frames + (Z.of_nat n + 62) / 63.
Proof.
  induction n as [n IH] using lt_wf_ind. intros offset frames Hn.
  destruct (decide (offset < length full)%nat) as [Hlt|Hge].
  - rewrite chunk_loop_step by done. cbn zeta.
    set (chunk := slice offset (offset + 63) full).
    assert (length chunk = 63 `min` (length full - offset))%nat as Hlen.
    { unfold chunk. rewrite slice_length. lia. }
    destruct (int_to_byte_is_Some (len chunk)) as (h & Hh & Eh);
      [unfold len; lia|].
    cbn [bytes_of]. rewrite Hh. cbn [bind].
    destruct (IH (length full - (offset + 63))%nat ltac:(lia) (offset + 63)%nat
                (frames ++ [[h] ++ chunk ++ zeros (63 - len chunk)]) eq_refl)
      as (rs & Hrs & Hl).
    exists rs. split; [done|]. rewrite Hl. unfold len.
    rewrite length_app. cbn [length].
    assert ((Z.of_nat n + 62) / 63
            = (Z.of_nat (length full - (offset + 63)) + 62) / 63 + 1) as ->;
      [|lia].
    destruct (decide (63 <= n)%nat) as [Hbig|Hsmall].
    + replace (Z.of_nat n + 62)
        with (Z.of_nat (length full - (offset + 63)) + 62 + 1 * 63) by lia.
      by rewrite Z.div_add.
    + replace (length full - (offset + 63))%nat with 0%nat by lia.
      change ((Z.of_nat 0 + 62) / 63) with 0.
      symmetry. apply (Z.div_unique _ _ 1 (Z.of_nat n - 1)); lia.
  - rewrite chunk_loop_done by done. exists frames. split; [done|].
    replace n with 0%nat by lia. change ((Z.of_nat 0 + 62) / 63) with 0. lia.
Qed.

(** Reassembly never raises: it concatenates what the reports declare. *)
Lemma assemble_declared (reports : list bytes) :
  forall assembled,
    assemble reports assembled
    = Ok (assembled ++ concat (map declared_chunk reports)).
Proof.
  induction reports as [|r rs IH]; intros assembled.
  - cbn. by rewrite app_nil_r.
  - cbn [assemble map concat]. destruct r as [|h r].
    + rewrite decide_True by (unfold len; cbn [length]; lia).
      rewrite IH. reflexivity.
    + rewrite decide_False
        by (rewrite len_cons; pose proof (len_nonneg r); lia).
      rewrite getitem_0. cbn [bind declared_chunk].
      rewrite IH. by rewrite <- app_assoc.
Qed.

Section CodecMore.

Variable crc16 : bytes -> Z.
Hypothesis crc16_u16 : forall body, 0 <= crc16 body < 65536.

(** The one report of a short message declares the whole message. *)
Lemma build_frame_declared (cmd : Z) (payload : bytes) :
  0 <= cmd <= 255 -> len payload <= 56 ->
  exists r c s0 s1 k0 k1,
    build_frame crc16 cmd payload = Ok r
    /\ declared_chunk r
       = xaa :: x55 :: s0 :: s1 :: c :: payload ++ [k0; k1]
    /\ byte_to_int c = cmd
    /\ from_bytes_little [s0; s1] = 1 + len payload
    /\ from_bytes_little [k0; k1] = crc16 (c :: payload).
Proof.
  intros Hcmd Hlen.
  destruct (build_frame_Ok crc16 crc16_u16 cmd payload)
    as (h & c & s0 & s1 & k0 & k1 & Hb & Eh & Ec & Es & Ek); [lia | lia |].
  eexists _, c, s0, s1, k0, k1. split; [exact Hb|].
  repeat split; try done.
  cbn [declared_chunk]. rewrite Eh.
  replace (h :: xaa :: x55 :: s0 :: s1 :: c :: payload
             ++ k0 :: k1 :: zeros (56 - len payload))
    with ([h] ++ (xaa :: x55 :: s0 :: s1 :: c :: payload ++ [k0; k1])
              ++ zeros (56 - len payload))
    by (cbn [app]; by rewrite <- app_assoc).
  apply (slice_app_exact [h]
           (xaa :: x55 :: s0 :: s1 :: c :: payload ++ [k0; k1])
           (zeros (56 - len payload))).
  - reflexivity.
  - cbn [length]. rewrite length_app. cbn [length]. unfold len. lia.
Qed.

(** What [build_chunked_frames] returns for a command byte and a payload
    that the size field can count: one report per started 63 bytes of the
    message, which reassemble to the frame. *)
Lemma build_chunked_frames_reports (cmd : Z) (payload : bytes) :
  0 <= cmd <= 255 -> len payload <= 65534 ->
  exists rs,
    build_chunked_frames crc16 cmd payload = Ok rs
    /\ len rs = (7 + len payload + 62) / 63
    /\ parse_chunked_frames crc16 rs = Ok (Some (mkFrame cmd payload)).
Proof.
  intros Hcmd Hlen. pose proof (len_nonneg payload) as Hnn.
  destruct (decide (len payload <= 56)) as [Hs|Hb].
  - destruct (build_chunked_frames_small crc16 crc16_u16 cmd payload)
      as (r & Hr & Hrs); [lia | lia |].
    destruct (build_frame_declared cmd payload)
      as (r' & c & s0 & s1 & k0 & k1 & Hr' & Hd & Ec & Es & Ek); [lia | lia |].
    rewrite Hr in Hr'. injection Hr' as <-.
    exists [r]. split; [exact Hrs|]. split.
    { change (len [r]) with 1.
      apply (Z.div_unique _ _ 1 (len payload + 6)); lia. }
    rewrite <- Ec.
    apply (parse_chunked_message crc16 [r] c s0 s1 k0 k1 payload []);
      try done.
    rewrite assemble_declared. cbn [map concat app]. rewrite Hd.
    by rewrite app_nil_r.
  - destruct (build_chunked_frames_large crc16 crc16_u16 cmd payload)
      as (rs & Hrs & _ & Hp); [lia | lia | lia |].
    exists rs. split; [exact Hrs|]. split; [|exact Hp].
    destruct (message_parts crc16 crc16_u16 cmd payload)
      as (c & s0 & s1 & k0 & k1 & Hc & Hs & Hk & _); [lia | lia |].
    assert (len (PREAMBLE ++ [s0; s1] ++ ([c] ++ payload) ++ [k0; k1])
            = 7 + len payload) as Hfull.
    { rewrite !len_app. unfold len, PREAMBLE. cbn [length]. lia. }
    unfold build_chunked_frames in Hrs. rewrite Hc in Hrs. cbn [bind] in Hrs.
    rewrite Hs in Hrs. cbn [bind] in Hrs. rewrite Hk in Hrs.
    cbn [bind] in Hrs.
    rewrite decide_False in Hrs
      by (rewrite Hfull; unfold HID_REPORT_SIZE; lia).
    destruct (chunk_loop_length
                (PREAMBLE ++ [s0; s1] ++ ([c] ++ payload) ++ [k0; k1])
                _ 0%nat [] eq_refl) as (rs' & Hrs' & Hl).
    rewrite Hrs in Hrs'. injection Hrs' as <-. rewrite Hl.
    rewrite Nat.sub_0_r.
    fold (len (PREAMBLE ++ [s0; s1] ++ ([c] ++ payload) ++ [k0; k1])).
    rewrite Hfull. reflexivity.
Qed.

(** X1.  For every command byte and every payload of at most 65534 bytes,
    [build_chunked_frames] returns reports from which
    [parse_chunked_frames] rebuilds the frame, also when the message fits
    one report and is built by [build_frame]. *)
Theorem chunked_frames_decode_any_size (cmd : Z) (payload : bytes) :
  0 <= cmd <= 255 -> len payload <= 65534 ->
  exists rs,
    build_chunked_frames crc16 cmd payload = Ok rs
    /\ parse_chunked_frames crc16 rs = Ok (Some (mkFrame cmd payload)).
Proof.
  intros Hcmd Hlen.
  destruct (build_chunked_frames_reports cmd payload Hcmd Hlen)
    as (rs & Hrs & _ & Hp).
  by exists rs.
Qed.

(** X2.  For every command byte and every payload of at most 65534 bytes,
    [build_chunked_frames] returns one report per started 63 bytes of the
    message of [7 + len(payload)] bytes. *)
Theorem chunked_frames_count (cmd : Z) (payload : bytes) :
  0 <= cmd <= 255 -> len payload <= 65534 ->
  exists rs,
    build_chunked_frames crc16 cmd payload = Ok rs
    /\ len rs = (7 + len payload + 62) / 63.
Proof.
  intros Hcmd Hlen.
  destruct (build_chunked_frames_reports cmd payload Hcmd Hlen)
    as (rs & Hrs & Hn & _).
  by exists rs.
Qed.

(** X3.  [parse_chunked_frames] raises on no list of reports, and its
    result depends only on the bytes that the reports declare: empty
    reports, and what follows the declared bytes of a report, are
    ignored. *)
Theorem parse_chunked_frames_declared (reports reports' : list bytes) :
  concat (map declared_chunk reports) = concat (map declared_chunk reports') ->
  parse_chunked_frames crc16 reports = parse_chunked_frames crc16 reports'
  /\ exists r, parse_chunked_frames crc16 reports = Ok r.
Proof.
  intros H. unfold parse_chunked_frames. rewrite !assemble_declared.
  cbn [app bind]. rewrite <- H. split; [reflexivity|].
  set (assembled := concat (map declared_chunk reports)).
  destruct (decide (len assembled < 7)) as [|Hl]; [by eexists|].
  destruct (decide (slice 0 2 assembled <> PREAMBLE)); [by eexists|].
  destruct (decide (from_bytes_little (slice 2 4 assembled) < 1));
    [by eexists|].
  rewrite getitem_lt by (unfold len in *; lia). cbn [bind].
  case_decide; by eexists.
Qed.

(** X4.  The payloads that [build_frame] takes, for a command byte.  Up
    to 248 bytes it returns a report of [max(64, 8 + len(payload))] bytes,
    which [parse_frame] reads back also when it is longer than 64 bytes;
    from 249 to 65534 bytes the frame length no longer fits the first byte
    and [bytes([hid_size])] raises [ValueError]; from 65535 bytes on the
    body length no longer fits the size field and [to_bytes(2, "little")]
    raises [OverflowError]. *)
Theorem build_frame_limits (cmd : Z) (payload : bytes) :
  0 <= cmd <= 255 ->
  (len payload <= 248 ->
   exists r, build_frame crc16 cmd payload = Ok r
             /\ len r = Z.max 64 (8 + len payload)
             /\ parse_frame crc16 r = Ok (Some (mkFrame cmd payload)))
  /\ (248 < len payload <= 65534 ->
      build_frame crc16 cmd payload = Raise ValueError)
  /\ (65534 < len payload ->
      build_frame crc16 cmd payload = Raise OverflowError).
Proof.
  intros Hcmd. pose proof (len_nonneg payload) as Hnn.
  split; [|split]; intros Hlen.
  - destruct (build_frame_Ok crc16 crc16_u16 cmd payload)
      as (h & c & s0 & s1 & k0 & k1 & Hb & Eh & Ec & Es & Ek); [lia | lia |].
    eexists. split; [exact Hb|]. split.
    + by apply (build_frame_len crc16 cmd payload).
    + rewrite <- Ec. apply parse_frame_message; [lia | done | done].
  - destruct (message_parts crc16 crc16_u16 cmd payload)
      as (c & s0 & s1 & k0 & k1 & Hc & Hs & Hk & _); [lia | lia |].
    unfold build_frame. rewrite Hc. cbn [bind]. rewrite Hs. cbn [bind].
    rewrite Hk. cbn [bind].
    assert (len (PREAMBLE ++ [s0; s1] ++ ([c] ++ payload) ++ [k0; k1])
            = 7 + len payload) as ->.
    { rewrite !len_app. unfold len, PREAMBLE. cbn [length]. lia. }
    cbn [bytes_of]. rewrite int_to_byte_None by lia. reflexivity.
  - destruct (int_to_byte_is_Some cmd) as (c & Hc & _); [lia|].
    unfold build_frame. cbn [bytes_of]. rewrite Hc. cbn [bind].
    rewrite to_bytes2_little_Raise; [reflexivity|].
    rewrite len_app. unfold len in *. cbn [length]. lia.
Qed.

(** ** Commands on the wire *)

(** A command with a short payload of byte-sized values is a report that
    parses back to that command and payload. *)
Lemma build_command_parses (c : Command) (xs : list Z) :
  Forall is_byte xs -> len xs <= 56 ->
  exists p r,
    bytes_of xs = Ok p /\ map byte_to_int p = xs
    /\ build_command crc16 c p = Ok r
    /\ parse_frame crc16 r = Ok (Some (mkFrame (Command_value c) p)).
Proof.
  intros Hxs Hlen. destruct (header_bytes_Ok xs Hxs) as (p & Hp & Hm).
  destruct (build_frame_parses crc16 crc16_u16 (Command_value c) p)
    as (r & Hr & _ & Hparse).
  - apply Command_value_byte.
  - unfold len in *. by rewrite <- (length_map byte_to_int p), Hm.
  - by exists p, r.
Qed.

(** X5.  The reports of the one-report builders parse back, through
    [parse_frame], to the command byte and the payload they were built
    from; [build_set_system_setting], which checks nothing itself, raises
    [ValueError] exactly when an argument does not fit a byte. *)
Theorem builders_parse_back :
  (forall slot, 0 <= slot <= 199 ->
     exists r b,
       byte_to_int b = slot
       /\ build_select_preset crc16 slot = Ok r
       /\ parse_frame crc16 r = Ok (Some (mkFrame 0xA6 [b])))
  /\ (forall slot, 0 <= slot <= 199 ->
        exists r b,
          byte_to_int b = slot
          /\ build_read_preset crc16 slot = Ok r
          /\ parse_frame crc16 r = Ok (Some (mkFrame 0x83 [b])))
  /\ (forall volume, 0 <= volume <= 100 ->
        exists r b,
          byte_to_int b = volume
          /\ build_set_volume crc16 volume = Ok r
          /\ parse_frame crc16 r = Ok (Some (mkFrame 0xA2 [b])))
  /\ (forall setting_index value,
        0 <= setting_index <= 255 -> 0 <= value <= 255 ->
        exists r bi bv,
          byte_to_int bi = setting_index /\ byte_to_int bv = value
          /\ build_set_system_setting crc16 setting_index value = Ok r
          /\ parse_frame crc16 r = Ok (Some (mkFrame 0xA1 [bi; bv])))
  /\ (forall setting_index value,
        ~ (0 <= setting_index <= 255 /\ 0 <= value <= 255) ->
        build_set_system_setting crc16 setting_index value
        = Raise ValueError)
  /\ (exists r, build_identify crc16 = Ok r
                /\ parse_frame crc16 r = Ok (Some (mkFrame 0x10 [])))
  /\ (exists r, build_get_volume crc16 = Ok r
                /\ parse_frame crc16 r = Ok (Some (mkFrame 0xA2 [])))
  /\ (exists r, build_get_system_settings crc16 = Ok r
                /\ parse_frame crc16 r = Ok (Some (mkFrame 0xA1 []))).
Proof.
  repeat split.
  - intros slot Hs.
    destruct (build_command_parses ACTIVE_PATCH [slot])
      as (p & r & Hp & Hm & Hr & Hparse); [all_bytes | by cbn |].
    destruct p as [|b [|]]; try discriminate Hm. injection Hm as Hm.
    exists r, b. unfold build_select_preset. case_decide; [lia|].
    by rewrite Hp.
  - intros slot Hs.
    destruct (build_command_parses PRESET [slot])
      as (p & r & Hp & Hm & Hr & Hparse); [all_bytes | by cbn |].
    destruct p as [|b [|]]; try discriminate Hm. injection Hm as Hm.
    exists r, b. unfold build_read_preset. case_decide; [lia|].
    by rewrite Hp.
  - intros volume Hv.
    destruct (build_command_parses VOLUME [volume])
      as (p & r & Hp & Hm & Hr & Hparse); [all_bytes | by cbn |].
    destruct p as [|b [|]]; try discriminate Hm. injection Hm as Hm.
    exists r, b. unfold build_set_volume. case_decide; [lia|].
    by rewrite Hp.
  - intros i v Hi Hv.
    destruct (build_command_parses SYSTEM [i; v])
      as (p & r & Hp & Hm & Hr & Hparse); [all_bytes | by cbn |].
    destruct p as [|bi [|bv [|]]]; try discriminate Hm.
    injection Hm as Hi' Hv'.
    exists r, bi, bv. unfold build_set_system_setting.
    by rewrite Hp.
  - intros i v Hiv. unfold build_set_system_setting.
    destruct (bytes_of [i; v]) as [p|e] eqn:E.
    + exfalso. apply Hiv. apply bytes_of_Ok in E.
      assert (Forall is_byte [i; v]) as Hb.
      { rewrite E. apply Forall_fmap, Forall_true. intros b.
        pose proof (byte_to_int_range b). unfold is_byte, compose. lia. }
      apply Forall_cons in Hb as [Hi Hb]. apply Forall_cons in Hb as [Hv _].
      done.
    + apply bytes_of_Raise in E. by rewrite E.
  - destruct (build_command_parses IDENTIFY [])
      as (p & r & Hp & Hm & Hr & Hparse); [constructor | by cbn |].
    destruct p; [|discriminate Hm]. by exists r.
  - destruct (build_command_parses VOLUME [])
      as (p & r & Hp & Hm & Hr & Hparse); [constructor | by cbn |].
    destruct p; [|discriminate Hm]. by exists r.
  - destruct (build_command_parses SYSTEM [])
      as (p & r & Hp & Hm & Hr & Hparse); [constructor | by cbn |].
    destruct p; [|discriminate Hm]. by exists r.
Qed.

(** X6.  For each of the nine module names, [build_effect_param] sends the
    module's command byte, which lies in [0x90, 0x99], with the payload
    [param_index, value]; [build_toggle_effect] sends parameter 1 with value
    1 or 0. *)
Theorem effect_param_frames (module : string) (param_index value : Z)
    (enabled : bool) :
  module ∈ MODULE_NAMES -> 0 <= param_index <= 255 -> 0 <= value <= 255 ->
  exists cmd r bi bv t,
    MODULE_COMMAND_MAP !! module = Some cmd
    /\ 0x90 <= Command_value cmd <= 0x99
    /\ byte_to_int bi = param_index /\ byte_to_int bv = value
    /\ build_effect_param crc16 module param_index value = Ok r
    /\ parse_frame crc16 r
       = Ok (Some (mkFrame (Command_value cmd) [bi; bv]))
    /\ build_toggle_effect crc16 module enabled = Ok t
    /\ parse_frame crc16 t
       = Ok (Some (mkFrame (Command_value cmd)
                     [x01; if enabled then x01 else x00])).
Proof.
  intros Hin Hi Hv.
  assert (exists cmd, MODULE_COMMAND_MAP !! module = Some cmd
                      /\ 0x90 <= Command_value cmd <= 0x99)
    as (cmd & Hcmd & Hrange).
  { unfold MODULE_NAMES in Hin.
    repeat (apply elem_of_cons in Hin as [->|Hin];
            [eexists; split; [reflexivity | cbn; lia]|]).
    by apply elem_of_nil in Hin. }
  assert (forall i v, is_byte i -> is_byte v ->
            exists r bi bv,
              byte_to_int bi = i /\ byte_to_int bv = v
              /\ (0 <= v <= 255 ->
                  build_effect_param crc16 module i v = Ok r)
              /\ parse_frame crc16 r
                 = Ok (Some (mkFrame (Command_value cmd) [bi; bv])))
    as Hparam.
  { intros i v Hbi Hbv.
    destruct (build_command_parses cmd [i; v])
      as (p & r & Hp & Hm & Hr & Hparse);
      [by constructor; [|constructor] | by cbn |].
    destruct p as [|bi [|bv [|]]]; try discriminate Hm.
    injection Hm as Hi' Hv'. exists r, bi, bv. repeat split; try done.
    intros Hv0. unfold build_effect_param, dict_getitem.
    case_decide as Hn; [by rewrite Hcmd in Hn|].
    case_decide; [lia|]. rewrite Hcmd. cbn [bind]. by rewrite Hp. }
  destruct (Hparam param_index value) as (r & bi & bv & Ei & Ev & Hr & Hpr);
    [done | done |].
  destruct (Hparam 1 (if enabled then 1 else 0))
    as (t & b1 & be & E1 & Ee & Ht & Hpt);
    [unfold is_byte; lia | destruct enabled; unfold is_byte; lia |].
  exists cmd, r, bi, bv, t. repeat split; try done; try lia.
  - by apply Hr.
  - apply Ht. destruct enabled; lia.
  - rewrite Hpt. do 4 f_equal.
    + apply byte_to_int_inj. by rewrite E1.
    + f_equal. apply byte_to_int_inj. rewrite Ee. by destruct enabled.
Qed.

(** X7.  For a slot in [0, 199] and 512 bytes of preset data,
    [build_store_preset] returns exactly nine reports, which reassemble to
    the frame of command [0xA8] whose payload is the slot byte followed by
    the data. *)
Theorem store_preset_reports (slot : Z) (preset_data : bytes) :
  0 <= slot <= 199 -> len preset_data = 512 ->
  exists rs s,
    byte_to_int s = slot
    /\ build_store_preset crc16 slot preset_data = Ok rs
    /\ len rs = 9
    /\ parse_chunked_frames crc16 rs
       = Ok (Some (mkFrame 0xA8 (s :: preset_data))).
Proof.
  intros Hslot Hdata.
  destruct (int_to_byte_is_Some slot) as (s & Hs & Es); [lia|].
  destruct (build_chunked_frames_reports (Command_value STORE_PATCH)
              (s :: preset_data)) as (rs & Hrs & Hn & Hp).
  { apply Command_value_byte. }
  { rewrite len_cons. lia. }
  exists rs, s. split; [exact Es|]. split; [|split; [|exact Hp]].
  - unfold build_store_preset.
    case_decide; [lia|]. case_decide as Hd; [by rewrite Hdata in Hd|].
    cbn [bytes_of]. rewrite Hs. cbn [bind]. exact Hrs.
  - rewrite Hn, len_cons, Hdata. reflexivity.
Qed.

(** ** Reports that are not frames *)

(** X25.  [parse_frame] never raises.  Whenever it returns [None] the report
    is rejected as the specification words it.  On a report that holds the
    body it declares and the two checksum bytes after it
    ([5 + body_size + 2 <= len data]) it returns [None] exactly when the
    report is rejected, and otherwise the frame of byte 5 and
    [data[6 : 5+body_size]]. *)
Theorem parse_frame_complete_reports (data : bytes) :
  (exists r, parse_frame crc16 data = Ok r)
  /\ (parse_frame crc16 data = Ok None -> frame_rejected crc16 data)
  /\ (5 + from_bytes_little (slice 3 5 data) + 2 <= len data ->
      parse_frame crc16 data
      = Ok (if decide (frame_rejected crc16 data) then None
            else Some (mkFrame (byte_at data 5)
                         (slice 6 (Z.to_nat
                                     (5 + from_bytes_little (slice 3 5 data)))
                            data)))).
Proof.
  unfold parse_frame, frame_rejected. cbn zeta.
  set (body_size := from_bytes_little (slice 3 5 data)).
  pose proof (from_bytes_little_range (slice 3 5 data)) as [Hbs _].
  fold body_size in Hbs.
  destruct (decide (len data < 8)) as [Hlen|Hlen].
  { split; [by eexists|]. split; [by left|].
    intros _. rewrite decide_True; [done | by left]. }
  rewrite !getitem_lt by (unfold len in Hlen; lia). cbn [bind].
  destruct (decide (byte_at data 0 < 7)) as [Hh|Hh].
  { split; [by eexists|]. split; [right; by left|].
    intros _. rewrite decide_True; [done | right; by left]. }
  destruct (decide (slice 1 3 data <> PREAMBLE)) as [Hp|Hp].
  { split; [by eexists|]. split; [right; right; by left|].
    intros _. rewrite decide_True; [done | right; right; by left]. }
  destruct (decide (body_size < 1)) as [Hs|Hs].
  { split; [by eexists|]. split; [right; right; right; by left|].
    intros _. rewrite decide_True; [done | right; right; right; by left]. }
  cbn [bind].
  match goal with |- context [decide (crc16 ?b <> ?e)] =>
    destruct (decide (crc16 b <> e)) as [Hc|Hc] end.
  { split; [by eexists|]. split.
    - intros _. right; right; right; right. intros [_ E]. by apply Hc.
    - intros _. rewrite decide_True; [done|].
      right; right; right; right. intros [_ E]. by apply Hc. }
  split; [by eexists|]. split; [discriminate|].
  intros Hfit. rewrite decide_False; [done|].
  intros [?|[?|[?|[?|Hn]]]]; try done.
  apply Hn. split; [|by apply dec_stable].
  unfold len in *. rewrite slice_length. lia.
Qed.

(** C6, as the code has it.  Take a report made of a length byte of at
    least 7, the preamble, a size field and at least three more bytes, the
    size field declaring at least as many body bytes as follow it, so that
    the report holds no checksum byte.  As the specification words it the
    report is rejected.  When the checksum of the bytes at hand is 0,
    [parse_frame] returns a frame all the same, with the bytes at hand for
    a payload: the slice of the two absent checksum bytes is empty and its
    little-endian value is 0. *)
Theorem parse_frame_accepts_truncated (h s0 s1 c : byte) (rest : bytes) :
  7 <= byte_to_int h ->
  2 <= len rest ->
  len (c :: rest) <= from_bytes_little [s0; s1] ->
  crc16 (c :: rest) = 0 ->
  frame_rejected crc16 (h :: xaa :: x55 :: s0 :: s1 :: c :: rest)
  /\ parse_frame crc16 (h :: xaa :: x55 :: s0 :: s1 :: c :: rest)
     = Ok (Some (mkFrame (byte_to_int c) rest)).
Proof.
  intros Hh Hrest Hsize Hcrc.
  set (data := h :: xaa :: x55 :: s0 :: s1 :: c :: rest).
  assert (slice 3 5 data = [s0; s1]) as Hs by reflexivity.
  assert (length data = (6 + length rest)%nat) as Hl by reflexivity.
  rewrite len_cons in Hsize.
  assert (forall n : nat, (length data <= n)%nat ->
            slice 5 n data = c :: rest /\ slice 6 n data = rest) as Hclip.
  { intros n Hn. unfold slice, data. cbn [skipn].
    split; apply take_ge; cbn [length] in *; lia. }
  destruct (Hclip (Z.to_nat (5 + from_bytes_little [s0; s1])))
    as [Hbody Hpayload]; [unfold len in *; lia|].
  assert (forall m, slice (Z.to_nat (5 + from_bytes_little [s0; s1])) m data
                    = []) as Htrail.
  { intros m. unfold slice. rewrite drop_ge by (unfold len in *; lia).
    apply take_nil. }
  split.
  - right; right; right; right. cbn zeta. rewrite Hs, Htrail.
    intros [E _]. discriminate E.
  - unfold parse_frame.
    rewrite decide_False by (unfold len in *; lia).
    change (getitem data 0) with (Ok (A:=Z) (byte_to_int h)). cbn [bind].
    rewrite decide_False by lia.
    rewrite decide_False by (intros H; by apply H).
    rewrite Hs. rewrite decide_False by (pose proof (len_nonneg rest); lia).
    change (getitem data 5) with (Ok (A:=Z) (byte_to_int c)). cbn [bind].
    rewrite Hbody, Hpayload, Htrail, Hcrc.
    rewrite decide_False by (intros H; by apply H). reflexivity.
Qed.

(** ** The length of the reports *)

(** C4, as the code has it.  For every command byte and every payload of 57
    to 248 bytes, [build_frame] returns a report of [8 + len payload]
    bytes, which is more than 64: the frame alone fills the report, the
    padding [b'\x00' * (64 - 1 - len(frame))] is empty, and nothing checks
    the length. *)
Theorem build_frame_over_64_bytes (cmd : Z) (payload : bytes) :
  0 <= cmd <= 255 -> 56 < len payload <= 248 ->
  exists r, build_frame crc16 cmd payload = Ok r
            /\ len r = 8 + len payload
            /\ 64 < len r.
Proof.
  intros Hcmd Hlen.
  destruct (build_frame_Ok crc16 crc16_u16 cmd payload)
    as (h & c & s0 & s1 & k0 & k1 & Hb & _); [lia | lia |].
  eexists. split; [exact Hb|].
  apply build_frame_len in Hb as [Hl _]. lia.
Qed.

(** X24.  For every command byte and every payload of at most 65534 bytes,
    [build_chunked_frames] returns reports of exactly 64 bytes, each made of
    a length byte, a chunk of that length (1 to 63 bytes) and zeros up to 64
    bytes; the chunks, one after the other, are the message: the preamble,
    the little-endian length of the body, the command byte, the payload and
    the little-endian checksum of the body. *)
Theorem chunked_reports_layout (cmd : Z) (payload : bytes) :
  0 <= cmd <= 255 -> len payload <= 65534 ->
  exists rs chunks c s0 s1 k0 k1,
    build_chunked_frames crc16 cmd payload = Ok rs
    /\ Forall2 chunk_report chunks rs
    /\ Forall (fun chunk => 0 < len chunk <= 63) chunks
    /\ Forall (fun r => len r = 64) rs
    /\ concat chunks = xaa :: x55 :: s0 :: s1 :: c :: payload ++ [k0; k1]
    /\ byte_to_int c = cmd
    /\ from_bytes_little [s0; s1] = 1 + len payload
    /\ from_bytes_little [k0; k1] = crc16 (c :: payload).
Proof.
  intros Hcmd Hlen. pose proof (len_nonneg payload) as Hnn.
  destruct (decide (len payload <= 56)) as [Hs|Hb].
  - destruct (build_chunked_frames_small crc16 crc16_u16 cmd payload)
      as (r & Hr & Hrs); [lia | lia |].
    destruct (build_frame_Ok crc16 crc16_u16 cmd payload)
      as (h & c & s0 & s1 & k0 & k1 & Hr' & Eh & Ec & Es & Ek); [lia | lia |].
    rewrite Hr in Hr'. injection Hr' as ->.
    assert (len (xaa :: x55 :: s0 :: s1 :: c :: payload ++ [k0; k1])
            = 7 + len payload) as Hl.
    { rewrite !len_cons, len_app. unfold len. cbn [length]. lia. }
    exists [h :: xaa :: x55 :: s0 :: s1 :: c :: payload
              ++ k0 :: k1 :: zeros (56 - len payload)],
      [xaa :: x55 :: s0 :: s1 :: c :: payload ++ [k0; k1]],
      c, s0, s1, k0, k1.
    split; [exact Hrs|]. split; [|split; [|split; [|split]]].
    + constructor; [|constructor]. exists h. rewrite Hl. split; [exact Eh|].
      replace (63 - (7 + len payload)) with (56 - len payload) by lia.
      cbn [app]. by rewrite <- app_assoc.
    + constructor; [lia | constructor].
    + constructor; [|constructor].
      apply build_frame_len in Hr as [-> _]. lia.
    + cbn [concat]. by rewrite app_nil_r.
    + done.
  - destruct (message_parts crc16 crc16_u16 cmd payload)
      as (c & s0 & s1 & k0 & k1 & Hc & Hs & Hk & Ec & Es & Ek); [lia | lia |].
    assert (len (PREAMBLE ++ [s0; s1] ++ ([c] ++ payload) ++ [k0; k1])
            = 7 + len payload) as Hfull.
    { rewrite !len_app. unfold len, PREAMBLE. cbn [length]. lia. }
    unfold build_chunked_frames. rewrite Hc. cbn [bind]. rewrite Hs.
    cbn [bind]. rewrite Hk. cbn [bind].
    rewrite decide_False by (rewrite Hfull; unfold HID_REPORT_SIZE; lia).
    destruct (chunk_loop_Ok
                (PREAMBLE ++ [s0; s1] ++ ([c] ++ payload) ++ [k0; k1])
                _ 0%nat [] eq_refl)
      as (cs & rs & Hloop & Hrep & Hcs & Hcat & _).
    rewrite Hloop. cbn [app].
    exists rs, cs, c, s0, s1, k0, k1.
    split; [done|]. split; [exact Hrep|]. split; [exact Hcs|].
    split; [|split; [by rewrite Hcat, drop_0 | done]].
    clear Hloop Hcat. induction Hrep as [|ch r cs rs Hcr _ IH]; [constructor|].
    inversion Hcs; subst. constructor; [|by apply IH].
    apply (chunk_report_length ch); [done | lia].
Qed.

(** ** What the builders return *)

(** C8, amended.  The builders validate before they encode.  A slot outside
    [0, 199] makes [build_select_preset], [build_read_preset] and
    [build_store_preset] raise [ValueError]; a volume outside [0, 100] makes
    [build_set_volume] raise it; preset data of a length other than 512
    makes [build_store_preset] raise it; a module name outside the nine
    known names, or a value outside [0, 255], makes [build_effect_param]
    raise it, and so does, for a known name, a parameter index outside
    [0, 255].  For inputs in range (for [build_effect_param]: one of the
    nine names, an index and a value in [0, 255]) each builder returns the
    encoded report: the 64-byte report that [build_frame] makes of the
    command byte and the argument bytes, which [parse_frame] reads back to
    that command and those bytes; [build_store_preset] returns the nine
    64-byte reports that [build_chunked_frames] makes of command [0xA8] and
    the slot byte followed by the data, which [parse_chunked_frames] reads
    back. *)
Theorem builders_validate :
  (forall slot, ~ (0 <= slot <= 199) ->
     build_select_preset crc16 slot = Raise ValueError
     /\ build_read_preset crc16 slot = Raise ValueError
     /\ forall data, build_store_preset crc16 slot data = Raise ValueError)
  /\ (forall volume, ~ (0 <= volume <= 100) ->
        build_set_volume crc16 volume = Raise ValueError)
  /\ (forall slot data, len data <> 512 ->
        build_store_preset crc16 slot data = Raise ValueError)
  /\ (forall module param_index value, module ∉ MODULE_NAMES ->
        build_effect_param crc16 module param_index value = Raise ValueError)
  /\ (forall module param_index value, ~ (0 <= value <= 255) ->
        build_effect_param crc16 module param_index value = Raise ValueError)
  /\ (forall module param_index value,
        module ∈ MODULE_NAMES -> ~ (0 <= param_index <= 255) ->
        build_effect_param crc16 module param_index value = Raise ValueError)
  /\ (forall slot, 0 <= slot <= 199 ->
        (exists r b,
           byte_to_int b = slot
           /\ build_select_preset crc16 slot = Ok r
           /\ build_frame crc16 0xA6 [b] = Ok r
           /\ len r = 64
           /\ parse_frame crc16 r = Ok (Some (mkFrame 0xA6 [b])))
        /\ (exists r b,
              byte_to_int b = slot
              /\ build_read_preset crc16 slot = Ok r
              /\ build_frame crc16 0x83 [b] = Ok r
              /\ len r = 64
              /\ parse_frame crc16 r = Ok (Some (mkFrame 0x83 [b])))
        /\ forall data, len data = 512 ->
             exists rs s,
               byte_to_int s = slot
               /\ build_store_preset crc16 slot data = Ok rs
               /\ build_chunked_frames crc16 0xA8 (s :: data) = Ok rs
               /\ len rs = 9
               /\ Forall (fun r => len r = 64) rs
               /\ parse_chunked_frames crc16 rs
                  = Ok (Some (mkFrame 0xA8 (s :: data))))
  /\ (forall volume, 0 <= volume <= 100 ->
        exists r b,
          byte_to_int b = volume
          /\ build_set_volume crc16 volume = Ok r
          /\ build_frame crc16 0xA2 [b] = Ok r
          /\ len r = 64
          /\ parse_frame crc16 r = Ok (Some (mkFrame 0xA2 [b])))
  /\ (forall module param_index value,
        module ∈ MODULE_NAMES -> 0 <= param_index <= 255 ->
        0 <= value <= 255 ->
        exists cmd r bi bv,
          MODULE_COMMAND_MAP !! module = Some cmd
          /\ byte_to_int bi = param_index /\ byte_to_int bv = value
          /\ build_effect_param crc16 module param_index value = Ok r
          /\ build_frame crc16 (Command_value cmd) [bi; bv] = Ok r
          /\ len r = 64
          /\ parse_frame crc16 r
             = Ok (Some (mkFrame (Command_value cmd) [bi; bv]))).
Proof.
  assert (forall (c : Command) (xs : list Z),
            Forall is_byte xs -> len xs <= 56 ->
            exists p r,
              bytes_of xs = Ok p /\ map byte_to_int p = xs
              /\ build_frame crc16 (Command_value c) p = Ok r
              /\ len r = 64
              /\ parse_frame crc16 r
                 = Ok (Some (mkFrame (Command_value c) p))) as Hone.
  { intros c xs Hxs Hlen. destruct (header_bytes_Ok xs Hxs) as (p & Hp & Hm).
    destruct (build_frame_parses crc16 crc16_u16 (Command_value c) p)
      as (r & Hr & Hl & Hparse).
    - apply Command_value_byte.
    - unfold len in *. by rewrite <- (length_map byte_to_int p), Hm.
    - by exists p, r. }
  repeat apply conj.
  - intros slot Hs. repeat split.
    + unfold build_select_preset. case_decide; [done | tauto].
    + unfold build_read_preset. case_decide; [done | tauto].
    + intros. unfold build_store_preset. case_decide; [done | tauto].
  - intros. unfold build_set_volume. case_decide; [done | tauto].
  - intros. unfold build_store_preset. repeat case_decide; done || tauto.
  - intros. unfold build_effect_param. case_decide as Hm; [done|].
    exfalso. by apply Hm, module_unknown.
  - intros. unfold build_effect_param. repeat case_decide; done || tauto.
  - intros module i v Hin Hi. unfold build_effect_param, dict_getitem.
    case_decide; [done|]. case_decide; [done|].
    destruct (module_known module Hin) as [cmd ->]. cbn [bind bytes_of].
    rewrite int_to_byte_None by lia. reflexivity.
  - intros slot Hslot. repeat apply conj.
    + destruct (Hone ACTIVE_PATCH [slot])
        as (p & r & Hp & Hm & Hr & Hl & Hparse); [all_bytes | by cbn |].
      destruct p as [|b [|]]; try discriminate Hm. injection Hm as Hm.
      exists r, b. unfold build_select_preset, build_command.
      case_decide; [lia|]. by rewrite Hp.
    + destruct (Hone PRESET [slot])
        as (p & r & Hp & Hm & Hr & Hl & Hparse); [all_bytes | by cbn |].
      destruct p as [|b [|]]; try discriminate Hm. injection Hm as Hm.
      exists r, b. unfold build_read_preset, build_command.
      case_decide; [lia|]. by rewrite Hp.
    + intros data Hdata.
      destruct (int_to_byte_is_Some slot) as (s & Hs & Es); [lia|].
      destruct (build_chunked_frames_reports
                  (Command_value STORE_PATCH) (s :: data))
        as (rs & Hrs & Hn & Hp).
      { apply Command_value_byte. }
      { rewrite len_cons. lia. }
      exists rs, s. split; [exact Es|]. split; [|split; [exact Hrs|]].
      * unfold build_store_preset.
        case_decide; [lia|]. case_decide as Hd; [by rewrite Hdata in Hd|].
        cbn [bytes_of]. rewrite Hs. cbn [bind]. exact Hrs.
      * split; [rewrite Hn, len_cons, Hdata; reflexivity|].
        split; [|exact Hp].
        by apply (build_chunked_frames_len crc16 _ _ _ Hrs).
  - intros volume Hv.
    destruct (Hone VOLUME [volume])
      as (p & r & Hp & Hm & Hr & Hl & Hparse); [all_bytes | by cbn |].
    destruct p as [|b [|]]; try discriminate Hm. injection Hm as Hm.
    exists r, b. unfold build_set_volume, build_command.
    case_decide; [lia|]. by rewrite Hp.
  - intros module i v Hin Hi Hv.
    destruct (module_known module Hin) as [cmd Hcmd].
    destruct (Hone cmd [i; v])
      as (p & r & Hp & Hm & Hr & Hl & Hparse); [all_bytes | by cbn |].
    destruct p as [|bi [|bv [|]]]; try discriminate Hm.
    injection Hm as Hi' Hv'.
    exists cmd, r, bi, bv. unfold build_effect_param, dict_getitem,
      build_command.
    case_decide as Hn; [by rewrite Hcmd in Hn|].
    case_decide; [lia|]. rewrite Hcmd. cbn [bind]. by rewrite Hp.
Qed.

End CodecMore.

(** ** The command enumeration and the responses *)

Lemma Command_of_value_value (c : Command) :
  Command_of_value (Command_value c) = Ok c.
Proof. by destruct c. Qed.

(** X8.  [Command(v)] returns the member [c] exactly when [c.value == v]:
    the 26 values are distinct, converting a member's value gives the
    member back, and a value of no member raises. *)
Theorem Command_of_value_spec (v : Z) :
  (forall c, Command_of_value v = Ok c <-> Command_value c = v)
  /\ ((forall c, Command_value c <> v)
      <-> Command_of_value v = Raise ValueError).
Proof.
  assert (forall c, Command_of_value v = Ok c -> Command_value c = v) as Hok.
  { intros c. unfold Command_of_value.
    destruct (list_find _ _) as [[i c']|] eqn:E; [|discriminate].
    apply list_find_Some in E as (_ & Hc & _). congruence. }
  split; [|split].
  - intros c. split; [apply Hok|].
    intros <-. apply Command_of_value_value.
  - intros Hno. destruct (Command_of_value v) as [c|e] eqn:E.
    + exfalso. apply (Hno c). by apply Hok.
    + unfold Command_of_value in E.
      destruct (list_find _ _) as [[i c']|]; [discriminate | done].
  - intros Hr c <-. rewrite Command_of_value_value in Hr. discriminate.
Qed.

(** X9.  What [parse_response] makes of a frame whose command byte is a
    member of [Command]: an identify or system frame is always typed; a
    preset, active-patch or volume frame is typed when its payload is not
    empty, its first byte being the slot or the volume, and is returned as
    it is when the payload is empty; a frame of any other member is
    returned as it is. *)
Theorem parse_response_dispatch :
  (forall payload, exists firmware device_name,
     parse_response (mkFrame 0x10 payload)
     = Ok (Typed (IdentifyResponse firmware device_name payload)))
  /\ (forall payload,
        parse_response (mkFrame 0xA1 payload)
        = Ok (Typed (SystemResponse payload)))
  /\ (forall b rest,
        parse_response (mkFrame 0x83 (b :: rest))
        = Ok (Typed (PresetResponse (byte_to_int b) rest))
        /\ parse_response (mkFrame 0xA6 (b :: rest))
           = Ok (Typed (ActivePatchResponse (byte_to_int b)))
        /\ parse_response (mkFrame 0xA2 (b :: rest))
           = Ok (Typed (VolumeResponse (byte_to_int b))))
  /\ (forall c, c ∈ [PRESET; ACTIVE_PATCH; VOLUME] ->
        parse_response (mkFrame (Command_value c) [])
        = Ok (Untyped (mkFrame (Command_value c) [])))
  /\ (forall c payload,
        c ∉ [IDENTIFY; PRESET; ACTIVE_PATCH; VOLUME; SYSTEM] ->
        parse_response (mkFrame (Command_value c) payload)
        = Ok (Untyped (mkFrame (Command_value c) payload))).
Proof.
  split; [|split; [|split; [|split]]].
  - intros pl. unfold parse_response.
    change (command (mkFrame 0x10 pl)) with (Command_value IDENTIFY).
    rewrite Command_of_value_value. cbn [bind parsers_get].
    unfold parse_identify. rewrite decide_False by (intros H; by apply H).
    cbn [payload]. case_decide; cbn [bind]; by eexists _, _.
  - intros pl. unfold parse_response.
    change (command (mkFrame 0xA1 pl)) with (Command_value SYSTEM).
    rewrite Command_of_value_value. reflexivity.
  - intros b rest. repeat split.
    + unfold parse_response.
      change (command (mkFrame 0x83 (b :: rest))) with (Command_value PRESET).
      rewrite Command_of_value_value. cbn [bind parsers_get].
      unfold parse_preset_response.
      rewrite decide_False by (intros H; by apply H). cbn [payload].
      rewrite decide_False
        by (rewrite len_cons; pose proof (len_nonneg rest); lia).
      rewrite getitem_0. reflexivity.
    + unfold parse_response.
      change (command (mkFrame 0xA6 (b :: rest)))
        with (Command_value ACTIVE_PATCH).
      rewrite Command_of_value_value. cbn [bind parsers_get].
      unfold parse_active_patch.
      rewrite decide_False by (intros H; by apply H). cbn [payload].
      rewrite decide_False
        by (rewrite len_cons; pose proof (len_nonneg rest); lia).
      rewrite getitem_0. reflexivity.
    + unfold parse_response.
      change (command (mkFrame 0xA2 (b :: rest))) with (Command_value VOLUME).
      rewrite Command_of_value_value. cbn [bind parsers_get].
      unfold parse_volume.
      rewrite decide_False by (intros H; by apply H). cbn [payload].
      rewrite decide_False
        by (rewrite len_cons; pose proof (len_nonneg rest); lia).
      rewrite getitem_0. reflexivity.
  - intros c Hc.
    repeat (apply elem_of_cons in Hc as [->|Hc]; [reflexivity|]).
    by apply elem_of_nil in Hc.
  - intros c pl Hc. unfold parse_response. cbn [command].
    rewrite Command_of_value_value. cbn [bind].
    destruct c; try reflexivity; exfalso; apply Hc; by repeat constructor.
Qed.

Lemma before_null_length (bs : bytes) :
  (length (before_null bs) <= length bs)%nat.
Proof.
  induction bs as [|b bs IH]; cbn [before_null length]; [lia|].
  case_decide; cbn [length]; lia.
Qed.

Lemma before_null_no_null (bs : bytes) :
  Forall (fun b => b <> x00) (before_null bs).
Proof.
  induction bs as [|b bs IH]; cbn [before_null]; [constructor|].
  case_decide; by constructor.
Qed.

Lemma decode_ascii_no_null (bs : bytes) :
  Forall (fun b => b <> x00) bs ->
  Forall (fun ch => ch <> 0%N) (decode_ascii_replace bs).
Proof.
  unfold decode_ascii_replace. intros H. apply Forall_fmap.
  eapply Forall_impl; [exact H|]. intros b Hb. unfold compose.
  case_decide; [|done]. intros Hz. apply Hb.
  pose proof (Byte.of_to_N b) as Ho. rewrite Hz in Ho.
  cbn in Ho. by injection Ho.
Qed.

Lemma decode_ascii_chars (bs : bytes) :
  Forall (fun b => b <> x00) bs ->
  Forall (fun ch => (0 < ch < 128)%N \/ ch = 0xFFFD%N)
    (decode_ascii_replace bs).
Proof.
  unfold decode_ascii_replace. intros H. apply Forall_fmap.
  eapply Forall_impl; [exact H|]. intros b Hb. unfold compose.
  case_decide as Hlt; [left | by right].
  split; [|exact Hlt].
  destruct (Byte.to_N b) eqn:E; [|lia].
  exfalso. apply Hb.
  pose proof (Byte.of_to_N b) as Ho. rewrite E in Ho.
  cbn in Ho. by injection Ho.
Qed.

Lemma str_of_int_nonempty (n : Z) : str_of_int n <> [].
Proof.
  unfold str_of_int, str_lit.
  destruct (Z.to_int n) as [d|d]; [destruct d|]; discriminate.
Qed.

Lemma join_nonempty (sep : str) (parts : list str) :
  parts <> [] -> Forall (fun p : str => p <> []) parts ->
  join sep parts <> [].
Proof.
  intros Hne Hall. destruct Hall as [|p ps Hp Hps]; [done|].
  cbn [join]. destruct ps; [done|]. by destruct p.
Qed.

(** X10.  [parse_identify] answers [None] for a frame of another command,
    and otherwise a response whose [raw] is the payload; the device name
    has at most 11 characters and no null, the firmware string is never
    empty, and both are ["unknown"] when the payload has fewer than 16
    bytes. *)
Theorem parse_identify_fields (frame : Frame) :
  (command frame <> 0x10 -> parse_identify frame = Ok None)
  /\ (command frame = 0x10 ->
      exists firmware device_name,
        parse_identify frame
        = Ok (Some (IdentifyResponse firmware device_name (payload frame)))
        /\ (length device_name <= 11)%nat
        /\ Forall (fun ch => ch <> 0%N) device_name
        /\ firmware <> []
        /\ (len (payload frame) < 16 ->
            firmware = str_lit "unknown"
            /\ device_name = str_lit "unknown")).
Proof.
  unfold parse_identify. split; intros Hc.
  - by rewrite decide_True.
  - rewrite decide_False by (intros H; by apply H).
    cbn zeta. case_decide as Hlen.
    + eexists _, _. split; [reflexivity|].
      split; [vm_compute; lia|].
      split; [by repeat constructor|]. split; [discriminate | done].
    + eexists _, _. split; [reflexivity|].
      split; [|split; [|split; [|lia]]].
      * unfold decode_ascii_replace. rewrite length_map.
        etrans; [apply before_null_length|]. rewrite slice_length. lia.
      * apply decode_ascii_no_null, before_null_no_null.
      * destruct (map _ (filter _ _)) as [|p ps] eqn:E; [discriminate|].
        apply join_nonempty; [discriminate|]. rewrite <- E.
        apply Forall_fmap, Forall_true. intros b. apply str_of_int_nonempty.
Qed.

(** ** Decoding any bytes *)

Lemma pad_to_length (size : Z) (data : bytes) :
  (Z.to_nat size <= length (pad_to size data))%nat.
Proof.
  unfold pad_to. case_decide as H.
  - rewrite length_app. unfold zeros, len in *. rewrite length_replicate. lia.
  - unfold len in H. lia.
Qed.

Lemma is_byte_byte (b : byte) : is_byte (byte_to_int b).
Proof. pose proof (byte_to_int_range b). unfold is_byte. lia. Qed.

(** The two bytes of a delay time: reading them back, after combining
    them, gives the same two bytes. *)
Lemma time_ms_join (x y : Z) :
  0 <= x < 256 -> 0 <= y < 256 ->
  Z.land (Z.lor x (Z.shiftl y 8)) 0xFF = x
  /\ Z.land (Z.shiftr (Z.lor x (Z.shiftl y 8)) 8) 0xFF = y
  /\ 0 <= Z.lor x (Z.shiftl y 8) <= 65535.
Proof.
  intros Hx Hy.
  assert (Z.lor x (Z.shiftl y 8) = x + 256 * y) as ->.
  { rewrite <- Z.lxor_lor, <- Z.add_nocarry_lxor, Z.shiftl_mul_pow2 by
      first [ lia
            | apply Z.bits_inj'; intros n Hn; rewrite Z.land_spec, Z.bits_0;
              destruct (decide (n < 8));
              [ rewrite Z.shiftl_spec_low by lia; apply andb_false_r
              | rewrite <- (Z.mod_small x (2 ^ 8)) by lia;
                rewrite Z.mod_pow2_bits_high by lia; reflexivity ] ].
    lia. }
  change 0xFF with (Z.ones 8).
  rewrite !Z.land_ones, Z.shiftr_div_pow2 by lia.
  change (2 ^ 8) with 256.
  assert ((x + 256 * y) / 256 = y) as ->
    by (symmetry; apply (Z.div_unique _ _ _ x); lia).
  split; [|split; [|lia]].
  - symmetry. apply (Z.mod_unique _ _ y); lia.
  - apply Z.mod_small. lia.
Qed.

(** Decodes an arbitrary buffer: after padding it has at least [n] bytes,
    which are named one by one. *)
Tactic Notation "name_bytes" integer(n) constr(size) constr(data) :=
  let Hl := fresh "Hl" in
  let d := fresh "d" in
  pose proof (pad_to_length size data) as Hl;
  let k := eval vm_compute in (Z.to_nat size) in
  change (Z.to_nat size) with k in *;
  generalize dependent (pad_to size data); intros d Hl;
  do n (destruct d as [|? d]; [exfalso; cbn [length] in Hl; lia|]);
  clear Hl.

(** The rest of the proof for a module of one-byte fields. *)
Ltac decoded_module fields to_bytes :=
  rewrite ?getitem_S, ?getitem_0; cbn [bind];
  unfold slice; cbn [firstn skipn Nat.sub];
  eexists; split; [reflexivity|]; split;
  [ split; [|reflexivity];
    unfold fields; cbn -[byte_to_int];
    repeat (constructor; [apply is_byte_byte|]); constructor
  | unfold to_bytes; cbn -[byte_to_int bytes_of];
    cbn [bytes_of]; rewrite !int_to_byte_to_int; cbn [bind app];
    rewrite ?take_0; reflexivity ].

Lemma FX_decode (data : bytes) :
  exists m, FXModule.from_bytes data = Ok m
    /\ FX_valid m
    /\ FXModule.to_bytes m
       = Ok (take (Z.to_nat FXModule.SIZE) (pad_to FXModule.SIZE data)).
Proof.
  unfold FXModule.from_bytes. cbn zeta.
  name_bytes 13 FXModule.SIZE data.
  decoded_module FX_fields FXModule.to_bytes.
Qed.

Lemma Distortion_decode (data : bytes) :
  exists m, DistortionModule.from_bytes data = Ok m
    /\ Distortion_valid m
    /\ DistortionModule.to_bytes m
       = Ok (take (Z.to_nat DistortionModule.SIZE)
               (pad_to DistortionModule.SIZE data)).
Proof.
  unfold DistortionModule.from_bytes. cbn zeta.
  name_bytes 11 DistortionModule.SIZE data.
  decoded_module Distortion_fields DistortionModule.to_bytes.
Qed.

Lemma Amp_decode (data : bytes) :
  exists m, AmpModule.from_bytes data = Ok m
    /\ Amp_valid m
    /\ AmpModule.to_bytes m
       = Ok (take (Z.to_nat AmpModule.SIZE) (pad_to AmpModule.SIZE data)).
Proof.
  unfold AmpModule.from_bytes. cbn zeta.
  name_bytes 17 AmpModule.SIZE data.
  decoded_module Amp_fields AmpModule.to_bytes.
Qed.

Lemma Cab_decode (data : bytes) :
  exists m, CabModule.from_bytes data = Ok m
    /\ Cab_valid m
    /\ CabModule.to_bytes m
       = Ok (take (Z.to_nat CabModule.SIZE) (pad_to CabModule.SIZE data)).
Proof.
  unfold CabModule.from_bytes. cbn zeta.
  name_bytes 13 CabModule.SIZE data.
  decoded_module Cab_fields CabModule.to_bytes.
Qed.

Lemma NoiseGate_decode (data : bytes) :
  exists m, NoiseGateModule.from_bytes data = Ok m
    /\ NoiseGate_valid m
    /\ NoiseGateModule.to_bytes m
       = Ok (take (Z.to_nat NoiseGateModule.SIZE)
               (pad_to NoiseGateModule.SIZE data)).
Proof.
  unfold NoiseGateModule.from_bytes. cbn zeta.
  name_bytes 11 NoiseGateModule.SIZE data.
  decoded_module NoiseGate_fields NoiseGateModule.to_bytes.
Qed.

Lemma Modulation_decode (data : bytes) :
  exists m, ModulationModule.from_bytes data = Ok m
    /\ Modulation_valid m
    /\ ModulationModule.to_bytes m
       = Ok (take (Z.to_nat ModulationModule.SIZE)
               (pad_to ModulationModule.SIZE data)).
Proof.
  unfold ModulationModule.from_bytes. cbn zeta.
  name_bytes 15 ModulationModule.SIZE data.
  decoded_module Modulation_fields ModulationModule.to_bytes.
Qed.

Lemma Reverb_decode (data : bytes) :
  exists m, ReverbModule.from_bytes data = Ok m
    /\ Reverb_valid m
    /\ ReverbModule.to_bytes m
       = Ok (take (Z.to_nat ReverbModule.SIZE)
               (pad_to ReverbModule.SIZE data)).
Proof.
  unfold ReverbModule.from_bytes. cbn zeta.
  name_bytes 13 ReverbModule.SIZE data.
  decoded_module Reverb_fields ReverbModule.to_bytes.
Qed.

Lemma EQ_decode (data : bytes) :
  exists m, EQModule.from_bytes data = Ok m
    /\ EQ_valid m
    /\ EQModule.to_bytes m
       = Ok (take (Z.to_nat EQModule.SIZE) (pad_to EQModule.SIZE data)).
Proof.
  unfold EQModule.from_bytes. cbn zeta.
  name_bytes 23 EQModule.SIZE data.
  rewrite ?getitem_S, ?getitem_0. cbn [bind].
  unfold slice. cbn [firstn skipn Nat.sub map].
  eexists. split; [reflexivity|]. split.
  - unfold EQ_valid, EQ_fields. cbn -[byte_to_int].
    repeat split; repeat (constructor; [apply is_byte_byte|]); constructor.
  - unfold EQModule.to_bytes. cbn -[byte_to_int bytes_of].
    cbn [bytes_of]. rewrite !int_to_byte_to_int. cbn [bind app].
    rewrite ?take_0. reflexivity.
Qed.

Lemma Delay_decode (data : bytes) :
  exists m, DelayModule.from_bytes data = Ok m
    /\ Delay_valid m
    /\ DelayModule.to_bytes m
       = Ok (take (Z.to_nat DelayModule.SIZE) (pad_to DelayModule.SIZE data)).
Proof.
  unfold DelayModule.from_bytes. cbn zeta.
  name_bytes 17 DelayModule.SIZE data.
  rewrite ?getitem_S, ?getitem_0. cbn [bind].
  unfold slice. cbn [firstn skipn Nat.sub].
  match goal with
  | |- context [Z.lor (byte_to_int ?x) (Z.shiftl (byte_to_int ?y) 8)] =>
      destruct (time_ms_join (byte_to_int x) (byte_to_int y)
                  (byte_to_int_range x) (byte_to_int_range y))
        as (Hlo & Hhi & Ht)
  end.
  eexists. split; [reflexivity|]. split.
  - unfold Delay_valid, Delay_fields. cbn -[byte_to_int Z.lor Z.shiftl].
    split; [|split; [exact Ht | reflexivity]].
    repeat (constructor; [apply is_byte_byte|]); constructor.
  - unfold DelayModule.to_bytes.
    cbn -[byte_to_int bytes_of Z.lor Z.shiftl Z.land Z.shiftr].
    rewrite Hlo, Hhi.
    cbn [bytes_of]. rewrite !int_to_byte_to_int. cbn [bind app].
    rewrite ?take_0. reflexivity.
Qed.

(** X11.  Each of the nine module classes decodes any byte string, padded
    with zeros when it is shorter than the module: [from_bytes] raises
    nothing, the decoded module is valid, and serialising it gives the
    first [SIZE] bytes of the padded input back. *)
Theorem modules_decode_any_bytes (data : bytes) :
  (exists m, FXModule.from_bytes data = Ok m /\ FX_valid m
     /\ FXModule.to_bytes m
        = Ok (take (Z.to_nat FXModule.SIZE) (pad_to FXModule.SIZE data)))
  /\ (exists m, DistortionModule.from_bytes data = Ok m
        /\ Distortion_valid m
        /\ DistortionModule.to_bytes m
           = Ok (take (Z.to_nat DistortionModule.SIZE)
                   (pad_to DistortionModule.SIZE data)))
  /\ (exists m, AmpModule.from_bytes data = Ok m /\ Amp_valid m
        /\ AmpModule.to_bytes m
           = Ok (take (Z.to_nat AmpModule.SIZE)
                   (pad_to AmpModule.SIZE data)))
  /\ (exists m, CabModule.from_bytes data = Ok m /\ Cab_valid m
        /\ CabModule.to_bytes m
           = Ok (take (Z.to_nat CabModule.SIZE)
                   (pad_to CabModule.SIZE data)))
  /\ (exists m, NoiseGateModule.from_bytes data = Ok m
        /\ NoiseGate_valid m
        /\ NoiseGateModule.to_bytes m
           = Ok (take (Z.to_nat NoiseGateModule.SIZE)
                   (pad_to NoiseGateModule.SIZE data)))
  /\ (exists m, EQModule.from_bytes data = Ok m /\ EQ_valid m
        /\ EQModule.to_bytes m
           = Ok (take (Z.to_nat EQModule.SIZE) (pad_to EQModule.SIZE data)))
  /\ (exists m, ModulationModule.from_bytes data = Ok m
        /\ Modulation_valid m
        /\ ModulationModule.to_bytes m
           = Ok (take (Z.to_nat ModulationModule.SIZE)
                   (pad_to ModulationModule.SIZE data)))
  /\ (exists m, DelayModule.from_bytes data = Ok m /\ Delay_valid m
        /\ DelayModule.to_bytes m
           = Ok (take (Z.to_nat DelayModule.SIZE)
                   (pad_to DelayModule.SIZE data)))
  /\ (exists m, ReverbModule.from_bytes data = Ok m /\ Reverb_valid m
        /\ ReverbModule.to_bytes m
           = Ok (take (Z.to_nat ReverbModule.SIZE)
                   (pad_to ReverbModule.SIZE data))).
Proof.
  split; [apply FX_decode|]. split; [apply Distortion_decode|].
  split; [apply Amp_decode|]. split; [apply Cab_decode|].
  split; [apply NoiseGate_decode|]. split; [apply EQ_decode|].
  split; [apply Modulation_decode|]. split; [apply Delay_decode|].
  apply Reverb_decode.
Qed.

(** ** Serialising and decoding a module that is not valid *)

(** The reserved bytes that follow the header of a serialised module. *)
Ltac reserved_slice :=
  unfold slice; cbn [skipn Nat.sub]; rewrite ?drop_0;
  rewrite take_ge by (rewrite length_take; lia).

Ltac module_normalised lemma from_bytes fields :=
  let m := fresh "m" in
  let Hs := fresh "Hs" in
  let h := fresh "h" in
  let Hm := fresh "Hm" in
  let Hto := fresh "Hto" in
  let Hlen := fresh "Hlen" in
  intros m Hs;
  destruct (lemma m Hs) as (h & _ & Hm & Hto & Hlen);
  eexists; split; [exact Hto|];
  unfold from_bytes; rewrite pad_to_id by (rewrite Hlen; apply Z.le_refl);
  destruct Hs as [_ Hs];
  destruct m; unfold fields in Hm; cbn in Hm, Hs |- *;
  list_of_length h Hm;
  cbn [app]; rewrite ?getitem_S, ?getitem_0; cbn [bind];
  reserved_slice; congruence.

Lemma FX_normalised : forall m, FX_serialisable m ->
  exists bs, FXModule.to_bytes m = Ok bs
    /\ FXModule.from_bytes bs
       = Ok (FXModule.mk (FXModule.header m) (FXModule.enabled m)
               (FXModule.type m) (FXModule.q m) (FXModule.position m)
               (FXModule.peak m) (FXModule.level m)
               (take 6 (FXModule.reserved m))).
Proof. module_normalised FX_to_bytes_Ok FXModule.from_bytes FX_fields. Qed.

Lemma Distortion_normalised : forall m, Distortion_serialisable m ->
  exists bs, DistortionModule.to_bytes m = Ok bs
    /\ DistortionModule.from_bytes bs
       = Ok (DistortionModule.mk (DistortionModule.header m)
               (DistortionModule.enabled m) (DistortionModule.type m)
               (DistortionModule.volume m) (DistortionModule.tone m)
               (DistortionModule.gain m)
               (take 5 (DistortionModule.reserved m))).
Proof.
  module_normalised Distortion_to_bytes_Ok DistortionModule.from_bytes
    Distortion_fields.
Qed.

Lemma Amp_normalised : forall m, Amp_serialisable m ->
  exists bs, AmpModule.to_bytes m = Ok bs
    /\ AmpModule.from_bytes bs
       = Ok (AmpModule.mk (AmpModule.header m) (AmpModule.enabled m)
               (AmpModule.type m) (AmpModule.amp_gain m) (AmpModule.bass m)
               (AmpModule.mid m) (AmpModule.treble m) (AmpModule.presence m)
               (AmpModule.master m) (take 8 (AmpModule.reserved m))).
Proof. module_normalised Amp_to_bytes_Ok AmpModule.from_bytes Amp_fields. Qed.

Lemma Cab_normalised : forall m, Cab_serialisable m ->
  exists bs, CabModule.to_bytes m = Ok bs
    /\ CabModule.from_bytes bs
       = Ok (CabModule.mk (CabModule.header m) (CabModule.enabled m)
               (CabModule.type m) (CabModule.mic m) (CabModule.center m)
               (CabModule.distance m) (CabModule.tube m)
               (take 6 (CabModule.reserved m))).
Proof. module_normalised Cab_to_bytes_Ok CabModule.from_bytes Cab_fields. Qed.

Lemma NoiseGate_normalised : forall m, NoiseGate_serialisable m ->
  exists bs, NoiseGateModule.to_bytes m = Ok bs
    /\ NoiseGateModule.from_bytes bs
       = Ok (NoiseGateModule.mk (NoiseGateModule.header m)
               (NoiseGateModule.enabled m) (NoiseGateModule.type m)
               (NoiseGateModule.attack m) (NoiseGateModule.release m)
               (NoiseGateModule.threshold m)
               (take 5 (NoiseGateModule.reserved m))).
Proof.
  module_normalised NoiseGate_to_bytes_Ok NoiseGateModule.from_bytes
    NoiseGate_fields.
Qed.

Lemma Modulation_normalised : forall m, Modulation_serialisable m ->
  exists bs, ModulationModule.to_bytes m = Ok bs
    /\ ModulationModule.from_bytes bs
       = Ok (ModulationModule.mk (ModulationModule.header m)
               (ModulationModule.enabled m) (ModulationModule.type m)
               (ModulationModule.rate m) (ModulationModule.level m)
               (ModulationModule.depth m) (ModulationModule.param4 m)
               (ModulationModule.param5 m)
               (take 7 (ModulationModule.reserved m))).
Proof.
  module_normalised Modulation_to_bytes_Ok ModulationModule.from_bytes
    Modulation_fields.
Qed.

Lemma Reverb_normalised : forall m, Reverb_serialisable m ->
  exists bs, ReverbModule.to_bytes m = Ok bs
    /\ ReverbModule.from_bytes bs
       = Ok (ReverbModule.mk (ReverbModule.header m) (ReverbModule.enabled m)
               (ReverbModule.type m) (ReverbModule.pre_delay m)
               (ReverbModule.level m) (ReverbModule.decay m)
               (ReverbModule.tone m) (take 6 (ReverbModule.reserved m))).
Proof.
  module_normalised Reverb_to_bytes_Ok ReverbModule.from_bytes Reverb_fields.
Qed.

(** The two bytes of any delay time rebuild it modulo 65536. *)
Lemma time_ms_wrap (t : Z) :
  Z.lor (Z.land t 0xFF) (Z.shiftl (Z.land (Z.shiftr t 8) 0xFF) 8)
  = t mod 65536.
Proof.
  apply Z.bits_inj'. intros n Hn.
  rewrite Z.lor_spec, Z.land_spec.
  change 0xFF with (Z.ones 8). change 65536 with (2 ^ 16).
  destruct (decide (n < 8)) as [Hlo|Hhi].
  - rewrite Z.shiftl_spec_low by lia.
    rewrite Z.ones_spec_low by lia.
    rewrite andb_true_r, orb_false_r.
    by rewrite Z.mod_pow2_bits_low by lia.
  - rewrite Z.shiftl_spec by lia.
    rewrite Z.land_spec, Z.shiftr_spec by lia.
    rewrite (Z.ones_spec_high 8 n) by lia.
    rewrite andb_false_r, orb_false_l.
    replace (n - 8 + 8) with n by lia.
    destruct (decide (n < 16)) as [Hmid|Htop].
    + rewrite Z.ones_spec_low by lia. rewrite andb_true_r.
      by rewrite Z.mod_pow2_bits_low by lia.
    + rewrite Z.ones_spec_high by lia. rewrite andb_false_r.
      symmetry. apply Z.mod_pow2_bits_high. lia.
Qed.

Lemma Delay_normalised : forall m, Delay_serialisable m ->
  exists bs, DelayModule.to_bytes m = Ok bs
    /\ DelayModule.from_bytes bs
       = Ok (DelayModule.mk (DelayModule.header m) (DelayModule.enabled m)
               (DelayModule.type m) (DelayModule.level m)
               (DelayModule.feedback m) (DelayModule.time_ms m mod 65536)
               (DelayModule.subdivision m) (DelayModule.param5 m)
               (DelayModule.param6 m) (take 7 (DelayModule.reserved m))).
Proof.
  intros m Hs.
  destruct (Delay_to_bytes_Ok m Hs) as (h & _ & Hm & Hto & Hlen).
  eexists. split; [exact Hto|].
  unfold DelayModule.from_bytes.
  rewrite pad_to_id by (rewrite Hlen; apply Z.le_refl).
  destruct Hs as [_ Hs].
  destruct m as [hd en ty lv fb tm sd p5 p6 reserved].
  cbn [DelayModule.header DelayModule.enabled DelayModule.type
         DelayModule.level DelayModule.feedback DelayModule.time_ms
         DelayModule.subdivision DelayModule.param5 DelayModule.param6
         DelayModule.reserved] in Hm, Hs |- *.
  list_of_length h Hm.
  cbn [app]. rewrite ?getitem_S, ?getitem_0. cbn [bind].
  reserved_slice.
  assert (Z.lor (byte_to_int b4) (Z.shiftl (byte_to_int b5) 8)
          = tm mod 65536) as ->.
  { rewrite <- (time_ms_wrap tm). congruence. }
  congruence.
Qed.

Lemma EQ_normalised : forall m, EQ_serialisable m ->
  exists bs, EQModule.to_bytes m = Ok bs
    /\ EQModule.from_bytes bs
       = Ok (EQModule.mk (EQModule.header m) (EQModule.enabled m)
               (EQModule.type m) (take 6 (EQModule.bands m))
               (take 6 (EQModule.bands_extra m))
               (take 8 (EQModule.reserved m))).
Proof.
  intros m Hs.
  destruct (EQ_to_bytes_Ok m Hs) as (h & _ & Hm & Hto & Hlen).
  eexists. split; [exact Hto|].
  unfold EQModule.from_bytes.
  rewrite pad_to_id by (rewrite Hlen; apply Z.le_refl).
  destruct Hs as (_ & Hb & _ & Hx & _ & Hr).
  destruct m as [hd en ty bands extra reserved].
  unfold EQ_fields in Hm.
  cbn [EQModule.header EQModule.enabled EQModule.type EQModule.bands
         EQModule.bands_extra EQModule.reserved] in Hm, Hb, Hx, Hr |- *.
  do 6 (destruct bands as [|? bands]; [cbn [length] in Hb; lia|]).
  do 6 (destruct extra as [|? extra]; [cbn [length] in Hx; lia|]).
  cbn [app firstn] in Hm |- *. list_of_length h Hm.
  cbn [app]. rewrite ?getitem_S, ?getitem_0. cbn [bind].
  unfold slice. cbn [skipn firstn Nat.sub map].
  rewrite ?take_0, ?drop_0. rewrite take_ge by (rewrite length_take; lia).
  cbn [map]. congruence.
Qed.

(** X12.  Serialising a module that is serialisable but not valid, and
    decoding the result, gives the module in its normal form: the one-byte
    fields are kept, the reserved bytes are cut to the declared number, the
    two EQ band groups are cut to six values each, and the delay time is
    taken modulo 65536. *)
Theorem modules_encode_decode :
  (forall m, FX_serialisable m ->
     exists bs, FXModule.to_bytes m = Ok bs
       /\ FXModule.from_bytes bs
          = Ok (FXModule.mk (FXModule.header m) (FXModule.enabled m)
                  (FXModule.type m) (FXModule.q m) (FXModule.position m)
                  (FXModule.peak m) (FXModule.level m)
                  (take 6 (FXModule.reserved m))))
  /\ (forall m, Distortion_serialisable m ->
        exists bs, DistortionModule.to_bytes m = Ok bs
          /\ DistortionModule.from_bytes bs
             = Ok (DistortionModule.mk (DistortionModule.header m)
                     (DistortionModule.enabled m) (DistortionModule.type m)
                     (DistortionModule.volume m) (DistortionModule.tone m)
                     (DistortionModule.gain m)
                     (take 5 (DistortionModule.reserved m))))
  /\ (forall m, Amp_serialisable m ->
        exists bs, AmpModule.to_bytes m = Ok bs
          /\ AmpModule.from_bytes bs
             = Ok (AmpModule.mk (AmpModule.header m) (AmpModule.enabled m)
                     (AmpModule.type m) (AmpModule.amp_gain m)
                     (AmpModule.bass m) (AmpModule.mid m)
                     (AmpModule.treble m) (AmpModule.presence m)
                     (AmpModule.master m) (take 8 (AmpModule.reserved m))))
  /\ (forall m, Cab_serialisable m ->
        exists bs, CabModule.to_bytes m = Ok bs
          /\ CabModule.from_bytes bs
             = Ok (CabModule.mk (CabModule.header m) (CabModule.enabled m)
                     (CabModule.type m) (CabModule.mic m)
                     (CabModule.center m) (CabModule.distance m)
                     (CabModule.tube m) (take 6 (CabModule.reserved m))))
  /\ (forall m, NoiseGate_serialisable m ->
        exists bs, NoiseGateModule.to_bytes m = Ok bs
          /\ NoiseGateModule.from_bytes bs
             = Ok (NoiseGateModule.mk (NoiseGateModule.header m)
                     (NoiseGateModule.enabled m) (NoiseGateModule.type m)
                     (NoiseGateModule.attack m) (NoiseGateModule.release m)
                     (NoiseGateModule.threshold m)
                     (take 5 (NoiseGateModule.reserved m))))
  /\ (forall m, EQ_serialisable m ->
        exists bs, EQModule.to_bytes m = Ok bs
          /\ EQModule.from_bytes bs
             = Ok (EQModule.mk (EQModule.header m) (EQModule.enabled m)
                     (EQModule.type m) (take 6 (EQModule.bands m))
                     (take 6 (EQModule.bands_extra m))
                     (take 8 (EQModule.reserved m))))
  /\ (forall m, Modulation_serialisable m ->
        exists bs, ModulationModule.to_bytes m = Ok bs
          /\ ModulationModule.from_bytes bs
             = Ok (ModulationModule.mk (ModulationModule.header m)
                     (ModulationModule.enabled m) (ModulationModule.type m)
                     (ModulationModule.rate m) (ModulationModule.level m)
                     (ModulationModule.depth m) (ModulationModule.param4 m)
                     (ModulationModule.param5 m)
                     (take 7 (ModulationModule.reserved m))))
  /\ (forall m, Delay_serialisable m ->
        exists bs, DelayModule.to_bytes m = Ok bs
          /\ DelayModule.from_bytes bs
             = Ok (DelayModule.mk (DelayModule.header m)
                     (DelayModule.enabled m) (DelayModule.type m)
                     (DelayModule.level m) (DelayModule.feedback m)
                     (DelayModule.time_ms m mod 65536)
                     (DelayModule.subdivision m) (DelayModule.param5 m)
                     (DelayModule.param6 m)
                     (take 7 (DelayModule.reserved m))))
  /\ (forall m, Reverb_serialisable m ->
        exists bs, ReverbModule.to_bytes m = Ok bs
          /\ ReverbModule.from_bytes bs
             = Ok (ReverbModule.mk (ReverbModule.header m)
                     (ReverbModule.enabled m) (ReverbModule.type m)
                     (ReverbModule.pre_delay m) (ReverbModule.level m)
                     (ReverbModule.decay m) (ReverbModule.tone m)
                     (take 6 (ReverbModule.reserved m)))).
Proof.
  split; [exact FX_normalised|]. split; [exact Distortion_normalised|].
  split; [exact Amp_normalised|]. split; [exact Cab_normalised|].
  split; [exact NoiseGate_normalised|]. split; [exact EQ_normalised|].
  split; [exact Modulation_normalised|]. split; [exact Delay_normalised|].
  exact Reverb_normalised.
Qed.

(** ** Presets from any bytes *)

Lemma split_at {A} (n : nat) (l : list A) :
  (n <= length l)%nat -> exists a b, l = a ++ b /\ length a = n.
Proof.
  intros H. exists (take n l), (drop n l).
  split; [by rewrite take_drop | rewrite length_take; lia].
Qed.

(** A buffer of at least 159 bytes, as the twelve blocks of the preset
    layout and what follows them. *)
Lemma preset_blocks (d : bytes) :
  (159 <= length d)%nat ->
  exists eo sz nb fxb odb ampb cabb nsb eqb modb delayb reverbb tail,
    d = eo ++ sz ++ nb ++ fxb ++ odb ++ ampb ++ cabb ++ nsb ++ eqb ++ modb
           ++ delayb ++ reverbb ++ tail
    /\ length eo = 10%nat /\ length sz = 2%nat /\ length nb = 14%nat
    /\ length fxb = 13%nat /\ length odb = 11%nat /\ length ampb = 17%nat
    /\ length cabb = 13%nat /\ length nsb = 11%nat /\ length eqb = 23%nat
    /\ length modb = 15%nat /\ length delayb = 17%nat
    /\ length reverbb = 13%nat
    /\ length d = (159 + length tail)%nat.
Proof.
  intros H.
  destruct (split_at 10 d) as (eo & d1 & -> & Leo); [lia|].
  rewrite length_app in H.
  destruct (split_at 2 d1) as (sz & d2 & -> & Lsz); [lia|].
  rewrite length_app in H.
  destruct (split_at 14 d2) as (nb & d3 & -> & Lnb); [lia|].
  rewrite length_app in H.
  destruct (split_at 13 d3) as (fxb & d4 & -> & Lfx); [lia|].
  rewrite length_app in H.
  destruct (split_at 11 d4) as (odb & d5 & -> & Lod); [lia|].
  rewrite length_app in H.
  destruct (split_at 17 d5) as (ampb & d6 & -> & Lamp); [lia|].
  rewrite length_app in H.
  destruct (split_at 13 d6) as (cabb & d7 & -> & Lcab); [lia|].
  rewrite length_app in H.
  destruct (split_at 11 d7) as (nsb & d8 & -> & Lns); [lia|].
  rewrite length_app in H.
  destruct (split_at 23 d8) as (eqb & d9 & -> & Leq); [lia|].
  rewrite length_app in H.
  destruct (split_at 15 d9) as (modb & d10 & -> & Lmod); [lia|].
  rewrite length_app in H.
  destruct (split_at 17 d10) as (delayb & d11 & -> & Ldelay); [lia|].
  rewrite length_app in H.
  destruct (split_at 13 d11) as (reverbb & tail & -> & Lreverb); [lia|].
  exists eo, sz, nb, fxb, odb, ampb, cabb, nsb, eqb, modb, delayb, reverbb,
    tail.
  repeat split; try assumption.
  rewrite !length_app. lia.
Qed.

(** [Preset.from_bytes] on a buffer of at least 512 bytes reads the twelve
    blocks, each at its offset. *)
Lemma Preset_from_bytes_blocks
    (eo sz nb fxb odb ampb cabb nsb eqb modb delayb reverbb tail : bytes) :
  length eo = 10%nat -> length sz = 2%nat -> length nb = 14%nat ->
  length fxb = 13%nat -> length odb = 11%nat -> length ampb = 17%nat ->
  length cabb = 13%nat -> length nsb = 11%nat -> length eqb = 23%nat ->
  length modb = 15%nat -> length delayb = 17%nat ->
  length reverbb = 13%nat -> (353 <= length tail)%nat ->
  Preset.from_bytes
    (eo ++ sz ++ nb ++ fxb ++ odb ++ ampb ++ cabb ++ nsb ++ eqb ++ modb
        ++ delayb ++ reverbb ++ tail)
  = (fx <~ FXModule.from_bytes fxb;
     od <~ DistortionModule.from_bytes odb;
     amp <~ AmpModule.from_bytes ampb;
     cab <~ CabModule.from_bytes cabb;
     ns <~ NoiseGateModule.from_bytes nsb;
     eq <~ EQModule.from_bytes eqb;
     mod_ <~ ModulationModule.from_bytes modb;
     delay <~ DelayModule.from_bytes delayb;
     reverb <~ ReverbModule.from_bytes reverbb;
     Ok (Preset.mk (map byte_to_int eo)
           (decode_ascii_replace (before_null nb))
           fx od amp cab ns eq mod_ delay reverb)).
Proof.
  intros Leo Lsz Lnb Lfx Lod Lamp Lcab Lns Leq Lmod Ldelay Lreverb Ltail.
  match goal with |- Preset.from_bytes ?b = _ => set (buf := b) end.
  assert (PRESET_SIZE <= len buf) as Lbuf.
  { unfold len, buf, PRESET_SIZE. rewrite !length_app. known_lengths. lia. }
  unfold Preset.from_bytes.
  assert (pad_to PRESET_SIZE buf = buf) as ->
    by (unfold pad_to; case_decide; [lia | done]).
  cbn zeta.
  assert (slice OFF_EFFECT_ORDER (OFF_EFFECT_ORDER + 10) buf = eo) as ->
    by (unfold buf; read_block).
  assert (slice OFF_NAME (OFF_NAME + 14) buf = nb)
    as -> by (unfold buf; read_block).
  assert (slice OFF_FX (OFF_FX + Z.to_nat FXModule.SIZE) buf = fxb) as ->
    by (unfold buf; read_block).
  assert (slice OFF_OD (OFF_OD + Z.to_nat DistortionModule.SIZE) buf = odb)
    as -> by (unfold buf; read_block).
  assert (slice OFF_AMP (OFF_AMP + Z.to_nat AmpModule.SIZE) buf = ampb) as ->
    by (unfold buf; read_block).
  assert (slice OFF_CAB (OFF_CAB + Z.to_nat CabModule.SIZE) buf = cabb) as ->
    by (unfold buf; read_block).
  assert (slice OFF_NS (OFF_NS + Z.to_nat NoiseGateModule.SIZE) buf = nsb)
    as -> by (unfold buf; read_block).
  assert (slice OFF_EQ (OFF_EQ + Z.to_nat EQModule.SIZE) buf = eqb) as ->
    by (unfold buf; read_block).
  assert (slice OFF_MOD (OFF_MOD + Z.to_nat ModulationModule.SIZE) buf = modb)
    as -> by (unfold buf; read_block).
  assert (slice OFF_DELAY (OFF_DELAY + Z.to_nat DelayModule.SIZE) buf
          = delayb) as -> by (unfold buf; read_block).
  assert (slice OFF_REVERB (OFF_REVERB + Z.to_nat ReverbModule.SIZE) buf
          = reverbb) as -> by (unfold buf; read_block).
  reflexivity.
Qed.

(** A valid preset is decoded from its record. *)
Lemma Preset_decode_encoded (p : Preset.t) :
  Preset_valid p ->
  exists bs, Preset.to_bytes p = Ok bs
    /\ length bs = 512%nat
    /\ Preset.from_bytes bs = Ok p.
Proof.
  intros Hv.
  destruct (Preset_to_bytes_layout p (valid_serialisable p Hv))
    as (fxb & odb & ampb & cabb & nsb & eqb & modb & delayb & reverbb
        & [Tfx Lfx] & [Tod Lod] & [Tamp Lamp] & [Tcab Lcab] & [Tns Lns]
        & [Teq Leq] & [Tmod Lmod] & [Tdelay Ldelay] & [Treverb Lreverb]
        & Hto).
  destruct Hv as (Hnl & Hnc & Hel & Heb & Hfx & Hod & Hamp & Hcab & Hns & Heq
                  & Hmod & Hdelay & Hreverb).
  apply FX_roundtrip in Hfx as (? & E & _ & Ffx).
  rewrite Tfx in E; injection E as <-.
  apply Distortion_roundtrip in Hod as (? & E & _ & Fod).
  rewrite Tod in E; injection E as <-.
  apply Amp_roundtrip in Hamp as (? & E & _ & Famp).
  rewrite Tamp in E; injection E as <-.
  apply Cab_roundtrip in Hcab as (? & E & _ & Fcab).
  rewrite Tcab in E; injection E as <-.
  apply NoiseGate_roundtrip in Hns as (? & E & _ & Fns).
  rewrite Tns in E; injection E as <-.
  apply EQ_roundtrip in Heq as (? & E & _ & Feq).
  rewrite Teq in E; injection E as <-.
  apply Modulation_roundtrip in Hmod as (? & E & _ & Fmod).
  rewrite Tmod in E; injection E as <-.
  apply Delay_roundtrip in Hdelay as (? & E & _ & Fdelay).
  rewrite Tdelay in E; injection E as <-.
  apply Reverb_roundtrip in Hreverb as (? & E & _ & Freverb).
  rewrite Treverb in E; injection E as <-.
  pose proof (effect_order_block_length (Preset.effect_order p)) as Leo.
  pose proof (name_block_length (Preset.name p)) as Lname.
  eexists. split; [exact Hto|]. split.
  { rewrite !length_app, length_replicate. cbn [length]. known_lengths.
    reflexivity. }
  rewrite (Preset_from_bytes_blocks _ [x01; xf4])
    by first [assumption | reflexivity | rewrite length_replicate; lia].
  rewrite Ffx, Fod, Famp, Fcab, Fns, Feq, Fmod, Fdelay, Freverb. cbn [bind].
  rewrite effect_order_block_decode, name_block_decode by assumption.
  by destruct p.
Qed.

Lemma take_pad_to_id (n : nat) (size : Z) (b : bytes) :
  length b = n -> Z.to_nat size = n ->
  take n (pad_to size b) = b.
Proof.
  intros Hb Hs. rewrite pad_to_id by (unfold len; lia).
  apply take_ge. lia.
Qed.

Lemma effect_order_block_bytes (eo : bytes) :
  length eo = 10%nat -> effect_order_block (map byte_to_int eo) = eo.
Proof.
  intros H. unfold effect_order_block. cbn zeta.
  rewrite take_ge by (rewrite length_map; lia).
  rewrite !length_map, H. cbn [Nat.sub replicate]. rewrite app_nil_r.
  clear H. induction eo as [|b eo IH]; [reflexivity|].
  cbn [map]. rewrite IH. f_equal.
  apply byte_to_int_inj. rewrite byte_of_masked_to_int; [done|].
  apply byte_to_int_range.
Qed.

(** What [Preset.from_bytes] makes of any byte string, and the record of
    the preset it returns. *)
Lemma Preset_decode (data : bytes) :
  exists p bs,
    Preset.from_bytes data = Ok p
    /\ length (Preset.effect_order p) = 10%nat
    /\ Forall is_byte (Preset.effect_order p)
    /\ (length (Preset.name p) <= 14)%nat
    /\ Forall (fun ch => (0 < ch < 128)%N \/ ch = 0xFFFD%N) (Preset.name p)
    /\ (FX_valid (Preset.fx p) /\ Distortion_valid (Preset.od p)
        /\ Amp_valid (Preset.amp p) /\ Cab_valid (Preset.cab p)
        /\ NoiseGate_valid (Preset.ns p) /\ EQ_valid (Preset.eq p)
        /\ Modulation_valid (Preset.mod_ p) /\ Delay_valid (Preset.delay p)
        /\ Reverb_valid (Preset.reverb p))
    /\ Preset.to_bytes p = Ok bs
    /\ bs = take 10 (pad_to PRESET_SIZE data) ++ [x01; xf4]
              ++ name_block (Preset.name p)
              ++ slice OFF_FX 0x9F (pad_to PRESET_SIZE data)
              ++ replicate 353 x00.
Proof.
  assert (Preset.from_bytes data
          = Preset.from_bytes (pad_to PRESET_SIZE data)) as ->.
  { unfold Preset.from_bytes.
    by rewrite (pad_to_id _ (pad_to PRESET_SIZE data))
      by (pose proof (pad_to_length PRESET_SIZE data);
          unfold len, PRESET_SIZE in *; lia). }
  pose proof (pad_to_length PRESET_SIZE data) as Hd.
  change (Z.to_nat PRESET_SIZE) with 512%nat in Hd.
  generalize dependent (pad_to PRESET_SIZE data). clear data. intros d Hd.
  destruct (preset_blocks d)
    as (eo & sz & nb & fxb & odb & ampb & cabb & nsb & eqb & modb & delayb
        & reverbb & tail & -> & Leo & Lsz & Lnb & Lfx & Lod & Lamp & Lcab
        & Lns & Leq & Lmod & Ldelay & Lreverb & Ltail); [lia|].
  rewrite Preset_from_bytes_blocks by (assumption || lia).
  destruct (FX_decode fxb) as (fx & -> & Vfx & Tfx).
  destruct (Distortion_decode odb) as (od & -> & Vod & Tod).
  destruct (Amp_decode ampb) as (amp & -> & Vamp & Tamp).
  destruct (Cab_decode cabb) as (cab & -> & Vcab & Tcab).
  destruct (NoiseGate_decode nsb) as (ns & -> & Vns & Tns).
  destruct (EQ_decode eqb) as (eq & -> & Veq & Teq).
  destruct (Modulation_decode modb) as (mod_ & -> & Vmod & Tmod).
  destruct (Delay_decode delayb) as (delay & -> & Vdelay & Tdelay).
  destruct (Reverb_decode reverbb) as (reverb & -> & Vreverb & Treverb).
  cbn [bind].
  rewrite take_pad_to_id in Tfx, Tod, Tamp, Tcab, Tns, Teq, Tmod, Tdelay,
    Treverb by (assumption || reflexivity).
  set (p := Preset.mk _ _ _ _ _ _ _ _ _ _ _).
  assert (Preset_serialisable p) as Hs.
  { unfold Preset_serialisable, p. cbn [Preset.fx Preset.od Preset.amp
      Preset.cab Preset.ns Preset.eq Preset.mod_ Preset.delay Preset.reverb].
    destruct Vfx as [? Rfx], Vod as [? Rod], Vamp as [? Ramp],
      Vcab as [? Rcab], Vns as [? Rns], Vmod as [? Rmod],
      Vdelay as (? & ? & Rdelay), Vreverb as [? Rreverb],
      Veq as (? & Lb & ? & Lx & ? & Req).
    repeat split; try assumption; try lia;
      rewrite take_ge by lia; assumption. }
  destruct (Preset_to_bytes_layout p Hs)
    as (fxb' & odb' & ampb' & cabb' & nsb' & eqb' & modb' & delayb'
        & reverbb' & [Tfx' _] & [Tod' _] & [Tamp' _] & [Tcab' _] & [Tns' _]
        & [Teq' _] & [Tmod' _] & [Tdelay' _] & [Treverb' _] & Hto).
  unfold p in Tfx', Tod', Tamp', Tcab', Tns', Teq', Tmod', Tdelay', Treverb'.
  cbn [Preset.fx Preset.od Preset.amp Preset.cab Preset.ns Preset.eq
         Preset.mod_ Preset.delay Preset.reverb] in *.
  rewrite Tfx in Tfx'; injection Tfx' as <-.
  rewrite Tod in Tod'; injection Tod' as <-.
  rewrite Tamp in Tamp'; injection Tamp' as <-.
  rewrite Tcab in Tcab'; injection Tcab' as <-.
  rewrite Tns in Tns'; injection Tns' as <-.
  rewrite Teq in Teq'; injection Teq' as <-.
  rewrite Tmod in Tmod'; injection Tmod' as <-.
  rewrite Tdelay in Tdelay'; injection Tdelay' as <-.
  rewrite Treverb in Treverb'; injection Treverb' as <-.
  eexists p, _. split; [reflexivity|].
  split; [unfold p; cbn [Preset.effect_order]; by rewrite length_map|].
  split.
  { unfold p. cbn [Preset.effect_order]. apply Forall_fmap, Forall_true.
    intros b. apply is_byte_byte. }
  split.
  { unfold p. cbn [Preset.name]. unfold decode_ascii_replace.
    rewrite length_map. etrans; [apply before_null_length|]. lia. }
  split.
  { unfold p. cbn [Preset.name].
    apply decode_ascii_chars, before_null_no_null. }
  split; [unfold p; cbn; done|].
  split; [exact Hto|].
  unfold p at 1. cbn [Preset.effect_order].
  rewrite effect_order_block_bytes by done.
  rewrite (take_app_length' eo) by done.
  do 3 f_equal.
  assert (slice OFF_FX 159
            (eo ++ sz ++ nb ++ fxb ++ odb ++ ampb ++ cabb ++ nsb ++ eqb
                ++ modb ++ delayb ++ reverbb ++ tail)
          = fxb ++ odb ++ ampb ++ cabb ++ nsb ++ eqb ++ modb ++ delayb
                ++ reverbb) as ->.
  { replace (eo ++ sz ++ nb ++ fxb ++ odb ++ ampb ++ cabb ++ nsb ++ eqb
                ++ modb ++ delayb ++ reverbb ++ tail)
      with ((eo ++ sz ++ nb)
              ++ (fxb ++ odb ++ ampb ++ cabb ++ nsb ++ eqb ++ modb
                    ++ delayb ++ reverbb) ++ tail)
      by (by rewrite <- !app_assoc).
    apply slice_app_exact; rewrite !length_app; known_lengths;
      reflexivity. }
  by rewrite <- !app_assoc.
Qed.

(** X13.  [Preset.from_bytes] raises on no byte string.  The preset it
    returns has an effect order of ten bytes, a name of at most 14
    characters, each an ASCII character other than the null or the
    replacement character U+FFFD, and nine valid modules. *)
Theorem Preset_from_bytes_any (data : bytes) :
  exists p,
    Preset.from_bytes data = Ok p
    /\ length (Preset.effect_order p) = 10%nat
    /\ Forall is_byte (Preset.effect_order p)
    /\ (length (Preset.name p) <= 14)%nat
    /\ Forall (fun ch => (0 < ch < 128)%N \/ ch = 0xFFFD%N) (Preset.name p)
    /\ FX_valid (Preset.fx p) /\ Distortion_valid (Preset.od p)
    /\ Amp_valid (Preset.amp p) /\ Cab_valid (Preset.cab p)
    /\ NoiseGate_valid (Preset.ns p) /\ EQ_valid (Preset.eq p)
    /\ Modulation_valid (Preset.mod_ p) /\ Delay_valid (Preset.delay p)
    /\ Reverb_valid (Preset.reverb p).
Proof.
  destruct (Preset_decode data)
    as (p & bs & Hp & Hel & Heb & Hnl & Hnc & Hmods & _).
  exists p. tauto.
Qed.

(** X14.  Decoding any byte string and serialising the preset again keeps
    the ten bytes of the effect order and the bytes [0x1A, 0x9F) of the
    nine modules of the zero-padded input, writes [01 F4] to the size field
    and the normalised name to the name field, and sets the 353 bytes from
    [0x9F] on to zero, whatever the input held there. *)
Theorem Preset_reencode (data : bytes) :
  exists p bs,
    Preset.from_bytes data = Ok p
    /\ Preset.to_bytes p = Ok bs
    /\ bs = take 10 (pad_to PRESET_SIZE data) ++ [x01; xf4]
              ++ name_block (Preset.name p)
              ++ slice OFF_FX 0x9F (pad_to PRESET_SIZE data)
              ++ replicate 353 x00.
Proof.
  destruct (Preset_decode data) as (p & bs & Hp & _ & _ & _ & _ & _ & Hto & Hbs).
  by exists p, bs.
Qed.

Lemma take_encode_ascii_replace (n : nat) (s : str) :
  take n (encode_ascii_replace s) = encode_ascii_replace (take n s).
Proof. unfold encode_ascii_replace. by rewrite fmap_take. Qed.

Lemma name_block_take (name : str) :
  name_block name = name_block (take 14 name).
Proof.
  unfold name_block. cbn zeta.
  rewrite !take_encode_ascii_replace, take_take. reflexivity.
Qed.

Lemma effect_order_block_values (eo : list Z) :
  Forall is_byte eo ->
  map byte_to_int (effect_order_block eo)
  = take 10 eo ++ replicate (10 - length (take 10 eo)) 0.
Proof.
  intros Hb. unfold effect_order_block. cbn zeta.
  rewrite map_app. f_equal.
  - apply (Forall_take _ 10%nat) in Hb.
    induction Hb as [|x l Hx _ IH]; [reflexivity|].
    cbn [map]. rewrite IH, byte_of_masked_to_int; [done|].
    unfold is_byte in Hx. lia.
  - induction (10 - length (take 10 eo))%nat as [|k IH]; [reflexivity|].
    cbn [replicate map]. by rewrite IH.
Qed.

(** X15.  A preset that serialises, with a name of non-null ASCII
    characters and an effect order of byte values, of any lengths, comes
    back from [Preset.from_bytes(p.to_bytes())] as a valid preset: the name
    is cut to its first 14 characters, and the effect order to its first
    10 values, padded with zeros when it has fewer. *)
Theorem Preset_encode_decode (p : Preset.t) :
  Preset_serialisable p ->
  Forall (fun c => 0 < c < 128)%N (Preset.name p) ->
  Forall is_byte (Preset.effect_order p) ->
  exists bs p',
    Preset.to_bytes p = Ok bs
    /\ Preset.from_bytes bs = Ok p'
    /\ Preset_valid p'
    /\ Preset.name p' = take 14 (Preset.name p)
    /\ Preset.effect_order p'
       = take 10 (Preset.effect_order p)
           ++ replicate (10 - length (take 10 (Preset.effect_order p))) 0.
Proof.
  intros Hs Hn He.
  destruct (Preset_to_bytes_layout p Hs)
    as (fxb & odb & ampb & cabb & nsb & eqb & modb & delayb & reverbb
        & [_ Lfx] & [_ Lod] & [_ Lamp] & [_ Lcab] & [_ Lns]
        & [_ Leq] & [_ Lmod] & [_ Ldelay] & [_ Lreverb] & Hto).
  pose proof (effect_order_block_length (Preset.effect_order p)) as Leo.
  pose proof (name_block_length (Preset.name p)) as Lname.
  destruct (FX_decode fxb) as (fx & Ffx & Vfx & _).
  destruct (Distortion_decode odb) as (od & Fod & Vod & _).
  destruct (Amp_decode ampb) as (amp & Famp & Vamp & _).
  destruct (Cab_decode cabb) as (cab & Fcab & Vcab & _).
  destruct (NoiseGate_decode nsb) as (ns & Fns & Vns & _).
  destruct (EQ_decode eqb) as (eq & Feq & Veq & _).
  destruct (Modulation_decode modb) as (mod_ & Fmod & Vmod & _).
  destruct (Delay_decode delayb) as (delay & Fdelay & Vdelay & _).
  destruct (Reverb_decode reverbb) as (reverb & Freverb & Vreverb & _).
  eexists _, (Preset.mk _ _ fx od amp cab ns eq mod_ delay reverb).
  split; [exact Hto|]. split.
  { rewrite (Preset_from_bytes_blocks _ [x01; xf4])
      by first [assumption | reflexivity | rewrite length_replicate; lia].
    rewrite Ffx, Fod, Famp, Fcab, Fns, Feq, Fmod, Fdelay, Freverb.
    reflexivity. }
  assert (decode_ascii_replace (before_null (name_block (Preset.name p)))
          = take 14 (Preset.name p)) as Hname.
  { rewrite name_block_take. apply name_block_decode.
    - rewrite length_take. lia.
    - by apply Forall_take. }
  rewrite Hname, effect_order_block_values by done.
  split; [|by split].
  unfold Preset_valid.
  cbn [Preset.name Preset.effect_order Preset.fx Preset.od Preset.amp
         Preset.cab Preset.ns Preset.eq Preset.mod_ Preset.delay
         Preset.reverb].
  split; [rewrite length_take; lia|].
  split; [by apply Forall_take|].
  split; [rewrite length_app, length_replicate, length_take; lia|].
  split; [|done].
  apply Forall_app. split; [by apply Forall_take|].
  apply Forall_replicate. unfold is_byte. lia.
Qed.

(** ** File containers *)

(** X16.  For every valid preset, [import_mo] on the bytes that
    [export_mo] writes returns the preset. *)
Theorem mo_roundtrip (p : Preset.t) :
  Preset_valid p ->
  exists out, export_mo p = Ok out /\ import_mo out = Ok p.
Proof.
  intros Hv.
  destruct (Preset_decode_encoded p Hv) as (bs & Hbs & Hl & Hfrom).
  unfold export_mo. rewrite Hbs. cbn [bind].
  eexists. split; [reflexivity|].
  unfold slice_assign, zeros, MO_FILE_SIZE, MO_PRESET_OFFSET, PRESET_SIZE.
  rewrite take_replicate, drop_replicate.
  change (512 `min` Z.to_nat 2048)%nat with 512%nat.
  change (Z.to_nat 2048 - (512 + Z.to_nat 512))%nat with 1024%nat.
  unfold import_mo.
  rewrite decide_False.
  2:{ unfold len, MO_PRESET_OFFSET, PRESET_SIZE.
      rewrite !length_app, !length_replicate, Hl. lia. }
  unfold MO_PRESET_OFFSET, PRESET_SIZE. change (Z.to_nat 512) with 512%nat.
  rewrite (slice_app_exact (replicate 512 x00) bs (replicate 1024 x00));
    [exact Hfrom | by rewrite length_replicate
    | rewrite Hl; reflexivity].
Qed.

(** X17.  [parse_gnr_header] raises [ValueError] when the data has fewer
    than 12 bytes or does not start with the magic [mooerge\0].  Otherwise
    it returns the magic without its trailing null, the little-endian
    32-bit [info_size] of bytes 8 to 11, the (at most) [info_size] bytes that
    follow byte 12, and the offset [12 + info_size], which is not checked
    against the length of the data. *)
Theorem parse_gnr_header_spec (data : bytes) :
  (len data < 12 \/ take 8 data <> GNR_MAGIC ->
   parse_gnr_header data = Raise ValueError)
  /\ (12 <= len data -> take 8 data = GNR_MAGIC ->
      let info_size := from_bytes_little (slice 8 12 data) in
      parse_gnr_header data
      = Ok (mkGnrHeader (str_lit "mooerge") info_size
              (take (Z.to_nat info_size) (drop 12 data)) (12 + info_size))
      /\ 0 <= info_size < 2 ^ 32).
Proof.
  assert (slice 0 8 data = take 8 data) as Hm
    by (unfold slice; by rewrite drop_0).
  unfold parse_gnr_header. rewrite Hm. split.
  - intros [Hl|Hne].
    + by rewrite decide_True.
    + case_decide; [done|]. by rewrite decide_True.
  - intros Hl Hmagic. cbn zeta.
    set (info_size := from_bytes_little (slice 8 12 data)).
    rewrite decide_False by lia. rewrite decide_False by (intros H; by apply H).
    assert (0 <= info_size < 2 ^ 32) as Hrange.
    { pose proof (from_bytes_little_range (slice 8 12 data)) as H.
      fold info_size in H.
      assert (len (slice 8 12 data) = 4) as E
        by (unfold len in *; rewrite slice_length; lia).
      rewrite E in H. exact H. }
    split; [|exact Hrange].
    rewrite Hmagic. do 2 f_equal.
    case_decide as Hfit.
    + unfold slice. f_equal. lia.
    + symmetry. apply take_ge. rewrite length_drop. unfold len in *. lia.
Qed.

Lemma encode_ascii_Ok (s : str) :
  is_ascii s -> exists bs, encode_ascii s = Ok bs /\ length bs = length s.
Proof.
  induction 1 as [|c s Hc _ (bs & Hbs & Hl)]; [by exists []|].
  cbn [encode_ascii]. rewrite decide_True by done. rewrite Hbs. cbn [bind].
  eexists. split; [reflexivity|]. cbn [length]. by rewrite Hl.
Qed.

Lemma encode_ascii_Raise (s : str) :
  ~ is_ascii s -> encode_ascii s = Raise ValueError.
Proof.
  induction s as [|c s IH]; intros Hn.
  - exfalso. apply Hn. constructor.
  - cbn [encode_ascii]. case_decide as Hc; [|done].
    rewrite IH; [done|]. intros Hs. apply Hn. by constructor.
Qed.

Lemma ljust_length (n : nat) (bs : bytes) :
  (length bs <= n)%nat -> length (ljust n bs) = n.
Proof.
  intros H. unfold ljust. rewrite length_app, length_replicate. lia.
Qed.

(** One entry of the backup: the record of the preset of that index and 34
    zeros, or 546 zeros where there is no preset. *)
Lemma export_mbf_entries_Ok (presets : list Preset.t) (indices : list nat) :
  Forall (fun i => forall p, presets !! i = Some p -> Preset_serialisable p)
    indices ->
  forall buf, exists entries,
    export_mbf_entries presets indices buf = Ok (buf ++ concat entries)
    /\ Forall2 (fun i e =>
                  length e = 546%nat
                  /\ match presets !! i with
                     | Some p => exists bs, Preset.to_bytes p = Ok bs
                                            /\ take 512 e = bs
                     | None => e = replicate 546 x00
                     end) indices entries.
Proof.
  induction 1 as [|i indices Hi _ IH]; intros buf.
  - exists []. cbn. by rewrite app_nil_r.
  - cbn [export_mbf_entries].
    destruct (presets !! i) as [p|] eqn:E.
    + destruct (Preset_to_bytes_size p (Hi p eq_refl)) as (bs & Hbs & Hl).
      rewrite Hbs. cbn [bind].
      destruct (IH (buf ++ slice_assign (replicate MBF_PRESET_ENTRY_SIZE x00)
                             0 (Z.to_nat PRESET_SIZE) bs))
        as (es & Hes & Hall).
      rewrite Hes. eexists (_ :: es). cbn [concat].
      split; [by rewrite <- app_assoc|]. constructor; [|exact Hall].
      unfold slice_assign, MBF_PRESET_ENTRY_SIZE, PRESET_SIZE.
      rewrite take_0, drop_replicate. cbn [app]. split.
      * rewrite length_app, length_replicate, Hl. reflexivity.
      * rewrite E. exists bs. split; [done|]. by rewrite take_app_length'.
    + cbn [bind].
      destruct (IH (buf ++ replicate MBF_PRESET_ENTRY_SIZE x00))
        as (es & Hes & Hall).
      rewrite Hes. eexists (_ :: es). cbn [concat].
      split; [by rewrite <- app_assoc|]. constructor; [|exact Hall].
      rewrite E. split; [by rewrite length_replicate | reflexivity].
Qed.

Lemma concat_length_546 (entries : list bytes) :
  Forall (fun e => length e = 546%nat) entries ->
  len (concat entries) = 546 * len entries.
Proof.
  induction 1 as [|e es He _ IH]; [reflexivity|].
  cbn [concat]. rewrite len_app, len_cons, IH. unfold len. rewrite He. lia.
Qed.

(** Presets after the first 199 are not looked at. *)
Lemma export_mbf_entries_take (presets : list Preset.t) (indices : list nat) :
  Forall (fun i => (i < 199)%nat) indices ->
  forall buf,
    export_mbf_entries (take 199 presets) indices buf
    = export_mbf_entries presets indices buf.
Proof.
  induction 1 as [|i idx Hi _ IH]; intros buf; [reflexivity|].
  cbn [export_mbf_entries]. rewrite lookup_take_lt by done.
  destruct (presets !! i) as [p|]; cbn [bind].
  - destruct (Preset.to_bytes p); cbn [bind]; [apply IH | reflexivity].
  - apply IH.
Qed.

(** What [export_mbf] writes for presets that serialise and names that are
    ASCII: the 44-byte header and 199 entries of 546 bytes. *)
Lemma export_mbf_Ok (presets : list Preset.t) (manufacturer model_name : str) :
  is_ascii manufacturer -> is_ascii model_name ->
  Forall Preset_serialisable (take 199 presets) ->
  exists m n entries,
    encode_ascii manufacturer = Ok m /\ encode_ascii model_name = Ok n
    /\ export_mbf presets manufacturer model_name
       = Ok ((ljust 8 (take 8 m) ++ ljust 32 (take 32 n)
                ++ [x01; x00; x00; x00]) ++ concat entries)
    /\ Forall2 (fun i e =>
                  length e = 546%nat
                  /\ match presets !! i with
                     | Some p => exists bs, Preset.to_bytes p = Ok bs
                                            /\ take 512 e = bs
                     | None => e = replicate 546 x00
                     end) (seq 0 199) entries.
Proof.
  intros Hm Hn Hp.
  destruct (encode_ascii_Ok manufacturer Hm) as (m & Em & _).
  destruct (encode_ascii_Ok model_name Hn) as (n & En & _).
  unfold export_mbf. rewrite Em. cbn [bind]. rewrite En. cbn [bind app].
  destruct (export_mbf_entries_Ok presets (seq 0 MBF_PRESET_COUNT))
    with (buf := (ljust MBF_MANUFACTURER_SIZE (take MBF_MANUFACTURER_SIZE m)
                    ++ ljust MBF_MODEL_NAME_SIZE (take MBF_MODEL_NAME_SIZE n))
                   ++ [x01; x00; x00; x00])
    as (es & Hes & Hall).
  { apply Forall_forall. intros i Hi p Hpi.
    apply elem_of_seq in Hi.
    rewrite Forall_forall in Hp. apply Hp.
    apply elem_of_take. exists i. unfold MBF_PRESET_COUNT in Hi.
    split; [done | lia]. }
  exists m, n, es. split; [done|]. split; [done|]. split; [|exact Hall].
  rewrite Hes. by rewrite <- !app_assoc.
Qed.

(** X18.  For ASCII names and presets of which the first 199 serialise,
    [export_mbf] writes exactly [44 + 199 * 546] bytes, which start with the
    manufacturer in 8 bytes and the model name in 32 bytes, each cut or
    padded with zeros, and the version bytes [01 00 00 00]; presets after the
    first 199 change nothing. *)
Theorem export_mbf_layout (presets : list Preset.t)
    (manufacturer model_name : str) :
  is_ascii manufacturer -> is_ascii model_name ->
  Forall Preset_serialisable (take 199 presets) ->
  exists out m n,
    encode_ascii manufacturer = Ok m /\ encode_ascii model_name = Ok n
    /\ export_mbf presets manufacturer model_name = Ok out
    /\ len out = 44 + 199 * 546
    /\ take 44 out
       = ljust 8 (take 8 m) ++ ljust 32 (take 32 n) ++ [x01; x00; x00; x00]
    /\ export_mbf (take 199 presets) manufacturer model_name = Ok out.
Proof.
  intros Hm Hn Hp.
  destruct (export_mbf_Ok presets manufacturer model_name Hm Hn Hp)
    as (m & n & es & Em & En & Hout & Hes).
  assert (length (ljust 8 (take 8 m) ++ ljust 32 (take 32 n)
                    ++ [x01; x00; x00; x00]) = 44%nat) as Hh.
  { rewrite !length_app, !ljust_length by (rewrite length_take; lia).
    reflexivity. }
  eexists _, m, n. split; [done|]. split; [done|]. split; [exact Hout|].
  split; [|split].
  - rewrite len_app. unfold len at 1. rewrite Hh.
    rewrite concat_length_546.
    + apply Forall2_length in Hes. unfold len. rewrite <- Hes.
      rewrite length_seq. lia.
    + clear Hout. induction Hes as [|i e idx es [He _] _ IH]; by constructor.
  - by rewrite take_app_length'.
  - rewrite <- Hout. unfold export_mbf. rewrite Em, En. cbn [bind].
    apply export_mbf_entries_take.
    apply Forall_forall. intros i Hi. apply elem_of_seq in Hi.
    unfold MBF_PRESET_COUNT in Hi. lia.
Qed.

(** X19.  [export_mbf] raises [ValueError] (the [UnicodeEncodeError] of the
    strict codec) when the manufacturer or the model name has a character
    outside ASCII, wherever in the string it is and whatever the presets
    are. *)
Theorem export_mbf_rejects_non_ascii (presets : list Preset.t)
    (manufacturer model_name : str) :
  ~ (is_ascii manufacturer /\ is_ascii model_name) ->
  export_mbf presets manufacturer model_name = Raise ValueError.
Proof.
  intros Hn. unfold export_mbf.
  destruct (decide (is_ascii manufacturer)) as [Hm|Hm].
  - destruct (encode_ascii_Ok manufacturer Hm) as (m & -> & _). cbn [bind].
    rewrite encode_ascii_Raise; [done | tauto].
  - by rewrite encode_ascii_Raise.
Qed.

Lemma slice_prefix {A} (off n k : nat) (l : list A) :
  (k <= n)%nat -> slice 0 k (slice off (off + n) l) = slice off (off + k) l.
Proof.
  intros H. unfold slice. rewrite drop_0, take_take. f_equal. lia.
Qed.

(** The import loop on any data: one preset per whole entry that the data
    holds after [offset], at most [count] of them. *)
Lemma import_mbf_entries_any (data : bytes) (count : nat) :
  forall offset acc, exists ps,
    import_mbf_entries data count offset acc = Ok (acc ++ ps)
    /\ length ps = (count `min` ((length data - offset) / 546))%nat
    /\ Forall2 (fun i p =>
                  Preset.from_bytes
                    (slice (offset + i * 546) (offset + i * 546 + 512) data)
                  = Ok p) (seq 0 (length ps)) ps.
Proof.
  induction count as [|count IH]; intros offset acc.
  - exists []. cbn [import_mbf_entries]. rewrite app_nil_r.
    repeat split. constructor.
  - cbn [import_mbf_entries]. unfold MBF_PRESET_ENTRY_SIZE, PRESET_SIZE.
    case_decide as Hfit.
    + exists []. rewrite app_nil_r. split; [done|].
      rewrite Nat.div_small by lia. rewrite Nat.min_0_r.
      split; [done | constructor].
    + rewrite slice_prefix by (vm_compute; lia).
      destruct (Preset_decode (slice offset (offset + Z.to_nat 512) data))
        as (p & _ & Hp & _).
      rewrite Hp. cbn [bind].
      destruct (IH (offset + 546)%nat (acc ++ [p])) as (ps & Hps & Hl & Hall).
      exists (p :: ps). rewrite Hps, <- app_assoc. split; [done|].
      split.
      * cbn [length]. rewrite Hl.
        replace (length data - offset)%nat
          with ((length data - (offset + 546)) + 1 * 546)%nat by lia.
        rewrite Nat.div_add by lia. lia.
      * cbn [length seq]. constructor.
        { rewrite Nat.mul_0_l, Nat.add_0_r. exact Hp. }
        rewrite <- fmap_S_seq. apply Forall2_fmap_l.
        eapply Forall2_impl; [exact Hall|].
        intros i q Hq. unfold compose. cbn beta in Hq |- *.
        replace (offset + S i * 546)%nat with (offset + 546 + i * 546)%nat
          by lia.
        exact Hq.
Qed.

(** X20.  [import_mbf] raises on no data.  It returns one preset per whole
    546-byte entry that the data holds after the 44-byte header, at most
    199 of them, the preset of index [i] being decoded from the 512 bytes
    at [44 + 546 * i]; data shorter than one entry gives the empty list. *)
Theorem import_mbf_any (data : bytes) :
  exists ps,
    import_mbf data = Ok ps
    /\ length ps = (199 `min` ((length data - 44) / 546))%nat
    /\ Forall2 (fun i p =>
                  Preset.from_bytes
                    (slice (44 + i * 546) (44 + i * 546 + 512) data)
                  = Ok p) (seq 0 (length ps)) ps.
Proof.
  destruct (import_mbf_entries_any data MBF_PRESET_COUNT
              (MBF_MANUFACTURER_SIZE + MBF_MODEL_NAME_SIZE + 4) [])
    as (ps & Hps & Hl & Hall).
  exists ps. split; [exact Hps|]. split; [exact Hl | exact Hall].
Qed.

(** The import loop on a header followed by exactly [count] entries. *)
Lemma import_mbf_entries_concat (entries : list bytes) (ps : list Preset.t) :
  Forall2 (fun e p => length e = 546%nat
                      /\ Preset.from_bytes (take 512 e) = Ok p) entries ps ->
  forall pre acc,
    import_mbf_entries (pre ++ concat entries) (length entries) (length pre)
      acc
    = Ok (acc ++ ps).
Proof.
  induction 1 as [|e p es ps [He Hp] _ IH]; intros pre acc.
  - cbn. by rewrite app_nil_r.
  - cbn [length concat import_mbf_entries].
    unfold MBF_PRESET_ENTRY_SIZE, PRESET_SIZE.
    rewrite decide_False by (rewrite !length_app; lia).
    rewrite (slice_app_exact pre e (concat es)) by lia.
    assert (slice 0 (Z.to_nat 512) e = take 512 e) as ->
      by (unfold slice; by rewrite drop_0).
    rewrite Hp. cbn [bind].
    replace (length pre + 546)%nat with (length (pre ++ e))
      by (rewrite length_app; lia).
    rewrite (app_assoc pre e). rewrite IH. by rewrite <- app_assoc.
Qed.

Lemma Preset_from_zeros : Preset.from_bytes (replicate 512 x00) = Ok Preset_blank.
Proof. vm_compute. reflexivity. Qed.

(** X21.  For ASCII names and valid presets, [import_mbf] on the bytes that
    [export_mbf] writes returns 199 presets: the first 199 of the given
    presets, in order, followed by blank presets, whose effect order is ten
    zeros and not the default [0..9]. *)
Theorem mbf_roundtrip (presets : list Preset.t)
    (manufacturer model_name : str) :
  is_ascii manufacturer -> is_ascii model_name ->
  Forall Preset_valid presets ->
  exists out,
    export_mbf presets manufacturer model_name = Ok out
    /\ import_mbf out
       = Ok (take 199 presets
               ++ replicate (199 - length presets) Preset_blank).
Proof.
  intros Hm Hn Hv.
  destruct (export_mbf_Ok presets manufacturer model_name Hm Hn)
    as (m & n & es & Em & En & Hout & Hes).
  { apply Forall_take. eapply Forall_impl; [exact Hv|].
    apply valid_serialisable. }
  eexists. split; [exact Hout|].
  assert (length (ljust 8 (take 8 m) ++ ljust 32 (take 32 n)
                    ++ [x01; x00; x00; x00]) = 44%nat) as Hh.
  { rewrite !length_app, !ljust_length by (rewrite length_take; lia).
    reflexivity. }
  pose proof (Forall2_length _ _ _ Hes) as Hlen. rewrite length_seq in Hlen.
  unfold import_mbf.
  change (MBF_MANUFACTURER_SIZE + MBF_MODEL_NAME_SIZE + 4)%nat with 44%nat.
  unfold MBF_PRESET_COUNT.
  match goal with |- import_mbf_entries (?h ++ _) _ _ _ = Ok ?ps =>
    pose proof (import_mbf_entries_concat es ps) as Himp;
    specialize (fun H => Himp H h [])
  end.
  rewrite Hh, <- Hlen in Himp. apply Himp. clear Himp.
  apply Forall2_same_length_lookup. split.
  { rewrite length_app, length_take, length_replicate. lia. }
  intros i e p He Hp.
  destruct (Forall2_lookup_r _ _ _ _ _ Hes He) as (j & Hj & Hle & Hpre).
  apply lookup_seq in Hj as [-> Hi]. cbn [Nat.add] in *.
  split; [exact Hle|].
  destruct (presets !! i) as [q|] eqn:E.
  - destruct Hpre as (bs & Hbs & ->).
    rewrite lookup_app_l in Hp
      by (rewrite length_take; apply lookup_lt_Some in E; lia).
    rewrite lookup_take_lt in Hp by lia.
    assert (q = p) as -> by congruence.
    rewrite Forall_forall in Hv.
    destruct (Preset_decode_encoded p) as (bs' & Hbs' & _ & Hfrom).
    { apply Hv. by apply list_elem_of_lookup_2 in E. }
    congruence.
  - apply lookup_ge_None in E.
    rewrite lookup_app_r in Hp by (rewrite length_take; lia).
    apply lookup_replicate in Hp as [-> _].
    rewrite Hpre, take_replicate. apply Preset_from_zeros.
Qed.

(** ** Modules by name *)

(** X22.  [Preset.get_module] returns, for each of the nine module names,
    the module of the preset that the name stands for ([fx], [od], [amp],
    [cab], [ns], [eq], [mod], [delay], [reverb]), and
    [MODULE_COMMAND_MAP] has the command of that module for the name.  The
    names for which [get_module] returns are exactly the nine, and so are
    the names that have a command in [MODULE_COMMAND_MAP].  For any other
    name [get_module] raises [ValueError], [MODULE_COMMAND_MAP] has no
    entry, and [build_effect_param] raises [ValueError] whatever the index
    and the value. *)
Theorem get_module_names (self : Preset.t) (name : string) :
  (name ∉ MODULE_NAMES ->
   get_module self name = Raise ValueError
   /\ MODULE_COMMAND_MAP !! name = None
   /\ forall crc16 param_index value,
        build_effect_param crc16 name param_index value = Raise ValueError)
  /\ (name ∈ MODULE_NAMES <-> exists m, get_module self name = Ok m)
  /\ (name ∈ MODULE_NAMES
      <-> exists cmd, MODULE_COMMAND_MAP !! name = Some cmd)
  /\ (get_module self "fx" = Ok (IsFX (Preset.fx self))
      /\ MODULE_COMMAND_MAP !! "fx" = Some FX)
  /\ (get_module self "od" = Ok (IsDistortion (Preset.od self))
      /\ MODULE_COMMAND_MAP !! "od" = Some DS_OD)
  /\ (get_module self "amp" = Ok (IsAmp (Preset.amp self))
      /\ MODULE_COMMAND_MAP !! "amp" = Some AMP)
  /\ (get_module self "cab" = Ok (IsCab (Preset.cab self))
      /\ MODULE_COMMAND_MAP !! "cab" = Some CAB)
  /\ (get_module self "ns" = Ok (IsNoiseGate (Preset.ns self))
      /\ MODULE_COMMAND_MAP !! "ns" = Some NS_GATE)
  /\ (get_module self "eq" = Ok (IsEQ (Preset.eq self))
      /\ MODULE_COMMAND_MAP !! "eq" = Some EQ)
  /\ (get_module self "mod" = Ok (IsModulation (Preset.mod_ self))
      /\ MODULE_COMMAND_MAP !! "mod" = Some MOD)
  /\ (get_module self "delay" = Ok (IsDelay (Preset.delay self))
      /\ MODULE_COMMAND_MAP !! "delay" = Some DELAY)
  /\ (get_module self "reverb" = Ok (IsReverb (Preset.reverb self))
      /\ MODULE_COMMAND_MAP !! "reverb" = Some REVERB).
Proof.
  assert (name ∉ MODULE_NAMES -> get_module self name = Raise ValueError)
    as Hout.
  { intros Hn. unfold get_module. cbn zeta.
    rewrite decide_True; [done|]. by apply not_elem_of_list_to_map. }
  assert (name ∈ MODULE_NAMES ->
          (exists m, get_module self name = Ok m)
          /\ exists cmd, MODULE_COMMAND_MAP !! name = Some cmd) as Hin.
  { intros Hin. unfold MODULE_NAMES in Hin.
    repeat (apply elem_of_cons in Hin as [->|Hin];
            [split; eexists; reflexivity|]).
    by apply elem_of_nil in Hin. }
  split; [|split; [|split; [|repeat split]]].
  - intros Hn. split; [by apply Hout|].
    split; [by apply module_unknown|].
    intros crc16 i v. unfold build_effect_param.
    rewrite decide_True; [done | by apply module_unknown].
  - split; [intros H; by apply Hin|].
    intros [m Hm]. destruct (decide (name ∈ MODULE_NAMES)) as [|Hn]; [done|].
    rewrite (Hout Hn) in Hm. discriminate.
  - split; [intros H; by apply Hin|].
    intros [cmd Hc]. destruct (decide (name ∈ MODULE_NAMES)) as [|Hn]; [done|].
    apply module_unknown in Hn. congruence.
Qed.

(** ** A preset on the wire *)

Section Wire.

Variable crc16 : bytes -> Z.
Hypothesis crc16_u16 : forall body, 0 <= crc16 body < 65536.

(** X23.  A valid preset survives the wire in both directions: the
    reports that [build_store_preset] builds from its record reassemble to
    the frame of command [0xA8] carrying the slot byte and the record;
    [parse_response] on a preset frame ([0x83]) carrying the slot byte and
    the record returns the slot and the record; and [Preset.from_bytes] on
    the record returns the preset. *)
Theorem preset_over_the_wire (p : Preset.t) (slot : Z) :
  Preset_valid p -> 0 <= slot <= 199 ->
  exists bs s rs,
    Preset.to_bytes p = Ok bs
    /\ byte_to_int s = slot
    /\ build_store_preset crc16 slot bs = Ok rs
    /\ parse_chunked_frames crc16 rs = Ok (Some (mkFrame 0xA8 (s :: bs)))
    /\ parse_response (mkFrame 0x83 (s :: bs))
       = Ok (Typed (PresetResponse slot bs))
    /\ Preset.from_bytes bs = Ok p.
Proof.
  intros Hv Hslot.
  destruct (Preset_decode_encoded p Hv) as (bs & Hbs & Hl & Hfrom).
  destruct (int_to_byte_is_Some slot) as (s & Hs & Es); [lia|].
  destruct (build_chunked_frames_reports crc16 crc16_u16
              (Command_value STORE_PATCH) (s :: bs)) as (rs & Hrs & _ & Hp).
  { apply Command_value_byte. }
  { rewrite len_cons. unfold len. lia. }
  exists bs, s, rs. split; [exact Hbs|]. split; [exact Es|].
  split; [|split; [exact Hp|split; [|exact Hfrom]]].
  - unfold build_store_preset.
    case_decide; [lia|].
    case_decide as Hd; [unfold len in Hd; rewrite Hl in Hd; lia|].
    cbn [bytes_of]. rewrite Hs. cbn [bind]. exact Hrs.
  - unfold parse_response.
    change (command (mkFrame 0x83 (s :: bs))) with (Command_value PRESET).
    rewrite Command_of_value_value. cbn [bind parsers_get].
    unfold parse_preset_response.
    rewrite decide_False by (intros H; by apply H). cbn [payload].
    rewrite decide_False
      by (rewrite len_cons; pose proof (len_nonneg bs); lia).
    rewrite getitem_0, Es. reflexivity.
Qed.

End Wire.

(** * The further properties on given values *)

Lemma chunked_frames_decode_any_size_witness :
  (forall body, 0 <= Crc.crc16 body < 65536)
  /\ 0 <= 0xA6 <= 255
  /\ len [x05] <= 65534
  /\ exists rs,
       build_chunked_frames Crc.crc16 0xA6 [x05] = Ok rs
       /\ parse_chunked_frames Crc.crc16 rs = Ok (Some (mkFrame 0xA6 [x05])).
Proof.
  split; [exact Crc_crc16_u16|]. split; [lia|].
  split; [unfold len; cbn [length]; lia|].
  apply (chunked_frames_decode_any_size Crc.crc16 Crc_crc16_u16 0xA6 [x05]);
    [lia | unfold len; cbn [length]; lia].
Defined.

Lemma chunked_frames_count_witness :
  (forall body, 0 <= Crc.crc16 body < 65536)
  /\ 0 <= 0xA8 <= 255
  /\ len (replicate 513 x00) <= 65534
  /\ exists rs,
       build_chunked_frames Crc.crc16 0xA8 (replicate 513 x00) = Ok rs
       /\ len rs = (7 + len (replicate 513 x00) + 62) / 63.
Proof.
  split; [exact Crc_crc16_u16|]. split; [lia|].
  split; [unfold len; rewrite length_replicate; lia|].
  apply (chunked_frames_count Crc.crc16 Crc_crc16_u16 0xA8
           (replicate 513 x00));
    [lia | unfold len; rewrite length_replicate; lia].
Defined.

(** An empty report and the padding of a report change nothing. *)
Lemma parse_chunked_frames_declared_witness :
  concat (map declared_chunk [[x02; x01; x02; x09]])
  = concat (map declared_chunk [[]; [x02; x01; x02]])
  /\ parse_chunked_frames Crc.crc16 [[x02; x01; x02; x09]]
     = parse_chunked_frames Crc.crc16 [[]; [x02; x01; x02]]
  /\ exists r, parse_chunked_frames Crc.crc16 [[x02; x01; x02; x09]] = Ok r.
Proof.
  split; [reflexivity|].
  apply (parse_chunked_frames_declared Crc.crc16 [[x02; x01; x02; x09]]
           [[]; [x02; x01; x02]]).
  reflexivity.
Defined.

(** A payload of 249 bytes makes a frame of 256 bytes. *)
Lemma build_frame_limits_witness :
  (forall body, 0 <= Crc.crc16 body < 65536)
  /\ 0 <= 0x83 <= 255
  /\ 248 < len (replicate 249 x00) <= 65534
  /\ build_frame Crc.crc16 0x83 (replicate 249 x00) = Raise ValueError.
Proof.
  assert (248 < len (replicate 249 x00) <= 65534) as H
    by (unfold len; rewrite length_replicate; lia).
  split; [exact Crc_crc16_u16|]. split; [lia|]. split; [exact H|].
  apply (proj1 (proj2 (build_frame_limits Crc.crc16 Crc_crc16_u16 0x83
                         (replicate 249 x00) ltac:(lia)))).
  exact H.
Defined.

Lemma builders_parse_back_witness :
  (forall body, 0 <= Crc.crc16 body < 65536)
  /\ 0 <= 5 <= 199
  /\ exists r b,
       byte_to_int b = 5
       /\ build_select_preset Crc.crc16 5 = Ok r
       /\ parse_frame Crc.crc16 r = Ok (Some (mkFrame 0xA6 [b])).
Proof.
  split; [exact Crc_crc16_u16|]. split; [lia|].
  apply (proj1 (builders_parse_back Crc.crc16 Crc_crc16_u16) 5). lia.
Defined.

Lemma effect_param_frames_witness :
  (forall body, 0 <= Crc.crc16 body < 65536)
  /\ "amp" ∈ MODULE_NAMES
  /\ 0 <= 3 <= 255
  /\ 0 <= 64 <= 255
  /\ exists cmd r bi bv t,
       MODULE_COMMAND_MAP !! "amp" = Some cmd
       /\ 0x90 <= Command_value cmd <= 0x99
       /\ byte_to_int bi = 3 /\ byte_to_int bv = 64
       /\ build_effect_param Crc.crc16 "amp" 3 64 = Ok r
       /\ parse_frame Crc.crc16 r
          = Ok (Some (mkFrame (Command_value cmd) [bi; bv]))
       /\ build_toggle_effect Crc.crc16 "amp" true = Ok t
       /\ parse_frame Crc.crc16 t
          = Ok (Some (mkFrame (Command_value cmd) [x01; x01])).
Proof.
  assert ("amp" ∈ MODULE_NAMES) as H by decide_by_evaluation.
  split; [exact Crc_crc16_u16|]. split; [exact H|].
  split; [lia|]. split; [lia|].
  apply (effect_param_frames Crc.crc16 Crc_crc16_u16 "amp" 3 64 true H); lia.
Defined.

Lemma store_preset_reports_witness :
  (forall body, 0 <= Crc.crc16 body < 65536)
  /\ 0 <= 3 <= 199
  /\ len (zeros 512) = 512
  /\ exists rs s,
       byte_to_int s = 3
       /\ build_store_preset Crc.crc16 3 (zeros 512) = Ok rs
       /\ len rs = 9
       /\ parse_chunked_frames Crc.crc16 rs
          = Ok (Some (mkFrame 0xA8 (s :: zeros 512))).
Proof.
  split; [exact Crc_crc16_u16|]. split; [lia|]. split; [reflexivity|].
  apply (store_preset_reports Crc.crc16 Crc_crc16_u16 3 (zeros 512));
    [lia | reflexivity].
Defined.

Lemma parse_response_dispatch_witness :
  VOLUME ∈ [PRESET; ACTIVE_PATCH; VOLUME]
  /\ parse_response (mkFrame (Command_value VOLUME) [])
     = Ok (Untyped (mkFrame (Command_value VOLUME) [])).
Proof.
  assert (VOLUME ∈ [PRESET; ACTIVE_PATCH; VOLUME]) as H
    by decide_by_evaluation.
  split; [exact H|].
  apply (proj1 (proj2 (proj2 (proj2 parse_response_dispatch))) VOLUME H).
Defined.

Lemma parse_identify_fields_witness :
  command (mkFrame 0x10 [x01; x02]) = 0x10
  /\ exists firmware device_name,
       parse_identify (mkFrame 0x10 [x01; x02])
       = Ok (Some (IdentifyResponse firmware device_name [x01; x02]))
       /\ (length device_name <= 11)%nat
       /\ Forall (fun ch => ch <> 0%N) device_name
       /\ firmware <> []
       /\ (len [x01; x02] < 16 ->
           firmware = str_lit "unknown"
           /\ device_name = str_lit "unknown").
Proof.
  split; [reflexivity|].
  apply (proj2 (parse_identify_fields (mkFrame 0x10 [x01; x02]))).
  reflexivity.
Defined.

(** An FX module with eight reserved bytes: the last two are dropped. *)
Lemma modules_encode_decode_witness :
  FX_serialisable (FXModule.mk 0 1 2 3 4 5 6 (zeros 8))
  /\ exists bs,
       FXModule.to_bytes (FXModule.mk 0 1 2 3 4 5 6 (zeros 8)) = Ok bs
       /\ FXModule.from_bytes bs
          = Ok (FXModule.mk 0 1 2 3 4 5 6 (take 6 (zeros 8))).
Proof.
  assert (FX_serialisable (FXModule.mk 0 1 2 3 4 5 6 (zeros 8))) as H
    by decide_by_evaluation.
  split; [exact H|].
  apply (proj1 modules_encode_decode (FXModule.mk 0 1 2 3 4 5 6 (zeros 8)) H).
Defined.

(** A name of 17 characters, an effect order of 3 values and an FX module
    with 8 reserved bytes. *)
Lemma Preset_encode_decode_witness :
  Preset_serialisable preset_long_name
  /\ Forall (fun c => 0 < c < 128)%N (Preset.name preset_long_name)
  /\ Forall is_byte (Preset.effect_order preset_long_name)
  /\ exists bs p',
       Preset.to_bytes preset_long_name = Ok bs
       /\ Preset.from_bytes bs = Ok p'
       /\ Preset_valid p'
       /\ Preset.name p' = take 14 (Preset.name preset_long_name)
       /\ Preset.effect_order p'
          = take 10 (Preset.effect_order preset_long_name)
              ++ replicate
                   (10 - length
                           (take 10 (Preset.effect_order preset_long_name)))
                   0.
Proof.
  assert (Preset_serialisable preset_long_name) as Hs
    by decide_by_evaluation.
  assert (Forall (fun c => 0 < c < 128)%N (Preset.name preset_long_name))
    as Hn by decide_by_evaluation.
  assert (Forall is_byte (Preset.effect_order preset_long_name)) as He
    by decide_by_evaluation.
  split; [exact Hs|]. split; [exact Hn|]. split; [exact He|].
  apply (Preset_encode_decode preset_long_name Hs Hn He).
Defined.

Lemma mo_roundtrip_witness :
  Preset_valid preset_example
  /\ exists out, export_mo preset_example = Ok out
                 /\ import_mo out = Ok preset_example.
Proof.
  assert (Preset_valid preset_example) as H by decide_by_evaluation.
  split; [exact H|]. apply (mo_roundtrip preset_example H).
Defined.

(** A header that announces two bytes of information and holds three. *)
Lemma parse_gnr_header_spec_witness :
  12 <= len (GNR_MAGIC ++ [x02; x00; x00; x00; x41; x42; x43])
  /\ take 8 (GNR_MAGIC ++ [x02; x00; x00; x00; x41; x42; x43]) = GNR_MAGIC
  /\ parse_gnr_header (GNR_MAGIC ++ [x02; x00; x00; x00; x41; x42; x43])
     = Ok (mkGnrHeader (str_lit "mooerge") 2 [x41; x42] 14).
Proof.
  assert (12 <= len (GNR_MAGIC ++ [x02; x00; x00; x00; x41; x42; x43])) as Hl
    by (unfold len; cbn [length app GNR_MAGIC]; lia).
  split; [exact Hl|]. split; [reflexivity|].
  apply (proj2 (parse_gnr_header_spec
                  (GNR_MAGIC ++ [x02; x00; x00; x00; x41; x42; x43]))
           Hl eq_refl).
Defined.

Lemma export_mbf_layout_witness :
  is_ascii MBF_DEFAULT_MANUFACTURER
  /\ is_ascii MBF_DEFAULT_MODEL_NAME
  /\ Forall Preset_serialisable (take 199 [preset_example])
  /\ exists out m n,
       encode_ascii MBF_DEFAULT_MANUFACTURER = Ok m
       /\ encode_ascii MBF_DEFAULT_MODEL_NAME = Ok n
       /\ export_mbf [preset_example] MBF_DEFAULT_MANUFACTURER
            MBF_DEFAULT_MODEL_NAME = Ok out
       /\ len out = 44 + 199 * 546
       /\ take 44 out
          = ljust 8 (take 8 m) ++ ljust 32 (take 32 n)
              ++ [x01; x00; x00; x00]
       /\ export_mbf (take 199 [preset_example]) MBF_DEFAULT_MANUFACTURER
            MBF_DEFAULT_MODEL_NAME = Ok out.
Proof.
  assert (is_ascii MBF_DEFAULT_MANUFACTURER) as Hm by decide_by_evaluation.
  assert (is_ascii MBF_DEFAULT_MODEL_NAME) as Hn by decide_by_evaluation.
  assert (Forall Preset_serialisable (take 199 [preset_example])) as Hp
    by decide_by_evaluation.
  split; [exact Hm|]. split; [exact Hn|]. split; [exact Hp|].
  apply (export_mbf_layout [preset_example] MBF_DEFAULT_MANUFACTURER
           MBF_DEFAULT_MODEL_NAME Hm Hn Hp).
Defined.

(** A manufacturer name with an e acute. *)
Lemma export_mbf_rejects_non_ascii_witness :
  ~ (is_ascii [77%N; 233%N] /\ is_ascii MBF_DEFAULT_MODEL_NAME)
  /\ export_mbf [preset_example] [77%N; 233%N] MBF_DEFAULT_MODEL_NAME
     = Raise ValueError.
Proof.
  assert (~ (is_ascii [77%N; 233%N] /\ is_ascii MBF_DEFAULT_MODEL_NAME)) as H
    by decide_by_evaluation.
  split; [exact H|].
  apply (export_mbf_rejects_non_ascii [preset_example] [77%N; 233%N]
           MBF_DEFAULT_MODEL_NAME H).
Defined.

Lemma mbf_roundtrip_witness :
  is_ascii MBF_DEFAULT_MANUFACTURER
  /\ is_ascii MBF_DEFAULT_MODEL_NAME
  /\ Forall Preset_valid [preset_example]
  /\ exists out,
       export_mbf [preset_example] MBF_DEFAULT_MANUFACTURER
         MBF_DEFAULT_MODEL_NAME = Ok out
       /\ import_mbf out
          = Ok (take 199 [preset_example]
                  ++ replicate (199 - length [preset_example]) Preset_blank).
Proof.
  assert (is_ascii MBF_DEFAULT_MANUFACTURER) as Hm by decide_by_evaluation.
  assert (is_ascii MBF_DEFAULT_MODEL_NAME) as Hn by decide_by_evaluation.
  assert (Forall Preset_valid [preset_example]) as Hp
    by decide_by_evaluation.
  split; [exact Hm|]. split; [exact Hn|]. split; [exact Hp|].
  apply (mbf_roundtrip [preset_example] MBF_DEFAULT_MANUFACTURER
           MBF_DEFAULT_MODEL_NAME Hm Hn Hp).
Defined.

Lemma get_module_names_witness :
  ("wah" ∉ MODULE_NAMES)
  /\ get_module preset_example "wah" = Raise ValueError
  /\ MODULE_COMMAND_MAP !! "wah" = None
  /\ forall crc16 param_index value,
       build_effect_param crc16 "wah" param_index value = Raise ValueError.
Proof.
  assert ("wah" ∉ MODULE_NAMES) as H by decide_by_evaluation.
  split; [exact H|].
  apply (proj1 (get_module_names preset_example "wah") H).
Defined.

Lemma preset_over_the_wire_witness :
  (forall body, 0 <= Crc.crc16 body < 65536)
  /\ Preset_valid preset_example
  /\ 0 <= 7 <= 199
  /\ exists bs s rs,
       Preset.to_bytes preset_example = Ok bs
       /\ byte_to_int s = 7
       /\ build_store_preset Crc.crc16 7 bs = Ok rs
       /\ parse_chunked_frames Crc.crc16 rs
          = Ok (Some (mkFrame 0xA8 (s :: bs)))
       /\ parse_response (mkFrame 0x83 (s :: bs))
          = Ok (Typed (PresetResponse 7 bs))
       /\ Preset.from_bytes bs = Ok preset_example.
Proof.
  assert (Preset_valid preset_example) as H by decide_by_evaluation.
  split; [exact Crc_crc16_u16|]. split; [exact H|]. split; [lia|].
  apply (preset_over_the_wire Crc.crc16 Crc_crc16_u16 preset_example 7 H).
  lia.
Defined.

(** ** Reports and builders *)

(** The first report of a 513-byte answer (command [0x83], size field
    [01 02]): 58 of the payload bytes and no checksum.  The checksum of the
    59 body bytes at hand is 0, and [parse_frame] returns a frame with the
    58 bytes for a payload. *)
Lemma parse_frame_accepts_truncated_witness :
  7 <= byte_to_int x3f
  /\ 2 <= len (replicate 56 x00 ++ [x7f; x6a])
  /\ len (x83 :: replicate 56 x00 ++ [x7f; x6a])
     <= from_bytes_little [x01; x02]
  /\ Crc.crc16 (x83 :: replicate 56 x00 ++ [x7f; x6a]) = 0
  /\ frame_rejected Crc.crc16
       (x3f :: xaa :: x55 :: x01 :: x02 :: x83
          :: replicate 56 x00 ++ [x7f; x6a])
  /\ parse_frame Crc.crc16
       (x3f :: xaa :: x55 :: x01 :: x02 :: x83
          :: replicate 56 x00 ++ [x7f; x6a])
     = Ok (Some (mkFrame (byte_to_int x83)
                   (replicate 56 x00 ++ [x7f; x6a]))).
Proof.
  assert (7 <= byte_to_int x3f) as H1 by decide_by_evaluation.
  assert (2 <= len (replicate 56 x00 ++ [x7f; x6a])) as H2
    by decide_by_evaluation.
  assert (len (x83 :: replicate 56 x00 ++ [x7f; x6a])
          <= from_bytes_little [x01; x02]) as H3 by decide_by_evaluation.
  assert (Crc.crc16 (x83 :: replicate 56 x00 ++ [x7f; x6a]) = 0) as H4
    by (vm_compute; reflexivity).
  split; [exact H1|]. split; [exact H2|]. split; [exact H3|].
  split; [exact H4|].
  apply (parse_frame_accepts_truncated Crc.crc16 x3f x01 x02 x83
           (replicate 56 x00 ++ [x7f; x6a]) H1 H2 H3 H4).
Defined.

(** The report of command [0xA5] with a payload of 57 zero bytes has 65
    bytes. *)
Lemma build_frame_over_64_bytes_witness :
  (forall body, 0 <= Crc.crc16 body < 65536)
  /\ 0 <= 0xA5 <= 255
  /\ 56 < len (zeros 57) <= 248
  /\ exists r, build_frame Crc.crc16 0xA5 (zeros 57) = Ok r
               /\ len r = 8 + len (zeros 57)
               /\ 64 < len r.
Proof.
  assert (56 < len (zeros 57) <= 248) as H by decide_by_evaluation.
  split; [exact Crc_crc16_u16|]. split; [lia|]. split; [exact H|].
  apply (build_frame_over_64_bytes Crc.crc16 Crc_crc16_u16 0xA5 (zeros 57));
    [lia | exact H].
Defined.

Lemma chunked_reports_layout_witness :
  (forall body, 0 <= Crc.crc16 body < 65536)
  /\ 0 <= 0x83 <= 255
  /\ len (zeros 100) <= 65534
  /\ exists rs chunks c s0 s1 k0 k1,
       build_chunked_frames Crc.crc16 0x83 (zeros 100) = Ok rs
       /\ Forall2 chunk_report chunks rs
       /\ Forall (fun chunk => 0 < len chunk <= 63) chunks
       /\ Forall (fun r => len r = 64) rs
       /\ concat chunks
          = xaa :: x55 :: s0 :: s1 :: c :: zeros 100 ++ [k0; k1]
       /\ byte_to_int c = 0x83
       /\ from_bytes_little [s0; s1] = 1 + len (zeros 100)
       /\ from_bytes_little [k0; k1] = Crc.crc16 (c :: zeros 100).
Proof.
  assert (len (zeros 100) <= 65534) as H by decide_by_evaluation.
  split; [exact Crc_crc16_u16|]. split; [lia|]. split; [exact H|].
  apply (chunked_reports_layout Crc.crc16 Crc_crc16_u16 0x83 (zeros 100));
    [lia | exact H].
Defined.

Lemma builders_validate_witness :
  (forall body, 0 <= Crc.crc16 body < 65536)
  /\ ~ (0 <= 200 <= 199)
  /\ build_select_preset Crc.crc16 200 = Raise ValueError.
Proof.
  split; [exact Crc_crc16_u16|]. split; [lia|].
  apply (proj1 (builders_validate Crc.crc16 Crc_crc16_u16) 200). lia.
Defined.

(** With a known module name and a value in range, the parameter index 256
    makes [build_effect_param] raise [ValueError]: [bytes([256, 0])]
    does. *)
Lemma build_effect_param_index_256 :
  "amp" ∈ MODULE_NAMES
  /\ 0 <= 0 <= 255
  /\ build_effect_param Crc.crc16 "amp" 256 0 = Raise ValueError.
Proof.
  split; [decide_by_evaluation|]. split; [lia|]. vm_compute. reflexivity.
Qed.
